(** * Point&Click adapter: the browser extension's relay, router and DOM executor

    A shallow embedding of [extension/background.js] (the MV3 service worker:
    relay client, command router, tab session manager) and of
    [extension/contentScript.js] (the DOM command executor), with the
    properties of the command protocol proved about them.

    Conventions.
    - A JavaScript value is a [JSValue]; commands arrive as parsed JSON.
    - A JavaScript function that may throw, and a promise that resolves or
      rejects, both yield an [Outcome].
    - Code that reads and writes ambient state (the DOM, the worker's
      globals, the browser) is written in the state-and-exception monad [M].
    - The browser and the page are the environment: the page is a [Document]
      record, the [chrome.*] API an instance of the class [Chrome].
    - An event handler runs to its end before the next event is taken, and
      a call of the [chrome.*] API settles: what is proved of a handler is
      proved of the runs in which the promises it awaits settle.  Where a
      promise of the program itself can stay pending ([waitForSelector],
      [waitForTabComplete]) it is modelled event by event. *)

From Stdlib Require Import String Ascii List ZArith Bool Lia DecimalString.
Import ListNotations.
Open Scope string_scope.
Open Scope Z_scope.
Set Warnings "-register-all".

(* ================================================================== *)
(** * JavaScript values *)
(* ================================================================== *)

(** Numbers on this protocol are milliseconds, indices and counts.  An
    integer-valued number is [JNum z]; a number that is not an integer is
    [JReal fl repr], given by its floor and by its decimal rendering, which is
    all the code ever asks of it (integrality, truthiness, comparison with an
    integer clock, conversion to a string). *)
Inductive JSValue : Type :=
| JUndefined
| JNull
| JBool (b : bool)
| JNum (z : Z)
| JReal (fl : Z) (repr : string)
| JStr (s : string)
| JArr (xs : list JSValue)
| JObj (fields : list (string * JSValue)).

(** An exception value: an [Error] object with its [name] and [message]. *)
Record Exn : Type := mkExn { ename : string; emessage : string }.

Definition Error (msg : string) : Exn := mkExn "Error" msg.
Definition TypeError (msg : string) : Exn := mkExn "TypeError" msg.

Inductive Outcome (A : Type) : Type :=
| Resolved (a : A)
| Rejected (e : Exn).
Arguments Resolved {A} a.
Arguments Rejected {A} e.

(** ToBoolean. *)
Definition truthy (v : JSValue) : bool :=
  match v with
  | JUndefined | JNull => false
  | JBool b => b
  | JNum z => negb (z =? 0)
  | JReal _ _ => true
  | JStr s => negb (s =? "")%string
  | JArr _ | JObj _ => true
  end.

(** [a || b] and [a ?? b]. *)
Definition js_or (a b : JSValue) : JSValue := if truthy a then a else b.
Definition js_nullish (a b : JSValue) : JSValue :=
  match a with JUndefined | JNull => b | _ => a end.

(** [Number.isInteger]. *)
Definition Number_isInteger (v : JSValue) : bool :=
  match v with JNum _ => true | _ => false end.

(** [v === "s"] against a string literal. *)
Definition is_str (v : JSValue) (s : string) : bool :=
  match v with JStr t => (t =? s)%string | _ => false end.

(** The default of a destructuring pattern [{ k = d }]: used when the
    property is [undefined]. *)
Definition with_default (v d : JSValue) : JSValue :=
  match v with JUndefined => d | _ => v end.

Fixpoint assoc (k : string) (fs : list (string * JSValue)) : JSValue :=
  match fs with
  | [] => JUndefined
  | (k', v) :: rest => if (k' =? k)%string then v else assoc k rest
  end.

(** Property read [v.k].  Reading a property of [null] or [undefined]
    throws; the property names read by this program are own properties of
    plain objects only, so every other primitive and every array gives
    [undefined]. *)
Definition getProp (v : JSValue) (k : string) : Outcome JSValue :=
  match v with
  | JUndefined =>
      Rejected (TypeError ("Cannot read properties of undefined (reading '" ++ k ++ "')"))
  | JNull =>
      Rejected (TypeError ("Cannot read properties of null (reading '" ++ k ++ "')"))
  | JObj fs => Resolved (assoc k fs)
  | _ => Resolved JUndefined
  end.

(** Optional chaining [v?.k]. *)
Definition getPropOpt (v : JSValue) (k : string) : JSValue :=
  match v with
  | JObj fs => assoc k fs
  | _ => JUndefined
  end.

Definition string_of_Z (z : Z) : string := NilEmpty.string_of_int (Z.to_int z).

Fixpoint join (sep : string) (xs : list string) : string :=
  match xs with
  | [] => ""
  | [x] => x
  | x :: rest => x ++ sep ++ join sep rest
  end.

(** [String(v)].  Integers print in plain decimal (as JavaScript does below
    1e21); [null] and [undefined] print as the empty string inside an
    array. *)
Fixpoint ToString (v : JSValue) : string :=
  match v with
  | JUndefined => "undefined"
  | JNull => "null"
  | JBool true => "true"
  | JBool false => "false"
  | JNum z => string_of_Z z
  | JReal _ repr => repr
  | JStr s => s
  | JArr xs =>
      join "," (map (fun x => match x with
                              | JUndefined | JNull => ""
                              | _ => ToString x
                              end) xs)
  | JObj _ => "[object Object]"
  end.

(** [String(e?.message || e)] for a thrown [Error]: the message, or, when
    the message is empty, [Error.prototype.toString], which then yields the
    name. *)
Definition errText (e : Exn) : string :=
  if (emessage e =? "")%string then ename e else emessage e.

(** [hay.includes(needle)] on strings. *)
Fixpoint includes (hay needle : string) : bool :=
  prefix needle hay ||
  match hay with
  | EmptyString => false
  | String _ rest => includes rest needle
  end.

(** A string holds its text as UTF-8 bytes.  The white space and the line
    terminators of JavaScript are TAB, LF, VT, FF, CR and SP (one byte
    each), U+00A0 (two bytes), and U+1680, U+2000 to U+200A, U+2028,
    U+2029, U+202F, U+205F, U+3000 and U+FEFF (three bytes each). *)
Definition is_space (c : ascii) : bool :=
  let n := nat_of_ascii c in
  ((n =? 32) || ((9 <=? n) && (n <=? 13)))%nat.

Definition is_space2 (a b : ascii) : bool :=
  ((nat_of_ascii a =? 194) && (nat_of_ascii b =? 160))%nat.

Definition is_space3 (a b c : ascii) : bool :=
  let x := nat_of_ascii a in
  let y := nat_of_ascii b in
  let z := nat_of_ascii c in
  (((x =? 225) && (y =? 154) && (z =? 128))
   || ((x =? 226) && (y =? 128)
       && (((128 <=? z) && (z <=? 138)) || (z =? 168) || (z =? 169) || (z =? 175)))
   || ((x =? 226) && (y =? 129) && (z =? 159))
   || ((x =? 227) && (y =? 128) && (z =? 128))
   || ((x =? 239) && (y =? 187) && (z =? 191)))%nat.

Fixpoint trimStart (s : string) : string :=
  match s with
  | EmptyString => EmptyString
  | String a r1 =>
      if is_space a then trimStart r1 else
      match r1 with
      | EmptyString => s
      | String b r2 =>
          if is_space2 a b then trimStart r2 else
          match r2 with
          | EmptyString => s
          | String c r3 => if is_space3 a b c then trimStart r3 else s
          end
      end
  end.

(** What is left of [s] is dropped from the first position after which
    there is white space only. *)
Fixpoint trimEnd (s : string) : string :=
  match s with
  | EmptyString => EmptyString
  | String c rest =>
      if (trimStart s =? "")%string then EmptyString else String c (trimEnd rest)
  end.

(** [String.prototype.trim]. *)
Definition trim (s : string) : string := trimEnd (trimStart s).

(** [xs.slice(0, end)] for an integer [end]: a negative [end] counts from
    the back of the array. *)
Definition slice0 {A : Type} (xs : list A) (e : Z) : list A :=
  let len := Z.of_nat (length xs) in
  let final := if e <? 0 then Z.max (len + e) 0 else Z.min e len in
  firstn (Z.to_nat final) xs.

(** [xs[i]] for an integer [i]: [undefined] outside the array. *)
Definition js_index {A : Type} (xs : list A) (i : Z) : option A :=
  if i <? 0 then None else nth_error xs (Z.to_nat i).

(** ** ToNumber of a string *)

(** A number read from a string: [Finite m e] is m * 10^e. *)
Inductive Number : Type :=
| NaN
| Infinite (negative : bool)
| Finite (m e : Z).

Definition digit_of (base : Z) (c : ascii) : option Z :=
  let n := Z.of_nat (nat_of_ascii c) in
  let d := if (48 <=? n) && (n <=? 57) then Some (n - 48)
           else if (97 <=? n) && (n <=? 102) then Some (n - 87)
           else if (65 <=? n) && (n <=? 70) then Some (n - 55)
           else None in
  match d with
  | Some v => if v <? base then Some v else None
  | None => None
  end.

(** The digits at the head of [s]: their value on top of [acc], their
    number on top of [n], and what follows them. *)
Fixpoint digits (base : Z) (s : string) (acc n : Z) : Z * Z * string :=
  match s with
  | EmptyString => (acc, n, s)
  | String c rest =>
      match digit_of base c with
      | Some d => digits base rest (acc * base + d) (n + 1)
      | None => (acc, n, s)
      end
  end.

Definition sign_of (s : string) : bool * string :=
  match s with
  | String "+" r => (false, r)
  | String "-" r => (true, r)
  | _ => (false, s)
  end.

(** [0x], [0o] and [0b] literals; they take no sign. *)
Definition nonDecimal (s : string) : option Z :=
  match s with
  | String "0" (String p r) =>
      let base := match p with
                  | "x" | "X" => 16
                  | "o" | "O" => 8
                  | "b" | "B" => 2
                  | _ => 0
                  end%char in
      if base =? 0 then None else
      match digits base r 0 0 with
      | (v, n, EmptyString) => if 0 <? n then Some v else None
      | _ => None
      end
  | _ => None
  end.

(** An exponent part that ends the string, or the end of the string. *)
Definition exponent (s : string) : option Z :=
  match s with
  | EmptyString => Some 0
  | String c r =>
      if ((c =? "e") || (c =? "E"))%char then
        let (neg, r') := sign_of r in
        match digits 10 r' 0 0 with
        | (v, n, EmptyString) => if 0 <? n then Some (if neg then - v else v) else None
        | _ => None
        end
      else None
  end.

(** A signed decimal literal: [Infinity], or digits with an optional
    fraction and exponent, at least one digit before the exponent. *)
Definition decimal (s : string) : Number :=
  let (neg, u) := sign_of s in
  if (u =? "Infinity")%string then Infinite neg else
  let '(m1, n1, r1) := digits 10 u 0 0 in
  let '(m2, n2, r2) := match r1 with
                       | String "." r => digits 10 r m1 0
                       | _ => (m1, 0, r1)
                       end in
  if n1 + n2 =? 0 then NaN else
  match exponent r2 with
  | Some e => Finite (if neg then - m2 else m2) (e - n2)
  | None => NaN
  end.

(** StringToNumber: white space around the literal is dropped, the empty
    string is 0, anything that is not a numeric literal is NaN.  The value
    is kept exact, where JavaScript rounds it to the nearest double. *)
Definition StringToNumber (s : string) : Number :=
  let t := trim s in
  if (t =? "")%string then Finite 0 0 else
  match nonDecimal t with
  | Some v => Finite v 0
  | None => decimal t
  end.

(** [elapsed > x] for an integer [elapsed]. *)
Definition number_lt (x : Number) (elapsed : Z) : bool :=
  match x with
  | NaN => false
  | Infinite negative => negative
  | Finite m e => if 0 <=? e then m * 10 ^ e <? elapsed else m <? elapsed * 10 ^ (- e)
  end.

(** [elapsed > t] where [elapsed] is an integer number of milliseconds and
    [t] any value: [t] goes through ToNumber and a NaN compares false.  A
    string and an array go through StringToNumber of their text; a plain
    object prints as [[object Object]], which is NaN. *)
Definition gt_ms (elapsed : Z) (t : JSValue) : bool :=
  match t with
  | JUndefined => false
  | JNull => 0 <? elapsed
  | JBool b => (if b then 1 else 0) <? elapsed
  | JNum z => z <? elapsed
  | JReal fl _ => fl <? elapsed
  | JStr _ | JArr _ => number_lt (StringToNumber (ToString t)) elapsed
  | JObj _ => false
  end.

(** Object literals. *)
Definition obj (fs : list (string * JSValue)) : JSValue := JObj fs.

(** The Result Envelope [{ id, ok: true, data }]. *)
Definition okEnvelope (id data : JSValue) : JSValue :=
  obj [("id", id); ("ok", JBool true); ("data", data)].

(** The Result Envelope [{ id, ok: false, error }]. *)
Definition errEnvelope (id : JSValue) (error : string) : JSValue :=
  obj [("id", id); ("ok", JBool false); ("error", JStr error)].

(** The object [v] has a field named [k]. *)
Definition has_field (k : string) (v : JSValue) : bool :=
  match v with
  | JObj fs => existsb (fun f => (fst f =? k)%string) fs
  | _ => false
  end.

(** [env] is a Result Envelope for the command [id]. *)
Definition answers (id env : JSValue) : Prop :=
  (exists data, env = okEnvelope id data) \/ (exists error, env = errEnvelope id error).

(* ================================================================== *)
(** * The state-and-exception monad *)
(* ================================================================== *)

Definition M (S A : Type) : Type := S -> Outcome A * S.

Definition ret {S A} (a : A) : M S A := fun s => (Resolved a, s).
Definition throw {S A} (e : Exn) : M S A := fun s => (Rejected e, s).
Definition bind {S A B} (c : M S A) (k : A -> M S B) : M S B :=
  fun s => match c s with
           | (Resolved a, s') => k a s'
           | (Rejected e, s') => (Rejected e, s')
           end.
(** [try { c } catch (e) { h e }]. *)
Definition try_catch {S A} (c : M S A) (h : Exn -> M S A) : M S A :=
  fun s => match c s with
           | (Resolved a, s') => (Resolved a, s')
           | (Rejected e, s') => h e s'
           end.
(** A pure computation that may throw. *)
Definition lift {S A} (o : Outcome A) : M S A := fun s => (o, s).
Definition get_state {S} : M S S := fun s => (Resolved s, s).
Definition modify {S} (f : S -> S) : M S unit := fun s => (Resolved tt, f s).

Declare Scope js_scope.
Delimit Scope js_scope with js.
Notation "x <- c ;; k" := (bind c (fun x => k))
  (at level 61, c at next level, right associativity) : js_scope.
Notation "c ;;; k" := (bind c (fun _ => k))
  (at level 61, right associativity) : js_scope.
Open Scope js_scope.

(* ================================================================== *)
(** * contentScript.js: the DOM command executor *)
(* ================================================================== *)

Module ContentScript.

(** ** The page *)

(** An element of the page, as far as the executor looks at it.  Attribute
    names are compared as written. *)
Record Element : Type := mkElement {
  eid : nat;
  attributes : list (string * string);
  innerText : option string;      (* [None]: the property is undefined *)
  form : option nat               (* the owning form, if any *)
}.

(** A snapshot of the document.  [querySelectorAll] lists the matches in
    document order and throws on a selector that does not parse;
    [querySelector] is its first match. *)
Record Document : Type := mkDocument {
  querySelectorAll : JSValue -> Outcome (list Element);
  elementFromPoint : JSValue -> JSValue -> Outcome (option Element);
  scrollHeight : Z
}.

Definition querySelector (doc : Document) (sel : JSValue) : Outcome (option Element) :=
  match querySelectorAll doc sel with
  | Resolved xs => Resolved (hd_error xs)
  | Rejected e => Rejected e
  end.

Fixpoint getAttribute (attrs : list (string * string)) (name : string) : option string :=
  match attrs with
  | [] => None
  | (k, v) :: rest => if (k =? name)%string then Some v else getAttribute rest name
  end.

(** What the executor does to the page, in order. *)
Inductive DomEffect : Type :=
| ScrollIntoView (el : nat) (options : JSValue)
| DispatchEvent (el : nat) (type : string)
| KeyDown (el : nat) (key : string)
| Click (el : nat)
| Focus (el : nat)
| SetValue (el : nat) (v : JSValue)
| FormSubmit (f : nat)
| WindowScrollTo (options : JSValue).

(** Code that touches the page runs in [DOM]: the state is the list of
    effects so far. *)
Definition DOM (A : Type) : Type := M (list DomEffect) A.

Definition emit (eff : DomEffect) : DOM unit := modify (fun log => (log ++ [eff])%list).

(** ** waitForSelector *)

(** The promise of [waitForSelector] with its two resources: the
    MutationObserver and the polling interval. *)
Record Waiter : Type := mkWaiter {
  observing : bool;                  (* observer connected *)
  polling : bool;                    (* interval not cleared *)
  promise : option (Outcome bool)    (* [None]: still pending *)
}.

(** Settling a promise twice leaves the first settlement in place. *)
Definition settle (o : Outcome bool) (w : Waiter) : Waiter :=
  match promise w with
  | None => mkWaiter (observing w) (polling w) (Some o)
  | Some _ => w
  end.

Definition disconnect (w : Waiter) : Waiter := mkWaiter false (polling w) (promise w).
Definition clearInterval (w : Waiter) : Waiter := mkWaiter (observing w) false (promise w).

(** What happens in the page while the promise is pending: the observer is
    notified of a mutation, or the 150 ms interval fires.  Each event
    carries the document as it then is; a tick also carries [Date.now()]. *)
Inductive PageEvent : Type :=
| Mutated (doc : Document)
| PollTick (doc : Document) (now : Z).

(** The MutationObserver callback. *)
Definition onMutation (selector : JSValue) (doc : Document) (w : Waiter) : Waiter :=
  match querySelector doc selector with
  | Resolved (Some _) => settle (Resolved true) (disconnect w)
  | Resolved None => w
  | Rejected _ => w                (* the callback throws; nothing else runs *)
  end.

(** The interval callback. *)
Definition onPoll (selector timeoutMs : JSValue) (start : Z)
    (doc : Document) (now : Z) (w : Waiter) : Waiter :=
  match querySelector doc selector with
  | Rejected _ => w                (* thrown before the timeout test *)
  | Resolved found =>
      let w1 := match found with
                | Some _ => settle (Resolved true) (disconnect (clearInterval w))
                | None => w
                end in
      if gt_ms (now - start) timeoutMs
      then settle (Rejected (Error "waitFor_timeout")) (disconnect (clearInterval w1))
      else w1
  end.

(** One event: a callback runs only while its resource is live. *)
Definition step (selector timeoutMs : JSValue) (start : Z)
    (w : Waiter) (ev : PageEvent) : Waiter :=
  match ev with
  | Mutated doc => if observing w then onMutation selector doc w else w
  | PollTick doc now => if polling w then onPoll selector timeoutMs start doc now w else w
  end.

(** The state right after the call [waitForSelector(selector, timeoutMs)]:
    returned at once, thrown by the first [querySelector], or pending with
    both resources installed. *)
Definition waitForSelector_call (selector : JSValue) (doc : Document) : Waiter :=
  if truthy selector then
    match querySelector doc selector with
    | Resolved (Some _) => mkWaiter false false (Some (Resolved true))
    | Resolved None => mkWaiter true true None
    | Rejected e => mkWaiter false false (Some (Rejected e))
    end
  else mkWaiter true true None.

(** [waitForSelector(selector, timeoutMs = 10000)], called at time [start]
    on [doc], followed by the page events [future]. *)
Definition waitForSelector (selector timeoutMs : JSValue) (start : Z)
    (doc : Document) (future : list PageEvent) : Waiter :=
  let timeoutMs := with_default timeoutMs (JNum 10000) in
  fold_left (step selector timeoutMs start) future (waitForSelector_call selector doc).

(** ** The helpers *)

(** [$] and [$$]. *)
Definition sel1 (doc : Document) (sel : JSValue) : DOM (option Element) :=
  lift (querySelector doc sel).
Definition selAll (doc : Document) (sel : JSValue) : DOM (list Element) :=
  lift (querySelectorAll doc sel).

Definition safeClick (el : option Element) : DOM unit :=
  match el with
  | None => throw (Error "element_not_found")
  | Some el =>
      emit (ScrollIntoView (eid el) (obj [("block", JStr "center"); ("inline", JStr "center")])) ;;;
      emit (DispatchEvent (eid el) "mouseover") ;;;
      emit (Click (eid el))
  end.

Definition typeText (el : option Element) (text submit : JSValue) : DOM unit :=
  match el with
  | None => throw (Error "element_not_found")
  | Some el =>
      emit (Focus (eid el)) ;;;
      emit (SetValue (eid el) (js_nullish text (JStr ""))) ;;;
      emit (DispatchEvent (eid el) "input") ;;;
      emit (DispatchEvent (eid el) "change") ;;;
      if truthy submit then
        match form el with
        | Some f => emit (FormSubmit f)
        | None => emit (KeyDown (eid el) "Enter")
        end
      else ret tt
  end.

(** The length of a string in UTF-16 code units, counted on its UTF-8
    bytes: a continuation byte adds nothing, the first byte of a four-byte
    sequence (a character outside the Basic Multilingual Plane, two code
    units) adds two, every other byte one. *)
Fixpoint utf16_length (s : string) : nat :=
  match s with
  | EmptyString => 0%nat
  | String c rest =>
      let n := nat_of_ascii c in
      ((if n <? 128 then 1 else if n <? 192 then 0 else if n <? 240 then 1 else 2)
       + utf16_length rest)%nat
  end.

(** [v.length] of a truthy value. *)
Definition js_length (v : JSValue) : JSValue :=
  match v with
  | JStr s => JNum (Z.of_nat (utf16_length s))
  | JArr xs => JNum (Z.of_nat (List.length xs))
  | JObj fs => assoc "length" fs
  | _ => JUndefined
  end.

(** ** The command handlers *)

(** [(n?.innerText ?? "").trim()] *)
Definition textOf (n : Element) : JSValue :=
  JStr (trim (match innerText n with
              | Some t => t
              | None => ""
              end)).

(** [n?.getAttribute(attr) ?? null] *)
Definition attrOf (attr : JSValue) (n : Element) : JSValue :=
  match getAttribute (attributes n) (ToString attr) with
  | Some v => JStr v
  | None => JNull
  end.

(** [query]: the values extracted from the selected nodes, in the order
    the document lists them. *)
Definition query_extract (doc : Document) (selector all attr : JSValue) : DOM (list JSValue) :=
  nodes <- (if truthy all then selAll doc selector
            else (el <- sel1 doc selector ;;
                  ret (match el with Some n => [n] | None => [] end))) ;;
  ret (if truthy attr then map (attrOf attr) nodes else map textOf nodes).

(** [if (Number.isInteger(limit)) out = out.slice(0, limit)] *)
Definition query_limit (limit : JSValue) (out : list JSValue) : list JSValue :=
  match limit with
  | JNum z => slice0 out z
  | _ => out
  end.

(** The body of the [query] branch up to the list it replies with. *)
Definition query_results (doc : Document) (args : JSValue) : DOM (list JSValue) :=
  selector <- lift (getProp args "selector") ;;
  all <- lift (getProp args "all") ;;
  attr <- lift (getProp args "attr") ;;
  limit <- lift (getProp args "limit") ;;
  let all := with_default all (JBool false) in
  let attr := with_default attr JNull in
  let limit := with_default limit JNull in
  if negb (truthy selector) then throw (Error "missing_selector") else
  out <- query_extract doc selector all attr ;;
  ret (query_limit limit out).

(** A handler ends by calling [sendResponse] once ([Some] of the reply) or,
    when [waitForSelector] stays pending, never ([None]). *)
Definition handleCommand (doc : Document) (start : Z) (future : list PageEvent)
    (id cmd args : JSValue) : DOM (option JSValue) :=
  try_catch
    (if is_str cmd "waitFor" then
       selector <- lift (getProp args "selector") ;;
       timeoutMs <- lift (getProp args "timeoutMs") ;;
       match promise (waitForSelector selector (js_or timeoutMs (JNum 10000))
                        start doc future) with
       | None => ret None
       | Some (Rejected e) => throw e
       | Some (Resolved _) =>
           selector' <- lift (getProp args "selector") ;;
           ret (Some (okEnvelope id (obj [("waitedFor", selector')])))
       end
     else if is_str cmd "query" then
       out <- query_results doc args ;;
       ret (Some (okEnvelope id (obj [("results", JArr out)])))
     else if is_str cmd "click" then
       selector <- lift (getProp args "selector") ;;
       xy <- lift (getProp args "xy") ;;
       if truthy selector then
         el <- sel1 doc selector ;;
         safeClick el ;;;
         ret (Some (okEnvelope id (obj [("clicked", selector)])))
       else if truthy xy then
         x <- lift (getProp xy "x") ;;
         y <- lift (getProp xy "y") ;;
         el <- lift (elementFromPoint doc x y) ;;
         safeClick el ;;;
         ret (Some (okEnvelope id (obj [("clickedXY", xy)])))
       else throw (Error "missing_selector_or_xy")
     else if is_str cmd "type" then
       selector <- lift (getProp args "selector") ;;
       text <- lift (getProp args "text") ;;
       submit <- lift (getProp args "submit") ;;
       el <- sel1 doc selector ;;
       typeText el text submit ;;;
       ret (Some (okEnvelope id
                    (obj [("typed", js_length (js_or text (JStr "")))])))
     else if is_str cmd "scroll" then
       to <- lift (getProp args "to") ;;
       selector <- lift (getProp args "selector") ;;
       (if truthy selector then
          el <- sel1 doc selector ;;
          match el with
          | None => throw (Error "element_not_found")
          | Some el =>
              emit (ScrollIntoView (eid el)
                      (obj [("behavior", JStr "smooth"); ("block", JStr "center")]))
          end
        else if is_str to "top" then
          emit (WindowScrollTo (obj [("top", JNum 0); ("behavior", JStr "smooth")]))
        else if is_str to "bottom" then
          emit (WindowScrollTo (obj [("top", JNum (scrollHeight doc));
                                     ("behavior", JStr "smooth")]))
        else ret tt) ;;;
       ret (Some (okEnvelope id (obj [("scrolled", JBool true)])))
     else
       ret (Some (errEnvelope id "unknown_command")))
    (fun e => ret (Some (errEnvelope id (errText e)))).

(** The reply [{ ok: true, type: "adapter:pong" }] to the liveness probe. *)
Definition pong : JSValue := obj [("ok", JBool true); ("type", JStr "adapter:pong")].

(** The [chrome.runtime.onMessage] listener: the probe is answered at once,
    a message of another type is not answered, a command is handed to
    [handleCommand]. *)
Definition onMessage (doc : Document) (start : Z) (future : list PageEvent)
    (msg : JSValue) : DOM (option JSValue) :=
  if is_str (getPropOpt msg "type") "adapter:ping" then ret (Some pong)
  else if negb (is_str (getPropOpt msg "type") "adapter:cmd") then ret None
  else
    let id := getPropOpt msg "id" in
    let cmd := getPropOpt msg "cmd" in
    let args := with_default (getPropOpt msg "args") (obj []) in
    handleCommand doc start future id cmd args.

(** An event no later than [ms] milliseconds after [start]. *)
Definition within (start ms : Z) (ev : PageEvent) : Prop :=
  match ev with
  | Mutated _ => True
  | PollTick _ now => now - start <= ms
  end.

(** A handler whose reply, if any, is a Result Envelope for [id]. *)
Definition RepliesFor (id : JSValue) (c : DOM (option JSValue)) : Prop :=
  forall log, match fst (c log) with
              | Resolved (Some reply) => answers id reply
              | _ => True
              end.

End ContentScript.

(* ================================================================== *)
(** * background.js: relay client, command router, tab session manager *)
(* ================================================================== *)

Module Background.

Definition TabId : Type := Z.

(** A [chrome.tabs.Tab], as far as the worker reads it.  [title] and [url]
    are absent when the browser withholds them. *)
Record Tab : Type := mkTab {
  tab_id : TabId;
  tab_title : option string;
  tab_url : option string
}.

Definition opt_str (o : option string) : JSValue :=
  match o with Some s => JStr s | None => JUndefined end.

(** The [chrome.*] calls of the worker over a browser of type [E].  Each
    call may change the browser and resolves or rejects.  Arguments that
    the code passes as object literals are passed as such. *)
Class Chrome (E : Type) : Type := {
  (** [chrome.tabs.sendMessage(tabId, message)] *)
  tabs_sendMessage : TabId -> JSValue -> M E JSValue;
  (** [chrome.scripting.executeScript({ target: { tabId }, files })] *)
  scripting_executeScript : TabId -> list string -> M E unit;
  (** [chrome.tabs.query(queryInfo)] *)
  tabs_query : JSValue -> M E (list Tab);
  (** [chrome.tabs.create(createProperties)] *)
  tabs_create : JSValue -> M E Tab;
  (** [chrome.tabs.update(tabId, updateProperties)] *)
  tabs_update : TabId -> JSValue -> M E unit;
  (** [chrome.tabs.captureVisibleTab(windowId, options)] *)
  tabs_captureVisibleTab : JSValue -> JSValue -> M E string;
  (** Whether [chrome.tabs.onUpdated] reports [status: "complete"] for the
      tab before the first 250 ms tick later than the timeout. *)
  tab_completes_within : TabId -> Z -> E -> bool * E;
  (** The browser while the worker sleeps in [setTimeout]. *)
  sleep : Z -> E -> E
}.

Inductive ReadyState : Type := CONNECTING | OPEN | CLOSING | CLOSED.

Definition WS_URL : string := "ws://127.0.0.1:8765".
Definition RETRY_MS : Z := 1500.
Definition actionTypes : list string :=
  ["waitFor"; "query"; "click"; "type"; "scroll"; "switchTab"].

(** [actionTypes.includes(cmd)]: strict equality with one of the names. *)
Definition is_actionType (cmd : JSValue) : bool :=
  existsb (is_str cmd) actionTypes.

(** The worker's globals, with the sockets and timers it has created and
    what it has put on the wire or on the console. *)
Record Worker (E : Type) : Type := mkWorker {
  env : E;                            (* the browser *)
  activeTabId : option TabId;         (* [null] or a tab id *)
  sockets : list ReadyState;          (* every WebSocket made, oldest first *)
  ws : option nat;                    (* the socket the global [ws] holds *)
  reconnectTimer : option nat;        (* the handle the global holds *)
  timers : list (nat * Z);            (* pending [setTimeout(connectWS, ms)] *)
  nextTimer : nat;                    (* the next handle; handles start at 1 *)
  wire : list (nat * JSValue);        (* frames sent: socket, payload *)
  warnings : list JSValue             (* payloads dropped with a warning *)
}.
Arguments mkWorker {E}.
Arguments env {E}.
Arguments activeTabId {E}.
Arguments sockets {E}.
Arguments ws {E}.
Arguments reconnectTimer {E}.
Arguments timers {E}.
Arguments nextTimer {E}.
Arguments wire {E}.
Arguments warnings {E}.

Section Worker.

Context {E : Type} {chrome : Chrome E}.

(** [JSON.parse]: [None] when it throws. *)
Variable JSON_parse : string -> option JSValue.

Abbreviation W := (Worker E).

Definition set_env (e : E) (w : W) : W :=
  mkWorker e (activeTabId w) (sockets w) (ws w) (reconnectTimer w) (timers w)
    (nextTimer w) (wire w) (warnings w).
Definition set_activeTabId (t : option TabId) (w : W) : W :=
  mkWorker (env w) t (sockets w) (ws w) (reconnectTimer w) (timers w)
    (nextTimer w) (wire w) (warnings w).
Definition set_sockets (ss : list ReadyState) (w : W) : W :=
  mkWorker (env w) (activeTabId w) ss (ws w) (reconnectTimer w) (timers w)
    (nextTimer w) (wire w) (warnings w).
Definition set_ws (s : option nat) (w : W) : W :=
  mkWorker (env w) (activeTabId w) (sockets w) s (reconnectTimer w) (timers w)
    (nextTimer w) (wire w) (warnings w).
Definition set_timers (h : option nat) (ts : list (nat * Z)) (n : nat) (w : W) : W :=
  mkWorker (env w) (activeTabId w) (sockets w) (ws w) h ts n (wire w) (warnings w).
Definition add_wire (s : nat) (v : JSValue) (w : W) : W :=
  mkWorker (env w) (activeTabId w) (sockets w) (ws w) (reconnectTimer w) (timers w)
    (nextTimer w) (wire w ++ [(s, v)])%list (warnings w).
Definition add_warning (v : JSValue) (w : W) : W :=
  mkWorker (env w) (activeTabId w) (sockets w) (ws w) (reconnectTimer w) (timers w)
    (nextTimer w) (wire w) (warnings w ++ [v])%list.

(** [await chrome.x(...)]: a browser call run on the worker's browser. *)
Definition call {A : Type} (c : M E A) : M W A :=
  fun w => let (r, e) := c (env w) in (r, set_env e w).

(** [ws.readyState] of the socket the global holds. *)
Definition readyState (w : W) : option ReadyState :=
  match ws w with
  | Some s => nth_error (sockets w) s
  | None => None
  end.

Definition is_OPEN (r : option ReadyState) : bool :=
  match r with Some OPEN => true | _ => false end.
Definition is_CONNECTING (r : option ReadyState) : bool :=
  match r with Some CONNECTING => true | _ => false end.

(** ** The relay client *)

Definition wsSend (o : JSValue) : M W unit :=
  fun w =>
    match ws w with
    | Some s =>
        if is_OPEN (nth_error (sockets w) s)
        then (Resolved tt, add_wire s o w)
        else (Resolved tt, add_warning o w)
    | None => (Resolved tt, add_warning o w)
    end.

Definition hello : JSValue := obj [("type", JStr "hello"); ("role", JStr "adapter")].
Definition bootPing : JSValue := obj [("id", JStr "boot-1"); ("cmd", JStr "ping")].

(** [connectWS]: nothing while the socket is open or connecting; otherwise
    a new socket replaces the global one. *)
Definition connectWS (w : W) : W :=
  if is_OPEN (readyState w) || is_CONNECTING (readyState w) then w
  else set_ws (Some (length (sockets w)))
         (set_sockets (sockets w ++ [CONNECTING])%list w).

(** [ws.onopen] *)
Definition onopen (w : W) : W :=
  snd ((wsSend hello ;;; wsSend bootPing) w).

(** [ws.onclose]: [clearTimeout] of the handle held, then
    [setTimeout(connectWS, RETRY_MS)]. *)
Definition onclose (w : W) : W :=
  let pending :=
    match reconnectTimer w with
    | Some h => filter (fun t => negb (Nat.eqb (fst t) h)) (timers w)
    | None => timers w
    end in
  set_timers (Some (nextTimer w)) (pending ++ [(nextTimer w, RETRY_MS)])%list
    (S (nextTimer w)) w.

Fixpoint set_nth {A : Type} (n : nat) (x : A) (xs : list A) : list A :=
  match xs, n with
  | [], _ => []
  | _ :: rest, O => x :: rest
  | y :: rest, S n' => y :: set_nth n' x rest
  end.

(** [ws.close()] on the socket the global holds: an open or connecting
    socket starts closing. *)
Definition ws_close (w : W) : W :=
  match ws w with
  | Some s =>
      match nth_error (sockets w) s with
      | Some OPEN | Some CONNECTING => set_sockets (set_nth s CLOSING (sockets w)) w
      | _ => w
      end
  | None => w
  end.

(** [ws.onerror] *)
Definition onerror (w : W) : W := ws_close w.

(** ** The tab session manager *)

Definition delay (ms : Z) : M W unit :=
  fun w => (Resolved tt, set_env (sleep ms (env w)) w).

Definition probe : JSValue := obj [("type", JStr "adapter:ping")].

Definition ensureContentScript (tabId : TabId) : M W bool :=
  ready <- try_catch
             (pong <- call (tabs_sendMessage tabId probe) ;;
              ret (truthy pong && truthy (getPropOpt pong "ok")))
             (fun _ => ret false) ;;
  if ready then ret true else
  try_catch (call (scripting_executeScript tabId ["contentScript.js"]))
            (fun _ => ret tt) ;;;
  delay 150 ;;;
  ret true.

(** [String(e?.message || e).includes("Receiving end does not exist")] *)
Definition no_receiver (e : Exn) : bool :=
  includes (errText e) "Receiving end does not exist".

(** The loop [for (let i = 0; i < attempts; i++)], by the number of
    iterations left. *)
Fixpoint sendToContentWithRetry (tabId : TabId) (payload : JSValue)
    (attempts : nat) : M W JSValue :=
  match attempts with
  | O => throw (Error "no_receiver_after_retry")
  | S more =>
      try_catch (call (tabs_sendMessage tabId payload))
        (fun e =>
           if no_receiver e then
             ensureContentScript tabId ;;;
             delay 150 ;;;
             sendToContentWithRetry tabId payload more
           else throw e)
  end.

Definition getOrCreateActiveTab : M W TabId :=
  tabs <- call (tabs_query (obj [("active", JBool true); ("currentWindow", JBool true)])) ;;
  match tabs with
  | t :: _ =>
      modify (set_activeTabId (Some (tab_id t))) ;;;
      ret (tab_id t)
  | [] =>
      created <- call (tabs_create (obj [("url", JStr "about:blank")])) ;;
      modify (set_activeTabId (Some (tab_id created))) ;;;
      ret (tab_id created)
  end.

(** [waitForTabComplete]: the listener resolves on the update, the interval
    rejects on the first tick past the timeout; each removes both. *)
Definition waitForTabComplete (tabId : TabId) (timeoutMs : Z) : M W bool :=
  fun w =>
    let (done, e) := tab_completes_within tabId timeoutMs (env w) in
    if done then (Resolved true, set_env e w)
    else (Rejected (Error "tab_load_timeout"), set_env e w).

(** [activeTabId ?? (await getOrCreateActiveTab())] *)
Definition currentTab : M W TabId :=
  w <- get_state ;;
  match activeTabId w with
  | Some t => ret t
  | None => getOrCreateActiveTab
  end.

(** ** The command router *)

(** The [switchTab] branch: index, then title, then URL. *)
Definition findTarget (tabs : list Tab) (index title urlMatch : JSValue) : option Tab :=
  let target :=
    match index with
    | JNum i => js_index tabs i        (* Number.isInteger(index) && tabs[index] *)
    | _ => None
    end in
  let target :=
    match target with
    | None =>
        if truthy title
        then find (fun t => includes (match tab_title t with Some s => s | None => "" end)
                                     (ToString title)) tabs
        else None
    | Some _ => target
    end in
  match target with
  | None =>
      if truthy urlMatch
      then find (fun t => includes (match tab_url t with Some s => s | None => "" end)
                                   (ToString urlMatch)) tabs
      else None
  | Some _ => target
  end.

Definition switchTab (id args : JSValue) : M W unit :=
  index <- lift (getProp args "index") ;;
  title <- lift (getProp args "title") ;;
  urlMatch <- lift (getProp args "urlMatch") ;;
  tabs <- call (tabs_query (obj [])) ;;
  match findTarget tabs index title urlMatch with
  | None => wsSend (errEnvelope id "tab_not_found")
  | Some target =>
      call (tabs_update (tab_id target) (obj [("active", JBool true)])) ;;;
      modify (set_activeTabId (Some (tab_id target))) ;;;
      wsSend (okEnvelope id (obj [("tabId", JNum (tab_id target));
                                  ("title", opt_str (tab_title target));
                                  ("url", opt_str (tab_url target))]))
  end.

(** The message [{ type: "adapter:cmd", id, cmd, args }] for the content
    script. *)
Definition contentCommand (id cmd args : JSValue) : JSValue :=
  obj [("type", JStr "adapter:cmd"); ("id", id); ("cmd", cmd); ("args", args)].

(** The [try] block of [handleControllerCommand]. *)
Definition route (id cmd args : JSValue) : M W unit :=
     if is_str cmd "navigate" then
       tabId <- getOrCreateActiveTab ;;
       url <- lift (getProp args "url") ;;
       call (tabs_update tabId (obj [("url", url)])) ;;;
       waitForTabComplete tabId 20000 ;;;
       ensureContentScript tabId ;;;
       url' <- lift (getProp args "url") ;;
       wsSend (okEnvelope id (obj [("tabId", JNum tabId); ("url", url')]))
     else if is_actionType cmd then
       tabId <- currentTab ;;
       ensureContentScript tabId ;;;
       r <- try_catch
              (resp <- sendToContentWithRetry tabId (contentCommand id cmd args) 2 ;;
               ret (Some resp))
              (fun e => wsSend (errEnvelope id (errText e)) ;;; ret None) ;;
       match r with
       | None => ret tt                 (* replied in the catch; return *)
       | Some JUndefined => ret tt      (* the reply may come by runtime.sendMessage *)
       | Some resp => wsSend resp
       end
     else if is_str cmd "switchTab" then
       switchTab id args
     else if is_str cmd "screenshot" then
       tabId <- currentTab ;;
       format <- lift (getProp (js_or args (obj [])) "format") ;;
       let format := with_default format (JStr "png") in
       try_catch
         (dataUrl <- call (tabs_captureVisibleTab JUndefined (obj [("format", format)])) ;;
          wsSend (okEnvelope id (obj [("dataUrl", JStr dataUrl)])))
         (fun e => wsSend (errEnvelope id (errText e)))
     else if is_str cmd "openTab" then
       url <- lift (getProp (js_or args (obj [])) "url") ;;
       active <- lift (getProp (js_or args (obj [])) "active") ;;
       let active := with_default active (JBool true) in
       if negb (truthy url) then wsSend (errEnvelope id "missing_url") else
       try_catch
         (tab <- call (tabs_create (obj [("url", url); ("active", active)])) ;;
          modify (set_activeTabId (Some (tab_id tab))) ;;;
          wsSend (okEnvelope id (obj [("tabId", JNum (tab_id tab));
                                      ("url", opt_str (tab_url tab))])))
         (fun e => wsSend (errEnvelope id (errText e)))
     else if is_str cmd "ping" then
       wsSend (okEnvelope id (JStr "pong"))
     else
       wsSend (errEnvelope id "unknown_command").

Definition handleControllerCommand (msg : JSValue) : M W unit :=
  let id := getPropOpt msg "id" in
  let cmd := getPropOpt msg "cmd" in
  let args := with_default (getPropOpt msg "args") (obj []) in
  try_catch (route id cmd args)
    (fun e => wsSend (errEnvelope (getPropOpt msg "id") (errText e))).

(** [ws.onmessage] *)
Definition onmessage (data : string) (w : W) : W :=
  match JSON_parse data with
  | None => w
  | Some msg =>
      if negb (truthy msg) || negb (truthy (getPropOpt msg "cmd")) then w
      else snd (handleControllerCommand msg w)
  end.

(** The [chrome.runtime.onMessage] listener: a result-shaped message from a
    content script goes out on the wire. *)
Definition onRuntimeMessage (msg : JSValue) (w : W) : W :=
  let ok := getPropOpt msg "ok" in
  if truthy msg
     && (match ok with JBool _ => true | _ => false end)
     && truthy (getPropOpt msg "id")
  then snd (wsSend msg w) else w.

(** ** The worker as a state machine *)

(** What the browser delivers to the worker.  A socket event names the
    socket it happens on. *)
Inductive Event : Type :=
| SocketOpen (s : nat)
| SocketMessage (s : nat) (data : string)
| SocketError (s : nat)
| SocketClose (s : nat)
| TimerFired (h : nat)
| TabActivated (tabId : TabId)
| RuntimeMessage (msg : JSValue)
| Wake.          (* install, startup, keep-alive alarm, navigation, icon click *)

Definition socket_is (w : W) (s : nat) (r : ReadyState) : bool :=
  match nth_error (sockets w) s, r with
  | Some CONNECTING, CONNECTING | Some OPEN, OPEN
  | Some CLOSING, CLOSING | Some CLOSED, CLOSED => true
  | _, _ => false
  end.

(** One event: the browser's part (the socket's new [readyState], the timer
    leaving the pending set), then the handler the worker installed. *)
Definition dispatch (w : W) (ev : Event) : W :=
  match ev with
  | SocketOpen s =>
      if socket_is w s CONNECTING
      then onopen (set_sockets (set_nth s OPEN (sockets w)) w)
      else w
  | SocketMessage s data =>
      if socket_is w s OPEN then onmessage data w else w
  | SocketError s =>
      if socket_is w s CLOSED then w
      else if Nat.ltb s (length (sockets w)) then onerror w else w
  | SocketClose s =>
      if socket_is w s CLOSED then w
      else if Nat.ltb s (length (sockets w))
           then onclose (set_sockets (set_nth s CLOSED (sockets w)) w)
           else w
  | TimerFired h =>
      if existsb (fun t => Nat.eqb (fst t) h) (timers w)
      then connectWS
             (set_timers (reconnectTimer w)
                (filter (fun t => negb (Nat.eqb (fst t) h)) (timers w))
                (nextTimer w) w)
      else w
  | TabActivated tabId => connectWS (set_activeTabId (Some tabId) w)
  | RuntimeMessage msg => onRuntimeMessage msg w
  | Wake => connectWS w
  end.

Definition run (w : W) (evs : list Event) : W := fold_left dispatch evs w.

(** The worker when the script has been evaluated: the last line is
    [connectWS()]. *)
Definition start (e : E) : W :=
  connectWS (mkWorker e None [] None None [] 1%nat [] []).

(** ** Vocabulary for the properties *)

(** The relay is connected on socket [s]. *)
Definition Connected (w : W) (s : nat) : Prop :=
  ws w = Some s /\ nth_error (sockets w) s = Some OPEN.

(** [w'] has the wire, the sockets and the global socket of [w]. *)
Definition same_link (w w' : W) : Prop :=
  wire w' = wire w /\ ws w' = ws w /\ sockets w' = sockets w.

(** A computation that neither sends nor touches the sockets. *)
Definition silent {A : Type} (c : M W A) : Prop :=
  forall w, same_link w (snd (c w)).

(** What a handled command [{ id, cmd, args }] has put on the wire of a
    relay connected on [s], from [w] to the end [r] of the handler: when
    the handler threw, nothing; when it returned, one Result Envelope of
    its own for [id], or, for a command passed to the content script, what
    the content script replied, unless that is [undefined]. *)
Definition Replied (s : nat) (id cmd args : JSValue) (w : W) (r : Outcome unit * W) : Prop :=
  Connected (snd r) s /\
  match fst r with
  | Rejected _ => wire (snd r) = wire w
  | Resolved _ =>
      (exists env, wire (snd r) = wire w ++ [(s, env)] /\ answers id env)%list
      \/ (exists tabId w1 w2 resp,
            is_actionType cmd = true
            /\ sendToContentWithRetry tabId (contentCommand id cmd args) 2 w1
               = (Resolved resp, w2)
            /\ wire (snd r) = wire w ++ match resp with
                                        | JUndefined => []
                                        | _ => [(s, resp)]
                                        end)%list
  end.

(** A handler that, on a connected relay, always ends as [Replied] says. *)
Definition Replies (s : nat) (id cmd args : JSValue) (c : M W unit) : Prop :=
  forall w, Connected w s -> Replied s id cmd args w (c w).

End Worker.

End Background.

(* ================================================================== *)
(** * A browser *)
(* ================================================================== *)

(** A browser to run the worker and the content script together: windows
    of tabs, each tab showing a page, with the [chrome.*] calls behaving as
    the extension API documents them. *)
Module Browser.

Import ContentScript Background.

Record Page : Type := mkPage {
  document : Document;
  clock : Z;                      (* [Date.now()] when a message arrives *)
  future : list PageEvent;        (* what happens in the page afterwards *)
  listening : bool;               (* contentScript.js has run in the page *)
  injectable : bool;              (* the page accepts injected scripts *)
  effects : list DomEffect;       (* what has been done to the page *)
  pixels : string                 (* what its viewport shows *)
}.

Record OpenTab : Type := mkOpenTab {
  info : Tab;
  window : nat;
  active : bool;                  (* the active tab of its window *)
  page : Page
}.

Record State : Type := mkState {
  tabs : list OpenTab;
  currentWindow : nat;
  nextId : TabId
}.

Definition emptyDocument : Document :=
  mkDocument (fun _ => Resolved []) (fun _ _ => Resolved None) 0.

Definition blankPage : Page := mkPage emptyDocument 0 [] false true [] "".

Definition has_id (t : TabId) (o : OpenTab) : bool := tab_id (info o) =? t.

Definition update_tab (t : TabId) (f : OpenTab -> OpenTab) (b : State) : State :=
  mkState (map (fun o => if has_id t o then f o else o) (tabs b))
          (currentWindow b) (nextId b).

Definition no_tab {A : Type} (t : TabId) : Outcome A :=
  Rejected (Error ("No tab with id: " ++ string_of_Z t ++ ".")).

(** The message reaches the listener of contentScript.js when the page has
    one.  A command whose handler never answers leaves the promise pending
    for as long as the page is there; it settles, by a rejection, when the
    page goes away and the channel closes.  The browser here has the run in
    which the page is then left: the tab goes blank and the promise is
    rejected. *)
Definition sendMessage (t : TabId) (msg : JSValue) : M State JSValue :=
  fun b =>
    match find (has_id t) (tabs b) with
    | None => (no_tab t, b)
    | Some o =>
        let p := page o in
        if negb (listening p)
        then (Rejected (Error "Could not establish connection. Receiving end does not exist."), b)
        else
          let (r, eff) := onMessage (document p) (clock p) (future p) msg (effects p) in
          let b' := update_tab t (fun o => mkOpenTab (info o) (window o) (active o)
                      (mkPage (document p) (clock p) (future p) (listening p)
                              (injectable p) eff (pixels p))) b in
          match r with
          | Resolved (Some reply) => (Resolved reply, b')
          | Resolved None =>
              if is_str (getPropOpt msg "type") "adapter:cmd"
              then (Rejected (Error "A listener indicated an asynchronous response by returning true, but the message channel closed before a response was received"),
                    update_tab t (fun o => mkOpenTab (info o) (window o) (active o) blankPage) b)
              else (Resolved JUndefined, b')
          | Rejected e => (Rejected e, b')
          end
    end.

Definition executeScript (t : TabId) (files : list string) : M State unit :=
  fun b =>
    match find (has_id t) (tabs b) with
    | None => (no_tab t, b)
    | Some o =>
        if injectable (page o)
        then (Resolved tt,
              update_tab t (fun o => mkOpenTab (info o) (window o) (active o)
                (mkPage (document (page o)) (clock (page o)) (future (page o)) true
                        (injectable (page o)) (effects (page o)) (pixels (page o)))) b)
        else (Rejected (Error "Cannot access contents of the page."), b)
    end.

Definition query (queryInfo : JSValue) : M State (list Tab) :=
  fun b =>
    let wantActive := truthy (getPropOpt queryInfo "active") in
    let wantCurrent := truthy (getPropOpt queryInfo "currentWindow") in
    (Resolved (map info
       (filter (fun o => (negb wantActive || active o)
                         && (negb wantCurrent || Nat.eqb (window o) (currentWindow b)))
               (tabs b))), b).

(** A new tab opens in the current window; when it is made active, the
    other tabs of that window no longer are. *)
Definition create (props : JSValue) : M State Tab :=
  fun b =>
    let act := truthy (with_default (getPropOpt props "active") (JBool true)) in
    let t := mkTab (nextId b) (Some "")
               (match getPropOpt props "url" with JStr u => Some u | _ => None end) in
    let others :=
      map (fun o => if act && Nat.eqb (window o) (currentWindow b)
                    then mkOpenTab (info o) (window o) false (page o) else o) (tabs b) in
    (Resolved t,
     mkState (others ++ [mkOpenTab t (currentWindow b) act blankPage])%list
             (currentWindow b) (nextId b + 1)).

Definition activate (t : TabId) (b : State) : State :=
  match find (has_id t) (tabs b) with
  | None => b
  | Some target =>
      mkState (map (fun o => if Nat.eqb (window o) (window target)
                             then mkOpenTab (info o) (window o) (has_id t o) (page o)
                             else o) (tabs b))
              (currentWindow b) (nextId b)
  end.

Definition update (t : TabId) (props : JSValue) : M State unit :=
  fun b =>
    match find (has_id t) (tabs b) with
    | None => (no_tab t, b)
    | Some _ =>
        let b1 :=
          match getPropOpt props "url" with
          | JStr u =>
              update_tab t (fun o => mkOpenTab
                (mkTab (tab_id (info o)) (tab_title (info o)) (Some u))
                (window o) (active o) blankPage) b
          | _ => b
          end in
        (Resolved tt,
         if truthy (getPropOpt props "active") then activate t b1 else b1)
    end.

(** [captureVisibleTab(undefined, { format })]: the image of the active tab
    of the current window. *)
Definition captureVisibleTab (windowId options : JSValue) : M State string :=
  fun b =>
    let w := match windowId with
             | JNum n => Z.to_nat n
             | _ => currentWindow b
             end in
    match find (fun o => active o && Nat.eqb (window o) w) (tabs b) with
    | Some o =>
        (Resolved ("data:image/" ++ ToString (getPropOpt options "format")
                   ++ ";base64," ++ pixels (page o)), b)
    | None => (Rejected (Error "No active tab in the window."), b)
    end.

#[export] Instance chrome : Chrome State := {
  tabs_sendMessage := sendMessage;
  scripting_executeScript := executeScript;
  tabs_query := query;
  tabs_create := create;
  tabs_update := update;
  tabs_captureVisibleTab := captureVisibleTab;
  tab_completes_within := fun t _ b => (existsb (has_id t) (tabs b), b);
  sleep := fun _ b => b
}.

(** The image [captureVisibleTab] gives of a page. *)
Definition imageOf (format : string) (p : Page) : string :=
  "data:image/" ++ format ++ ";base64," ++ pixels p.

Definition pageOf (t : TabId) (b : State) : option Page :=
  option_map page (find (has_id t) (tabs b)).

End Browser.

(* ================================================================== *)
(** * Sample pages and browsers *)
(* ================================================================== *)

Module Samples.

Import ContentScript Background Browser.

Definition item (n : nat) (text : string) : Element :=
  mkElement n [("class", "item")] (Some text) None.

(** A page on which [sel] matches [els], in this order, and nothing else
    matches anything. *)
Definition pageWith (sel : string) (els : list Element) : Document :=
  mkDocument (fun s => if is_str s sel then Resolved els else Resolved [])
             (fun _ _ => Resolved None) 0.

Definition fiveItems : Document :=
  pageWith ".item" [item 1 " one "; item 2 "two"; item 3 "three";
                    item 4 "four"; item 5 "five"].

Definition withLate : Document := pageWith "#late" [item 7 "late"].

Definition blank : Document := pageWith "" [].

(** Two tabs in one window: the first active, both running the content
    script. *)
Definition inbox : OpenTab :=
  mkOpenTab (mkTab 1 (Some "Inbox") (Some "https://mail.example/inbox")) 0 true
            (mkPage fiveItems 0 [] true true [] "INBOX").
Definition gmail : OpenTab :=
  mkOpenTab (mkTab 2 (Some "Gmail") (Some "https://mail.google.com/")) 0 false
            (mkPage emptyDocument 0 [] true true [] "GMAIL").

Definition twoTabs : State := mkState [inbox; gmail] 0 3.

(** A connected worker tracking the first tab. *)
Definition connected : Worker State :=
  mkWorker twoTabs (Some 1) [OPEN] (Some 0%nat) None [] 1%nat [] [].

Definition command (id cmd : string) (args : list (string * JSValue)) : JSValue :=
  obj [("id", JStr id); ("cmd", JStr cmd); ("args", obj args)].

End Samples.

(* ================================================================== *)
(** * background.js: waitForTabComplete, event by event *)
(* ================================================================== *)

(** The promise of [waitForTabComplete] with the [chrome.tabs.onUpdated]
    listener and the 250 ms interval it installs.  A run of it decides what
    [Background.tab_completes_within] answers. *)
Module TabLoad.

Import Background.

Record TabWaiter : Type := mkTabWaiter {
  listening : bool;                 (* listener on [onUpdated] *)
  ticking : bool;                   (* interval not cleared *)
  outcome : option (Outcome bool)   (* [None]: still pending *)
}.

(** What reaches the promise: an update of some tab with its
    [info.status], or the interval firing at [Date.now() = now]. *)
Inductive TabEvent : Type :=
| Updated (id : TabId) (status : JSValue)
| Tick (now : Z).

(** [removeListener], [clearInterval], then [resolve] or [reject]. *)
Definition finish (o : Outcome bool) (w : TabWaiter) : TabWaiter :=
  mkTabWaiter false false (match outcome w with None => Some o | Some _ => outcome w end).

(** [listener(id, info)] *)
Definition listener (tabId id : TabId) (status : JSValue) (w : TabWaiter) : TabWaiter :=
  if (id =? tabId) && is_str status "complete" then finish (Resolved true) w else w.

(** The interval callback. *)
Definition onTick (start timeoutMs now : Z) (w : TabWaiter) : TabWaiter :=
  if timeoutMs <? now - start then finish (Rejected (Error "tab_load_timeout")) w else w.

Definition step (tabId : TabId) (start timeoutMs : Z) (w : TabWaiter) (ev : TabEvent)
  : TabWaiter :=
  match ev with
  | Updated id status => if listening w then listener tabId id status w else w
  | Tick now => if ticking w then onTick start timeoutMs now w else w
  end.

(** [waitForTabComplete(tabId, timeoutMs = 15000)] called at [start] and
    followed by [events]. *)
Definition waitForTabComplete (tabId : TabId) (timeoutMs : option Z) (start : Z)
    (events : list TabEvent) : TabWaiter :=
  let timeoutMs := match timeoutMs with Some ms => ms | None => 15000 end in
  fold_left (step tabId start timeoutMs) events (mkTabWaiter true true None).

(** The update that completes the load of [tabId]. *)
Definition completes (tabId : TabId) (ev : TabEvent) : bool :=
  match ev with
  | Updated id status => (id =? tabId) && is_str status "complete"
  | Tick _ => false
  end.

(** A tick later than [ms] after [start]. *)
Definition expires (start ms : Z) (ev : TabEvent) : bool :=
  match ev with
  | Updated _ _ => false
  | Tick now => ms <? now - start
  end.

End TabLoad.

(* ================================================================== *)
(** * More vocabulary and samples *)
(* ================================================================== *)

Module RelayState.

Import Background.

Section WithBrowser.

Context {E : Type} {chrome : Chrome E}.

(** The socket the worker holds is not open. *)
Definition offline (w : Worker E) : Prop := is_OPEN (readyState w) = false.

(** [w'] has the sockets, the held socket and the timers of [w]. *)
Definition same_relay (w w' : Worker E) : Prop :=
  ws w' = ws w /\ sockets w' = sockets w /\ reconnectTimer w' = reconnectTimer w
  /\ timers w' = timers w /\ nextTimer w' = nextTimer w.

(** A computation that leaves the relay's sockets and timers alone and
    that, while the relay is offline, puts nothing on the wire. *)
Definition inert {A : Type} (c : M (Worker E) A) : Prop :=
  forall w, same_relay w (snd (c w)) /\ (offline w -> wire (snd (c w)) = wire w).

(** Every socket but the one held is closing or closed, and the held one
    exists. *)
Definition one_live (w : Worker E) : Prop :=
  (forall i r, nth_error (sockets w) i = Some r -> ws w <> Some i ->
               r = CLOSING \/ r = CLOSED)
  /\ (exists s r, ws w = Some s /\ nth_error (sockets w) s = Some r).

(** At most one reconnect is pending; it is the one whose handle the
    worker holds, and it is due after [RETRY_MS]. *)
Definition one_timer (w : Worker E) : Prop :=
  timers w = []
  \/ (exists h, timers w = [(h, RETRY_MS)] /\ reconnectTimer w = Some h).

End WithBrowser.

End RelayState.

Module MoreSamples.

Import ContentScript Background Browser Samples.

(** A browser in which no tab ever has a receiver and no script can be
    injected. *)
Definition deaf : Chrome unit :=
  {| tabs_sendMessage := fun _ _ b =>
       (Rejected (Error "Could not establish connection. Receiving end does not exist."), b);
     scripting_executeScript := fun _ _ b =>
       (Rejected (Error "Cannot access contents of the page."), b);
     tabs_query := fun _ b => (Resolved [mkTab 1 (Some "Settings") (Some "chrome://settings/")], b);
     tabs_create := fun _ b => (Resolved (mkTab 2 (Some "") None), b);
     tabs_update := fun _ _ b => (Resolved tt, b);
     tabs_captureVisibleTab := fun _ _ b => (Resolved "data:image/png;base64,", b);
     tab_completes_within := fun _ _ b => (true, b);
     sleep := fun _ b => b |}.

Definition connectedDeaf : Worker unit :=
  mkWorker tt None [OPEN] (Some 0%nat) None [] 1%nat [] [].

(** A page that rejects the empty selector, as [querySelector("")] does,
    and on which nothing matches. *)
Definition strict : Document :=
  mkDocument (fun s => if is_str s "" then Rejected (mkExn "SyntaxError" "The provided selector is empty.")
                       else Resolved [])
             (fun _ _ => Resolved None) 0.




(** An input inside form 4, and one outside any form. *)
Definition inForm : Element := mkElement 11 [("name", "q")] (Some "") (Some 4%nat).
Definition loose : Element := mkElement 12 [("name", "q")] (Some "") None.

Definition formPage : Document :=
  mkDocument (fun s => if is_str s "#in" then Resolved [inForm]
                       else if is_str s "#loose" then Resolved [loose]
                       else Resolved [])
             (fun _ _ => Resolved (Some loose)) 900.

(** A worker whose socket has closed. *)
Definition disconnected : Worker State :=
  mkWorker twoTabs (Some 1) [CLOSED] (Some 0%nat) None [] 1%nat [] [].

(** The sample browser with the content script missing from the first tab:
    once where a script can be injected, once where it cannot. *)
Definition bare (canInject : bool) : State :=
  mkState [mkOpenTab (mkTab 1 (Some "Inbox") (Some "https://mail.example/inbox")) 0 true
                     (mkPage fiveItems 0 [] false canInject [] "INBOX")] 0 2.

Definition connectedBare (canInject : bool) : Worker State :=
  mkWorker (bare canInject) (Some 1) [OPEN] (Some 0%nat) None [] 1%nat [] [].

End MoreSamples.

(* ================================================================== *)
(** * Properties of the DOM command executor *)
(* ================================================================== *)

Section Executor.

Import ContentScript.

Lemma slice0_nonneg {A : Type} (xs : list A) (n : Z) :
  0 <= n -> slice0 xs n = firstn (Z.to_nat n) xs.
Proof.
  intros Hn. unfold slice0.
  destruct (n <? 0) eqn:Hneg; [apply Z.ltb_lt in Hneg; lia|].
  destruct (Z.min_spec n (Z.of_nat (length xs))) as [[Hlt ->]|[Hge ->]].
  - reflexivity.
  - rewrite Nat2Z.id. rewrite firstn_all.
    symmetry. apply firstn_all2. lia.
Qed.

Lemma slice0_negative {A : Type} (xs : list A) (n : Z) :
  n < 0 -> slice0 xs n = firstn (length xs - Z.to_nat (- n)) xs.
Proof.
  intros Hn. unfold slice0.
  destruct (n <? 0) eqn:Hneg; [|apply Z.ltb_ge in Hneg; lia].
  f_equal. lia.
Qed.

Lemma query_limit_cases (limit : JSValue) (out : list JSValue) :
  match limit with
  | JNum n => if 0 <=? n
              then query_limit limit out = firstn (Z.to_nat n) out
              else query_limit limit out = firstn (length out - Z.to_nat (- n)) out
  | _ => query_limit limit out = out
  end.
Proof.
  destruct limit; try reflexivity.
  destruct (0 <=? z) eqn:Hz; cbn [query_limit].
  - apply slice0_nonneg. now apply Z.leb_le.
  - apply slice0_negative. apply Z.leb_gt in Hz. lia.
Qed.

(** The list [query] replies with is its extracted list cut by [limit]. *)
Lemma query_results_ok (doc : Document) (fs : list (string * JSValue))
    (log log' : list DomEffect) (out : list JSValue) :
  truthy (assoc "selector" fs) = true ->
  query_extract doc (assoc "selector" fs)
    (with_default (assoc "all" fs) (JBool false))
    (with_default (assoc "attr" fs) JNull) log = (Resolved out, log') ->
  query_results doc (JObj fs) log =
    (Resolved (query_limit (with_default (assoc "limit" fs) JNull) out), log').
Proof.
  intros Hsel Hex. unfold query_results, bind, lift, getProp.
  rewrite Hsel. cbn [negb]. rewrite Hex. reflexivity.
Qed.

Lemma query_missing_selector (doc : Document) (fs : list (string * JSValue))
    (log : list DomEffect) :
  truthy (assoc "selector" fs) = false ->
  query_results doc (JObj fs) log = (Rejected (Error "missing_selector"), log).
Proof.
  intros Hsel. unfold query_results, bind, lift, getProp.
  rewrite Hsel. reflexivity.
Qed.

(** [query_extract] leaves the page alone. *)
Lemma query_extract_pure (doc : Document) (selector all attr : JSValue)
    (log : list DomEffect) :
  snd (query_extract doc selector all attr log) = log.
Proof.
  unfold query_extract, bind, selAll, sel1, lift, ret.
  destruct (truthy all).
  - destruct (querySelectorAll doc selector); reflexivity.
  - destruct (querySelector doc selector); reflexivity.
Qed.

End Executor.

Section ExecutorClaims.

Import ContentScript Samples.

Variables (doc : Document) (start : Z) (future : list PageEvent) (id : JSValue).

(** C3 (amended).  A [query] without a truthy selector fails with
    [missing_selector].  Otherwise the reply lists the extracted values cut
    by [out.slice(0, limit)] exactly when [limit] is an integer: a
    non-negative integer keeps the first [limit] values, a negative integer
    [-k] drops the last [k], and a null, missing or non-integer [limit]
    returns them all.  With [all] set and [limit = 2], a selector matching
    five elements yields the values of the first two, in document order. *)
Theorem query_truncates_by_slice (fs : list (string * JSValue)) (log : list DomEffect) :
  let selector := assoc "selector" fs in
  let all := with_default (assoc "all" fs) (JBool false) in
  let attr := with_default (assoc "attr" fs) JNull in
  let limit := with_default (assoc "limit" fs) JNull in
  let reply := handleCommand doc start future id (JStr "query") (JObj fs) log in
  (truthy selector = false ->
     reply = (Resolved (Some (errEnvelope id "missing_selector")), log))
  /\ (truthy selector = true ->
      forall out log',
        query_extract doc selector all attr log = (Resolved out, log') ->
        exists results,
          reply = (Resolved (Some (okEnvelope id (obj [("results", JArr results)]))), log)
          /\ (Number_isInteger limit = false -> results = out)
          /\ (forall n, limit = JNum n -> 0 <= n -> results = firstn (Z.to_nat n) out)
          /\ (forall n, limit = JNum n -> n < 0 ->
                results = firstn (length out - Z.to_nat (- n)) out))
  /\ (forall e1 e2 e3 e4 e5,
        truthy selector = true -> truthy all = true -> truthy attr = false ->
        limit = JNum 2 ->
        querySelectorAll doc selector = Resolved [e1; e2; e3; e4; e5] ->
        reply = (Resolved (Some (okEnvelope id
                   (obj [("results", JArr [textOf e1; textOf e2])]))), log)).
Proof.
  intros selector all attr limit reply. subst reply.
  split; [|split].
  - intros Hsel. unfold handleCommand, try_catch, bind. cbn [is_str String.eqb Ascii.eqb Bool.eqb].
    rewrite (query_missing_selector doc fs log Hsel). reflexivity.
  - intros Hsel out log' Hex.
    exists (query_limit limit out).
    assert (Hlog : log' = log).
    { pose proof (query_extract_pure doc selector all attr log) as Hp.
      rewrite Hex in Hp. exact Hp. }
    subst log'.
    split; [|split; [|split]].
    + unfold handleCommand, try_catch, bind. cbn [is_str String.eqb Ascii.eqb Bool.eqb].
      rewrite (query_results_ok doc fs _ _ _ Hsel Hex). reflexivity.
    + intros Hint. destruct limit; try reflexivity. discriminate.
    + intros n Hn Hpos. pose proof (query_limit_cases limit out) as Hc.
      rewrite Hn in *. destruct (0 <=? n) eqn:Hle; [exact Hc|].
      apply Z.leb_gt in Hle. lia.
    + intros n Hn Hneg. pose proof (query_limit_cases limit out) as Hc.
      rewrite Hn in *. destruct (0 <=? n) eqn:Hle; [|exact Hc].
      apply Z.leb_le in Hle. lia.
  - intros e1 e2 e3 e4 e5 Hsel Hall Hattr Hlim Hq.
    assert (Hex : query_extract doc selector all attr log
                  = (Resolved (map textOf [e1; e2; e3; e4; e5]), log)).
    { unfold query_extract, bind, selAll, lift. rewrite Hall, Hq, Hattr. reflexivity. }
    unfold handleCommand, try_catch, bind. cbn [is_str String.eqb Ascii.eqb Bool.eqb].
    rewrite (query_results_ok doc fs _ _ _ Hsel Hex).
    fold limit. rewrite Hlim. reflexivity.
Qed.


Lemma getProp_truthy (v : JSValue) (k : string) :
  truthy v = true -> getProp v k = Resolved (getPropOpt v k).
Proof. destruct v; cbn; intros H; try discriminate; reflexivity. Qed.

(** C7.  A [click] with neither a selector nor [xy] fails with
    [missing_selector_or_xy]; with a selector, or with [xy], that resolves
    to no element it fails with [element_not_found]; in each case nothing
    is done to the page. *)
Theorem click_fails_without_side_effect (fs : list (string * JSValue))
    (log : list DomEffect) :
  let selector := assoc "selector" fs in
  let xy := assoc "xy" fs in
  let reply := handleCommand doc start future id (JStr "click") (JObj fs) log in
  (truthy selector = false -> truthy xy = false ->
     reply = (Resolved (Some (errEnvelope id "missing_selector_or_xy")), log))
  /\ (truthy selector = true ->
      querySelector doc selector = Resolved None ->
      reply = (Resolved (Some (errEnvelope id "element_not_found")), log))
  /\ (truthy selector = false -> truthy xy = true ->
      elementFromPoint doc (getPropOpt xy "x") (getPropOpt xy "y") = Resolved None ->
      reply = (Resolved (Some (errEnvelope id "element_not_found")), log)).
Proof.
  intros selector xy reply. subst reply.
  unfold handleCommand, try_catch, bind, lift.
  cbn [is_str String.eqb Ascii.eqb Bool.eqb getProp].
  fold selector. fold xy.
  split; [|split].
  - intros Hs Hx. rewrite Hs, Hx. reflexivity.
  - intros Hs Hq. rewrite Hs. unfold sel1, lift. rewrite Hq. reflexivity.
  - intros Hs Hx Hp. rewrite Hs, Hx.
    rewrite !(getProp_truthy xy _ Hx). rewrite Hp. reflexivity.
Qed.

(** A tick within the first ten seconds does not take the timeout branch. *)
Lemma step_within (selector : JSValue) (w : Waiter) (ev : PageEvent) :
  within start 10000 ev ->
  promise (step selector (JNum 10000) start w ev) = promise w
  \/ promise (step selector (JNum 10000) start w ev) = Some (Resolved true).
Proof.
  intros Hin. destruct ev as [d|d now]; cbn [step].
  - destruct (observing w); [|now left].
    unfold onMutation. destruct (querySelector d selector) as [[el|]|e]; try now left.
    unfold settle, disconnect; cbn. destruct (promise w); [now left|now right].
  - cbn in Hin. destruct (polling w); [|now left].
    unfold onPoll. destruct (querySelector d selector) as [found|e]; [|now left].
    assert (Hgt : gt_ms (now - start) (JNum 10000) = false).
    { cbn. apply Z.ltb_ge. lia. }
    rewrite Hgt. destruct found; [|now left].
    unfold settle, disconnect, clearInterval; cbn.
    destruct (promise w); [now left|now right].
Qed.

Lemma run_within (selector : JSValue) (evs : list PageEvent) (w : Waiter) :
  Forall (within start 10000) evs ->
  let w' := fold_left (step selector (JNum 10000) start) evs w in
  promise w' = promise w \/ promise w' = Some (Resolved true).
Proof.
  revert w. induction evs as [|ev evs IH]; intros w Hall; cbn.
  - now left.
  - inversion Hall as [|? ? Hev Hrest]; subst.
    destruct (IH (step selector (JNum 10000) start w ev) Hrest) as [H|H].
    + destruct (step_within selector w ev Hev) as [H'|H'].
      * left. cbn in H. congruence.
      * right. cbn in H. congruence.
    + now right.
Qed.

(** C10.  A [waitFor] whose [timeoutMs] is absent or falsy, a 0 included,
    waits with the default of 10000 ms; and while no more than 10000 ms
    have passed the wait is not rejected by the timeout: a rejection can
    only be the exception of the first [querySelector]. *)
Theorem waitFor_falsy_timeout_is_default (fs : list (string * JSValue))
    (log : list DomEffect) :
  let selector := assoc "selector" fs in
  truthy (assoc "timeoutMs" fs) = false ->
  handleCommand doc start future id (JStr "waitFor") (JObj fs) log =
    (Resolved
       match promise (waitForSelector selector (JNum 10000) start doc future) with
       | None => None
       | Some (Resolved _) => Some (okEnvelope id (obj [("waitedFor", selector)]))
       | Some (Rejected e) => Some (errEnvelope id (errText e))
       end, log)
  /\ forall evs e,
       Forall (within start 10000) evs ->
       promise (waitForSelector selector (JNum 10000) start doc evs) = Some (Rejected e) ->
       truthy selector = true /\ querySelector doc selector = Rejected e.
Proof.
  intros selector Hfalsy. split.
  - unfold handleCommand, try_catch, bind, lift, js_or.
    cbn [is_str String.eqb Ascii.eqb Bool.eqb getProp].
    rewrite Hfalsy. fold selector.
    destruct (promise (waitForSelector selector (JNum 10000) start doc future))
      as [[b|e]|]; reflexivity.
  - intros evs e Hall Hrej. unfold waitForSelector in Hrej. cbn [with_default] in Hrej.
    destruct (run_within selector evs (waitForSelector_call selector doc) Hall) as [H|H];
      cbn in H; rewrite H in Hrej; [|discriminate].
    unfold waitForSelector_call in Hrej.
    destruct (truthy selector); [|discriminate].
    destruct (querySelector doc selector) as [[el|]|e']; cbn in Hrej; try discriminate.
    split; [reflexivity|congruence].
Qed.

(** The interval callback that finds the element, or finds the time up,
    settles the promise and leaves neither resource behind. *)
Lemma onPoll_tears_down (selector timeoutMs : JSValue) (d : Document) (now : Z) (w : Waiter) :
  promise w = None ->
  (exists el, querySelector d selector = Resolved (Some el))
  \/ ((exists found, querySelector d selector = Resolved found)
      /\ gt_ms (now - start) timeoutMs = true) ->
  let w' := onPoll selector timeoutMs start d now w in
  promise w' <> None /\ observing w' = false /\ polling w' = false.
Proof.
  intros Hp [[el Hq]|[[found Hq] Hgt]]; unfold onPoll; rewrite Hq.
  - destruct (gt_ms (now - start) timeoutMs);
      unfold settle, disconnect, clearInterval; cbn; rewrite Hp; cbn;
      repeat split; discriminate.
  - rewrite Hgt. destruct found;
      unfold settle, disconnect, clearInterval; cbn; rewrite Hp; cbn;
      repeat split; discriminate.
Qed.

(** The observer callback that finds the element settles the promise and
    disconnects the observer; it leaves the interval as it is. *)
Lemma onMutation_leaves_interval (selector : JSValue) (d : Document) (w : Waiter)
    (el : Element) :
  promise w = None ->
  querySelector d selector = Resolved (Some el) ->
  let w' := onMutation selector d w in
  promise w' = Some (Resolved true) /\ observing w' = false /\ polling w' = polling w.
Proof.
  intros Hp Hq. unfold onMutation. rewrite Hq.
  unfold settle, disconnect. cbn. rewrite Hp. repeat split.
Qed.

(** C5 (on the code).  [waitFor] on a selector that first matches when a
    mutation is observed: the observer callback resolves the promise and
    disconnects the observer, and the polling interval is still set; it is
    still set after the next tick when the element is gone again by then. *)
Theorem waitFor_observer_match_keeps_interval :
  let w := waitForSelector (JStr "#late") (JNum 10000) 0 blank [Mutated withLate] in
  let w' := waitForSelector (JStr "#late") (JNum 10000) 0 blank
              [Mutated withLate; PollTick blank 150] in
  (promise w = Some (Resolved true) /\ observing w = false /\ polling w = true)
  /\ (promise w' = Some (Resolved true) /\ observing w' = false /\ polling w' = true).
Proof. vm_compute. repeat split. Qed.

End ExecutorClaims.

(* ================================================================== *)
(** * Properties of the worker, in any browser *)
(* ================================================================== *)

Section Router.

Import Background.

Context {E : Type} {chrome : Chrome E}.

Local Abbreviation W := (Worker E).

(** ** Computations that do not send *)

Lemma same_link_refl (w : W) : same_link w w.
Proof. repeat split. Qed.

Lemma same_link_trans (w1 w2 w3 : W) :
  same_link w1 w2 -> same_link w2 w3 -> same_link w1 w3.
Proof. unfold same_link. intros (?&?&?) (?&?&?). repeat split; congruence. Qed.

Lemma same_link_Connected (w w' : W) (s : nat) :
  same_link w w' -> Connected w s -> Connected w' s.
Proof. unfold same_link, Connected. intros (?&?&?) (?&?). split; congruence. Qed.

Lemma silent_ret {A : Type} (a : A) : silent (ret (S := W) a).
Proof. intros w. apply same_link_refl. Qed.

Lemma silent_throw {A : Type} (e : Exn) : silent (throw (S := W) (A := A) e).
Proof. intros w. apply same_link_refl. Qed.

Lemma silent_lift {A : Type} (o : Outcome A) : silent (lift (S := W) o).
Proof. intros w. apply same_link_refl. Qed.

Lemma silent_get_state : silent (get_state (S := W)).
Proof. intros w. apply same_link_refl. Qed.

Lemma silent_call {A : Type} (c : M E A) : silent (call c).
Proof. intros w. unfold call. destruct (c (env w)). repeat split. Qed.

Lemma silent_delay (ms : Z) : silent (delay (E := E) ms).
Proof. intros w. repeat split. Qed.

Lemma silent_set_activeTabId (t : option TabId) :
  silent (modify (set_activeTabId (E := E) t)).
Proof. intros w. repeat split. Qed.

Lemma silent_bind {A B : Type} (c : M W A) (k : A -> M W B) :
  silent c -> (forall a, silent (k a)) -> silent (bind c k).
Proof.
  intros Hc Hk w. unfold bind. specialize (Hc w).
  destruct (c w) as [[a|e] w1]; cbn in *.
  - eapply same_link_trans; [exact Hc|apply Hk].
  - exact Hc.
Qed.

Lemma silent_try_catch {A : Type} (c : M W A) (h : Exn -> M W A) :
  silent c -> (forall e, silent (h e)) -> silent (try_catch c h).
Proof.
  intros Hc Hh w. unfold try_catch. specialize (Hc w).
  destruct (c w) as [[a|e] w1]; cbn in *.
  - exact Hc.
  - eapply same_link_trans; [exact Hc|apply Hh].
Qed.

Lemma silent_if {A : Type} (b : bool) (c1 c2 : M W A) :
  silent c1 -> silent c2 -> silent (if b then c1 else c2).
Proof. destruct b; auto. Qed.

Create HintDb quiet.
#[local] Hint Resolve silent_ret silent_throw silent_lift silent_get_state silent_call
  silent_delay silent_set_activeTabId silent_bind silent_try_catch silent_if : quiet.

Lemma silent_ensureContentScript (tabId : TabId) :
  silent (ensureContentScript (E := E) tabId).
Proof. unfold ensureContentScript. auto 10 with quiet. Qed.

Lemma silent_sendToContentWithRetry (tabId : TabId) (payload : JSValue) (n : nat) :
  silent (sendToContentWithRetry (E := E) tabId payload n).
Proof.
  induction n as [|n IH]; cbn [sendToContentWithRetry].
  - auto with quiet.
  - apply silent_try_catch; [auto with quiet|].
    intros e. destruct (no_receiver e); [|auto with quiet].
    apply silent_bind; [apply silent_ensureContentScript|intros _].
    apply silent_bind; [apply silent_delay|intros _; exact IH].
Qed.

Lemma silent_getOrCreateActiveTab : silent (getOrCreateActiveTab (E := E)).
Proof.
  unfold getOrCreateActiveTab. apply silent_bind; [auto with quiet|].
  intros [|t rest]; auto 10 with quiet.
Qed.

Lemma silent_currentTab : silent (currentTab (E := E)).
Proof.
  unfold currentTab. apply silent_bind; [auto with quiet|].
  intros w. destruct (activeTabId w); [auto with quiet|apply silent_getOrCreateActiveTab].
Qed.

Lemma silent_waitForTabComplete (tabId : TabId) (ms : Z) :
  silent (waitForTabComplete (E := E) tabId ms).
Proof.
  intros w. unfold waitForTabComplete.
  destruct (tab_completes_within tabId ms (env w)) as [[|] e]; repeat split.
Qed.

#[local] Hint Resolve silent_ensureContentScript silent_sendToContentWithRetry
  silent_getOrCreateActiveTab silent_currentTab silent_waitForTabComplete : quiet.

(** ** sendToContentWithRetry *)

Lemma ensureContentScript_resolves (tabId : TabId) (w : W) :
  fst (ensureContentScript tabId w) = Resolved true.
Proof.
  unfold ensureContentScript, bind, try_catch, ret, call, delay.
  destruct (tabs_sendMessage tabId probe (env w)) as [[pong|e] e1]; cbn.
  - destruct (truthy pong && truthy (getPropOpt pong "ok")); cbn; [reflexivity|].
    destruct (scripting_executeScript tabId ["contentScript.js"] e1) as [[[]|e'] e2];
      reflexivity.
  - destruct (scripting_executeScript tabId ["contentScript.js"] e1) as [[[]|e'] e2];
      reflexivity.
Qed.

(** After a missing receiver the loop goes on from the state that
    [ensureContentScript] and the delay leave. *)
Lemma retry_continues {A : Type} (tabId : TabId) (k : M W A) (w : W) :
  (ensureContentScript tabId ;;; delay 150 ;;; k) w
  = k (snd ((ensureContentScript tabId ;;; delay 150) w)).
Proof.
  unfold bind. pose proof (ensureContentScript_resolves tabId w) as He.
  destruct (ensureContentScript tabId w) as [r w']; cbn in He; subst r.
  reflexivity.
Qed.

(** C6.  [sendToContentWithRetry] with two attempts.  A send that succeeds
    is the result and one that fails otherwise than for a missing receiver
    is thrown on at once, with no second send.  After a send that fails for
    a missing receiver, [ensureContentScript] is run again, and the 150 ms
    delay kept; the first time, the payload is then sent once more, and
    after the second such failure the error is [no_receiver_after_retry]. *)
Theorem sendToContentWithRetry_two_attempts (tabId : TabId) (payload : JSValue) (w : W) :
  sendToContentWithRetry tabId payload 2 w =
  match call (tabs_sendMessage tabId payload) w with
  | (Resolved reply, w1) => (Resolved reply, w1)
  | (Rejected e, w1) =>
      if no_receiver e then
        let w2 := snd ((ensureContentScript tabId ;;; delay 150) w1) in
        match call (tabs_sendMessage tabId payload) w2 with
        | (Resolved reply, w3) => (Resolved reply, w3)
        | (Rejected e', w3) =>
            if no_receiver e' then
              (Rejected (Error "no_receiver_after_retry"),
               snd ((ensureContentScript tabId ;;; delay 150) w3))
            else (Rejected e', w3)
        end
      else (Rejected e, w1)
  end.
Proof.
  cbn [sendToContentWithRetry]. unfold try_catch at 1.
  destruct (call (tabs_sendMessage tabId payload) w) as [[reply|e] w1]; [reflexivity|].
  destruct (no_receiver e); [|reflexivity].
  rewrite retry_continues. cbv zeta. unfold try_catch at 1.
  destruct (call (tabs_sendMessage tabId payload) _) as [[reply|e'] w3]; [reflexivity|].
  destruct (no_receiver e'); [|reflexivity].
  rewrite retry_continues. reflexivity.
Qed.


(** ** The router *)

Section Replies.

Variables (s : nat) (id cmd args : JSValue).

Lemma Replies_wsSend (env : JSValue) :
  answers id env -> Replies s id cmd args (wsSend env).
Proof.
  intros Ha w [Hws Hopen]. unfold wsSend. rewrite Hws, Hopen. cbn.
  split; [split; assumption|]. left. exists env. split; [reflexivity|exact Ha].
Qed.

Lemma Replied_after (w w1 : W) (r : Outcome unit * W) :
  wire w1 = wire w -> Replied s id cmd args w1 r -> Replied s id cmd args w r.
Proof.
  intros Hwire [Hc Hr]. split; [exact Hc|].
  destruct (fst r); rewrite <- Hwire; exact Hr.
Qed.

Lemma Replies_bind {A : Type} (c : M W A) (k : A -> M W unit) :
  silent c -> (forall a, Replies s id cmd args (k a)) ->
  Replies s id cmd args (bind c k).
Proof.
  intros Hc Hk w Hconn. unfold bind. specialize (Hc w).
  destruct (c w) as [[a|e] w1]; cbn in Hc.
  - apply Replied_after with w1; [apply Hc|].
    apply Hk. eapply same_link_Connected; eassumption.
  - split; cbn.
    + eapply same_link_Connected; eassumption.
    + apply Hc.
Qed.

Lemma Replies_if (b : bool) (c1 c2 : M W unit) :
  Replies s id cmd args c1 -> Replies s id cmd args c2 ->
  Replies s id cmd args (if b then c1 else c2).
Proof. destruct b; auto. Qed.

(** A [catch] that answers with the error envelope: the handler then
    returns, having sent one envelope either way. *)
Lemma Replies_catch (c : M W unit) :
  Replies s id cmd args c ->
  Replies s id cmd args (try_catch c (fun e => wsSend (errEnvelope id (errText e)))).
Proof.
  intros Hc w Hconn. unfold try_catch. specialize (Hc w Hconn).
  destruct (c w) as [[[]|e] w1]; [exact Hc|].
  destruct Hc as [Hconn1 Hwire]. cbn in Hconn1, Hwire.
  apply Replied_after with w1; [exact Hwire|].
  apply Replies_wsSend; [|exact Hconn1].
  right. eexists. reflexivity.
Qed.

Lemma catch_returns (c : M W unit) (env : Exn -> JSValue) (w : W) :
  fst (try_catch c (fun e => wsSend (env e)) w) = Resolved tt.
Proof.
  unfold try_catch. destruct (c w) as [[[]|e] w1]; [reflexivity|].
  unfold wsSend. destruct (ws w1); [destruct (is_OPEN _)|]; reflexivity.
Qed.

#[local] Hint Resolve Replies_bind Replies_if Replies_catch : quiet.

Lemma answers_ok (data : JSValue) : answers id (okEnvelope id data).
Proof. left. eexists. reflexivity. Qed.

Lemma answers_err (error : string) : answers id (errEnvelope id error).
Proof. right. eexists. reflexivity. Qed.

#[local] Hint Resolve answers_ok answers_err Replies_wsSend : quiet.

Lemma Replies_switchTab : Replies s id cmd args (switchTab id args).
Proof.
  unfold switchTab.
  apply Replies_bind; [auto with quiet|intros index].
  apply Replies_bind; [auto with quiet|intros title].
  apply Replies_bind; [auto with quiet|intros urlMatch].
  apply Replies_bind; [auto with quiet|intros tabs].
  destruct (findTarget tabs index title urlMatch) as [target|]; auto 10 with quiet.
Qed.

(** The branch for the content script: the reply is relayed unless it is
    [undefined]; a failed send is answered with its error. *)
Lemma Replies_forward (tabId : TabId) :
  is_actionType cmd = true ->
  Replies s id cmd args
    (r <- try_catch
            (resp <- sendToContentWithRetry tabId (contentCommand id cmd args) 2 ;;
             ret (Some resp))
            (fun e => wsSend (errEnvelope id (errText e)) ;;; ret None) ;;
     match r with
     | None => ret tt
     | Some JUndefined => ret tt
     | Some resp => wsSend resp
     end).
Proof.
  intros Hact w Hconn. unfold bind at 1. unfold try_catch. unfold bind at 1.
  pose proof (silent_sendToContentWithRetry tabId (contentCommand id cmd args) 2 w) as Hs.
  destruct (sendToContentWithRetry tabId (contentCommand id cmd args) 2 w)
    as [[resp|e] w2] eqn:Hsend; cbn in Hs.
  - pose proof (same_link_Connected w w2 s Hs Hconn) as Hconn2.
    assert (Hrelay : forall r : Outcome unit * W,
               Connected (snd r) s -> fst r = Resolved tt ->
               wire (snd r) = (wire w ++ match resp with
                                         | JUndefined => []
                                         | _ => [(s, resp)]
                                         end)%list ->
               Replied s id cmd args w r).
    { intros r Hc Hf Hw. split; [exact Hc|]. rewrite Hf. right.
      exists tabId, w, w2, resp. repeat split; assumption. }
    destruct Hs as (Hwire & _ & _). destruct Hconn2 as [Hws2 Hopen2].
    assert (Hsent : wsSend resp w2 = (Resolved tt, add_wire s resp w2)).
    { unfold wsSend. rewrite Hws2, Hopen2. reflexivity. }
    destruct resp; unfold ret; cbv beta iota;
      try (rewrite Hsent; apply Hrelay;
           [split; assumption | reflexivity | cbn; rewrite Hwire; reflexivity]).
    apply Hrelay; [split; assumption | reflexivity |].
    cbn. rewrite Hwire. now rewrite app_nil_r.
  - pose proof (same_link_Connected w w2 s Hs Hconn) as Hconn2.
    destruct Hs as (Hwire & _ & _). destruct Hconn2 as [Hws2 Hopen2].
    unfold bind, wsSend. rewrite Hws2, Hopen2. cbn.
    split; [split; assumption|]. left. eexists. split; [|apply answers_err].
    cbn. rewrite Hwire. reflexivity.
Qed.

Lemma Replies_route : Replies s id cmd args (route id cmd args).
Proof.
  unfold route.
  apply Replies_if.
  { apply Replies_bind; [auto with quiet|intros tabId].
    apply Replies_bind; [auto with quiet|intros url].
    apply Replies_bind; [auto with quiet|intros _].
    apply Replies_bind; [auto with quiet|intros _].
    apply Replies_bind; [auto with quiet|intros _].
    apply Replies_bind; [auto with quiet|intros url'].
    auto with quiet. }
  destruct (is_actionType cmd) eqn:Hact.
  { apply Replies_bind; [auto with quiet|intros tabId].
    apply Replies_bind; [auto with quiet|intros _].
    apply Replies_forward. exact Hact. }
  apply Replies_if; [apply Replies_switchTab|].
  apply Replies_if.
  { apply Replies_bind; [auto with quiet|intros tabId].
    apply Replies_bind; [auto with quiet|intros format].
    apply Replies_catch.
    apply Replies_bind; [auto with quiet|intros dataUrl]. auto with quiet. }
  apply Replies_if.
  { apply Replies_bind; [auto with quiet|intros url].
    apply Replies_bind; [auto with quiet|intros active].
    apply Replies_if; [auto with quiet|].
    apply Replies_catch.
    apply Replies_bind; [auto with quiet|intros tab].
    apply Replies_bind; [auto with quiet|intros _]. auto with quiet. }
  apply Replies_if; auto with quiet.
Qed.

End Replies.


(** The handler on a command for the content script, step by step. *)
Lemma forward_exact (s : nat) (id cmd args : JSValue) (w : W) (tabId : TabId) (w1 : W) :
  Connected w s ->
  is_actionType cmd = true -> is_str cmd "navigate" = false ->
  currentTab w = (Resolved tabId, w1) ->
  forall m, getPropOpt m "id" = id -> getPropOpt m "cmd" = cmd ->
            with_default (getPropOpt m "args") (obj []) = args ->
  handleControllerCommand m w =
  match sendToContentWithRetry tabId (contentCommand id cmd args) 2
          (snd (ensureContentScript tabId w1)) with
  | (Resolved JUndefined, w3) => (Resolved tt, w3)
  | (Resolved resp, w3) => (Resolved tt, add_wire s resp w3)
  | (Rejected e, w3) => (Resolved tt, add_wire s (errEnvelope id (errText e)) w3)
  end.
Proof.
  intros Hconn Hact Hnav Hcur m Hid Hcmd Hargs.
  unfold handleControllerCommand. rewrite Hid, Hcmd, Hargs.
  unfold route. rewrite Hnav, Hact.
  unfold try_catch at 1. unfold bind at 1. rewrite Hcur.
  pose proof (silent_currentTab w) as Hs1. rewrite Hcur in Hs1. cbn in Hs1.
  unfold bind at 1.
  pose proof (ensureContentScript_resolves tabId w1) as He.
  pose proof (silent_ensureContentScript tabId w1) as Hs2.
  destruct (ensureContentScript tabId w1) as [r w2]. cbn in He, Hs2. subst r.
  cbn [snd]. unfold bind at 1. unfold try_catch at 1. unfold bind at 1.
  pose proof (silent_sendToContentWithRetry tabId (contentCommand id cmd args) 2 w2) as Hs3.
  destruct (sendToContentWithRetry tabId (contentCommand id cmd args) 2 w2)
    as [[resp|e] w3]; cbn in Hs3.
  - assert (Hc3 : Connected w3 s).
    { eapply same_link_Connected; [exact Hs3|].
      eapply same_link_Connected; [exact Hs2|].
      eapply same_link_Connected; [exact Hs1|exact Hconn]. }
    destruct Hc3 as [Hws3 Hopen3].
    unfold ret. cbv beta iota.
    destruct resp; try reflexivity; unfold wsSend; rewrite Hws3, Hopen3; reflexivity.
  - assert (Hc3 : Connected w3 s).
    { eapply same_link_Connected; [exact Hs3|].
      eapply same_link_Connected; [exact Hs2|].
      eapply same_link_Connected; [exact Hs1|exact Hconn]. }
    destruct Hc3 as [Hws3 Hopen3].
    unfold bind, wsSend, ret. rewrite Hws3, Hopen3. reflexivity.
Qed.

(** ** What contentScript.js replies *)

Section ContentReplies.

Import ContentScript.

Variable id : JSValue.

Lemma RepliesFor_bind {A : Type} (c : DOM A) (k : A -> DOM (option JSValue)) :
  (forall a, RepliesFor id (k a)) -> RepliesFor id (bind c k).
Proof.
  intros Hk log. unfold bind. destruct (c log) as [[a|e] l]; [apply Hk|exact I].
Qed.

Lemma RepliesFor_ret (r : option JSValue) :
  match r with Some reply => answers id reply | None => True end ->
  RepliesFor id (ret r).
Proof. intros H log. exact H. Qed.

Lemma RepliesFor_throw (e : Exn) : RepliesFor id (throw e).
Proof. intros log. exact I. Qed.

Lemma RepliesFor_try (c : DOM (option JSValue)) (h : Exn -> DOM (option JSValue)) :
  RepliesFor id c -> (forall e, RepliesFor id (h e)) -> RepliesFor id (try_catch c h).
Proof.
  intros Hc Hh log. unfold try_catch. specialize (Hc log).
  destruct (c log) as [[a|e] l]; [exact Hc|apply Hh].
Qed.

Lemma RepliesFor_if (b : bool) (c1 c2 : DOM (option JSValue)) :
  RepliesFor id c1 -> RepliesFor id c2 -> RepliesFor id (if b then c1 else c2).
Proof. destruct b; auto. Qed.

Lemma RepliesFor_handleCommand (doc : Document) (start : Z) (future : list PageEvent)
    (cmd args : JSValue) :
  RepliesFor id (handleCommand doc start future id cmd args).
Proof.
  unfold handleCommand.
  apply RepliesFor_try; [|intros e; apply RepliesFor_ret; right; eexists; reflexivity].
  repeat first
    [ apply RepliesFor_if
    | apply RepliesFor_bind; intros ?
    | apply RepliesFor_throw
    | apply RepliesFor_ret; first [exact I | left; eexists; reflexivity
                                   | right; eexists; reflexivity]
    | match goal with
      | |- RepliesFor _ (match ?x with _ => _ end) => destruct x
      end ].
Qed.

End ContentReplies.

(** ** Every handled command is answered *)

Lemma has_field_false (k : string) (v : JSValue) :
  has_field k v = false -> getPropOpt v k = JUndefined.
Proof.
  destruct v; try reflexivity. cbn.
  induction fields as [|[k' x] rest IH]; cbn; [reflexivity|].
  destruct (k' =? k)%string; cbn; [discriminate|exact IH].
Qed.

(** X25.  Taking the socket to stay open and every browser call the
    handler awaits to settle, as every call of [Chrome] does: the handler
    of a command [{ id, cmd, args }] returns without an uncaught exception,
    having sent at most one frame: one Result Envelope of its own carrying
    [id], or, for a command passed to the content script whose send
    succeeded, the content script's reply as it is, and nothing when that
    reply is [undefined].  A command that is not of the content-script
    class gets exactly one envelope.  An exception that escapes the [try]
    block is answered with [ok: false] and its message ([errText]).  And a
    reply of contentScript.js to the command it is sent is a Result
    Envelope for the same [id]. *)
Theorem handler_replies_at_most_once (msg : JSValue) (w : W) (s : nat) :
  let id := getPropOpt msg "id" in
  let cmd := getPropOpt msg "cmd" in
  let args := with_default (getPropOpt msg "args") (obj []) in
  Connected w s ->
  exists w',
    handleControllerCommand msg w = (Resolved tt, w')
    /\ Replied s id cmd args w (Resolved tt, w')
    /\ (is_actionType cmd = false ->
        exists env, wire w' = (wire w ++ [(s, env)])%list /\ answers id env)
    /\ (forall e w1, route id cmd args w = (Rejected e, w1) ->
        wire w' = (wire w ++ [(s, errEnvelope id (errText e))])%list)
    /\ (is_actionType cmd = true -> is_str cmd "navigate" = false ->
        forall tabId w1, currentTab w = (Resolved tabId, w1) ->
        match sendToContentWithRetry tabId (contentCommand id cmd args) 2
                (snd (ensureContentScript tabId w1)) with
        | (Resolved JUndefined, _) => wire w' = wire w
        | (Resolved resp, _) => wire w' = (wire w ++ [(s, resp)])%list
        | (Rejected e, _) => wire w' = (wire w ++ [(s, errEnvelope id (errText e))])%list
        end)
    /\ (forall doc start future log reply log',
        ContentScript.onMessage doc start future (contentCommand id cmd args) log
        = (Resolved (Some reply), log') ->
        answers id reply).
Proof.
  intros id cmd args Hconn.
  assert (Hr : Replied s id cmd args w (handleControllerCommand msg w))
    by exact (Replies_catch s id cmd args _ (Replies_route s id cmd args) w Hconn).
  assert (Hret : fst (handleControllerCommand msg w) = Resolved tt)
    by exact (catch_returns (route id cmd args)
                (fun e => errEnvelope id (errText e)) w).
  destruct (handleControllerCommand msg w) as [r w'] eqn:Hrun.
  cbn in Hret. subst r. exists w'.
  split; [reflexivity|]. split; [exact Hr|]. split; [|split; [|split]].
  - intros Hna. destruct Hr as [_ [Hown|(t & w1 & w2 & resp & Hact & _)]].
    + exact Hown.
    + congruence.
  - intros e w1 Hrej.
    pose proof (Replies_route s id cmd args w Hconn) as Hroute.
    rewrite Hrej in Hroute. destruct Hroute as [[Hws1 Hopen1] Hwire1]. cbn in *.
    unfold handleControllerCommand, try_catch in Hrun.
    fold id cmd args in Hrun. rewrite Hrej in Hrun.
    unfold wsSend in Hrun. rewrite Hws1, Hopen1 in Hrun. cbn in Hrun.
    inversion Hrun; subst w'. cbn. rewrite Hwire1. reflexivity.
  - intros Hact Hnav tabId w1 Hcur.
    rewrite (forward_exact s id cmd args w tabId w1 Hconn Hact Hnav Hcur
               msg eq_refl eq_refl eq_refl) in Hrun.
    pose proof (silent_currentTab w) as Hs1. rewrite Hcur in Hs1.
    pose proof (silent_ensureContentScript tabId w1) as Hs2.
    pose proof (silent_sendToContentWithRetry tabId (contentCommand id cmd args) 2
                  (snd (ensureContentScript tabId w1))) as Hs3.
    destruct Hs1 as (Hw1 & _), Hs2 as (Hw2 & _), Hs3 as (Hw3 & _). cbn [snd] in Hw1.
    destruct (sendToContentWithRetry tabId (contentCommand id cmd args) 2
                (snd (ensureContentScript tabId w1))) as [[resp|e] w3];
      cbn [snd] in Hw3;
      [destruct resp|]; inversion Hrun; subst w'; cbn; congruence.
  - intros doc start future log reply log' Hmsg.
    unfold ContentScript.onMessage in Hmsg. cbn in Hmsg.
    pose proof (RepliesFor_handleCommand id doc start future cmd
                  (with_default args (obj [])) log) as Hfor.
    rewrite Hmsg in Hfor. exact Hfor.
Qed.

End Router.

(* ================================================================== *)
(** * Properties of the relay client *)
(* ================================================================== *)

Section Relay.

Import Background.

Context {E : Type} {chrome : Chrome E}.

Variable JSON_parse : string -> option JSValue.

Local Abbreviation W := (Worker E).

Lemma set_nth_length {A : Type} (n : nat) (x : A) (xs : list A) :
  length (set_nth n x xs) = length xs.
Proof.
  revert n. induction xs as [|y xs IH]; intros [|n]; cbn; try reflexivity.
  now rewrite IH.
Qed.

Lemma nth_error_set_nth {A : Type} (n : nat) (x y : A) (xs : list A) :
  nth_error xs n = Some y -> nth_error (set_nth n x xs) n = Some x.
Proof.
  revert n. induction xs as [|z xs IH]; intros [|n]; cbn; try discriminate.
  - reflexivity.
  - apply IH.
Qed.

Lemma set_nth_twice {A : Type} (n : nat) (x y : A) (xs : list A) :
  set_nth n x (set_nth n y xs) = set_nth n x xs.
Proof.
  revert n. induction xs as [|z xs IH]; intros [|n]; cbn; try reflexivity.
  now rewrite IH.
Qed.

Lemma nth_error_last {A : Type} (xs : list A) (x : A) :
  nth_error (xs ++ [x]) (length xs) = Some x.
Proof. induction xs as [|y xs IH]; cbn; [reflexivity|exact IH]. Qed.

Lemma set_nth_last {A : Type} (xs : list A) (x y : A) :
  set_nth (length xs) y (xs ++ [x]) = (xs ++ [y])%list.
Proof. induction xs as [|z xs IH]; cbn; [reflexivity|now rewrite IH]. Qed.

Lemma nth_error_lt {A : Type} (xs : list A) (n : nat) (x : A) :
  nth_error xs n = Some x -> Nat.ltb n (length xs) = true.
Proof.
  intros H. apply Nat.ltb_lt. apply nth_error_Some. congruence.
Qed.

(** The open event of the socket the worker holds puts the announcement
    and then the boot ping on that socket. *)
Lemma open_announces (w : W) (s : nat) :
  ws w = Some s -> nth_error (sockets w) s = Some CONNECTING ->
  let w' := dispatch JSON_parse w (SocketOpen s) in
  Connected w' s /\ wire w' = (wire w ++ [(s, hello); (s, bootPing)])%list.
Proof.
  intros Hws Hst. cbn [dispatch]. unfold socket_is. rewrite Hst.
  unfold onopen, bind, wsSend. cbn [ws set_sockets sockets].
  rewrite Hws. rewrite (nth_error_set_nth s OPEN CONNECTING _ Hst). cbn.
  rewrite Hws. rewrite (nth_error_set_nth s OPEN CONNECTING _ Hst). cbn.
  split.
  - split; [exact Hws|]. apply (nth_error_set_nth s OPEN CONNECTING _ Hst).
  - now rewrite <- app_assoc.
Qed.

(** The close event of the socket the worker holds, open or closing. *)
Lemma close_schedules (w : W) (s : nat) (r : ReadyState) :
  ws w = Some s -> nth_error (sockets w) s = Some r -> r <> CLOSED ->
  let w' := dispatch JSON_parse w (SocketClose s) in
  reconnectTimer w' = Some (nextTimer w)
  /\ In (nextTimer w, RETRY_MS) (timers w')
  /\ (forall t, In t (timers w') -> In t (timers w) \/ t = (nextTimer w, RETRY_MS))
  /\ nextTimer w' = S (nextTimer w)
  /\ ws w' = Some s
  /\ sockets w' = set_nth s CLOSED (sockets w)
  /\ wire w' = wire w.
Proof.
  intros Hws Hst Hr. cbn [dispatch].
  assert (Hc : socket_is w s CLOSED = false).
  { unfold socket_is. rewrite Hst. destruct r; try reflexivity. congruence. }
  rewrite Hc. rewrite (nth_error_lt _ _ _ Hst).
  unfold onclose. cbn.
  repeat split; try assumption.
  - apply in_or_app. right. now left.
  - intros t Hin. apply in_app_or in Hin. destruct Hin as [Hin|[<-|[]]]; [left|now right].
    destruct (reconnectTimer w); [|exact Hin].
    apply filter_In in Hin. apply Hin.
Qed.

(** C8.  From a connected relay, the close of the socket, whether it comes
    alone or is forced by an error, leaves a reconnect scheduled after
    [RETRY_MS] = 1500 ms, whatever happened before and whatever else is
    pending; and when that timer fires and the new socket opens, the
    [hello] announcement and then the boot ping are sent on it, and the
    relay is connected again. *)
Theorem reconnect_after_fixed_delay (w : W) (s : nat) (forced : bool) :
  Connected w s ->
  let h := nextTimer w in
  let s' := length (sockets w) in
  let closed :=
    run JSON_parse w ((if forced then [SocketError s] else []) ++ [SocketClose s]) in
  let reopened := run JSON_parse closed [TimerFired h; SocketOpen s'] in
  RETRY_MS = 1500
  /\ reconnectTimer closed = Some h
  /\ In (h, 1500) (timers closed)
  /\ (forall t, In t (timers closed) -> In t (timers w) \/ t = (h, 1500))
  /\ readyState closed = Some CLOSED
  /\ wire closed = wire w
  /\ Connected reopened s'
  /\ wire reopened = (wire w ++ [(s', hello); (s', bootPing)])%list.
Proof.
  intros [Hws Hopen] h s' closed reopened.
  set (w0 := if forced then dispatch JSON_parse w (SocketError s) else w).
  assert (Hclosed : closed = dispatch JSON_parse w0 (SocketClose s)).
  { subst closed w0. destruct forced; reflexivity. }
  assert (H0 : ws w0 = Some s /\ wire w0 = wire w /\ timers w0 = timers w
               /\ nextTimer w0 = nextTimer w /\ reconnectTimer w0 = reconnectTimer w
               /\ exists r, nth_error (sockets w0) s = Some r /\ r <> CLOSED
                            /\ set_nth s CLOSED (sockets w0) = set_nth s CLOSED (sockets w)).
  { subst w0. destruct forced.
    - cbn [dispatch]. unfold socket_is. rewrite Hopen.
      rewrite (nth_error_lt _ _ _ Hopen). unfold onerror, ws_close. rewrite Hws, Hopen.
      cbn. repeat split; try assumption.
      exists CLOSING. repeat split.
      + apply (nth_error_set_nth s CLOSING OPEN _ Hopen).
      + discriminate.
      + apply set_nth_twice.
    - repeat split; try assumption. exists OPEN. repeat split; [assumption|discriminate]. }
  destruct H0 as (Hws0 & Hwire0 & Htim0 & Hnext0 & Hrt0 & r & Hst0 & Hr & Hset).
  pose proof (close_schedules w0 s r Hws0 Hst0 Hr) as Hc.
  rewrite <- Hclosed in Hc. cbv zeta in Hc.
  destruct Hc as (Hrt & Hin & Honly & Hnext & Hwsc & Hsock & Hwirec).
  rewrite Hnext0 in Hrt, Hin. rewrite Hset in Hsock.
  assert (Hstate : readyState closed = Some CLOSED).
  { unfold readyState. rewrite Hwsc, Hsock.
    apply (nth_error_set_nth s CLOSED OPEN _ Hopen). }
  split; [reflexivity|]. split; [exact Hrt|]. split; [exact Hin|].
  split. { intros t Ht. destruct (Honly t Ht) as [Ht'|Ht'].
           - left. now rewrite <- Htim0.
           - right. rewrite Hnext0 in Ht'. exact Ht'. }
  split; [exact Hstate|]. split; [congruence|].
  (* the timer fires: a new socket is made *)
  set (fired := dispatch JSON_parse closed (TimerFired h)).
  assert (Hfired : ws fired = Some s'
                   /\ sockets fired = (sockets closed ++ [CONNECTING])%list
                   /\ wire fired = wire closed).
  { subst fired. cbn [dispatch].
    assert (Hex : existsb (fun t => Nat.eqb (fst t) h) (timers closed) = true).
    { apply existsb_exists. exists (h, 1500). split; [exact Hin|apply Nat.eqb_refl]. }
    rewrite Hex. unfold connectWS.
    match goal with
    | |- context [is_OPEN (readyState ?x)] =>
        assert (Hrs : readyState x = Some CLOSED) by exact Hstate
    end.
    rewrite Hrs. cbn.
    repeat split. f_equal. subst s'. rewrite Hsock. apply set_nth_length. }
  destruct Hfired as (Hwsf & Hsockf & Hwiref).
  assert (Hs' : s' = length (sockets closed)).
  { subst s'. rewrite Hsock. now rewrite set_nth_length. }
  assert (Hconn : nth_error (sockets fired) s' = Some CONNECTING).
  { rewrite Hsockf, Hs'. apply nth_error_last. }
  pose proof (open_announces fired s' Hwsf Hconn) as [Hc' Hw'].
  change reopened with (dispatch JSON_parse fired (SocketOpen s')).
  split; [exact Hc'|]. rewrite Hw'. congruence.
Qed.

Lemma falsy_undefined : truthy JUndefined = false.
Proof. reflexivity. Qed.

(** C9.  A frame that [JSON.parse] rejects, or whose value has no [cmd]
    field, changes nothing: no frame goes out on the wire and nothing else
    is recorded. *)
Theorem malformed_frame_is_dropped (w : W) (s : nat) (data : string) :
  JSON_parse data = None
  \/ (exists msg, JSON_parse data = Some msg /\ has_field "cmd" msg = false) ->
  dispatch JSON_parse w (SocketMessage s data) = w.
Proof.
  intros H. cbn [dispatch]. destruct (socket_is w s OPEN); [|reflexivity].
  unfold onmessage. destruct H as [Hnone|(msg & Hsome & Hno)].
  - now rewrite Hnone.
  - rewrite Hsome. rewrite (has_field_false "cmd" msg Hno).
    rewrite falsy_undefined. cbn [negb]. now rewrite orb_true_r.
Qed.

End Relay.

(* ================================================================== *)
(** * The worker and the content script together *)
(* ================================================================== *)

Section Together.

Import ContentScript Background Browser Samples.

(** [switchTab] is one of [actionTypes], so the router never reaches its
    [switchTab] branch: the command goes the way of a DOM command. *)
Lemma switchTab_routed_as_action (E : Type) (chrome : Chrome E) (id args : JSValue) :
  route id (JStr "switchTab") args =
  (tabId <- currentTab ;;
   ensureContentScript tabId ;;;
   r <- try_catch
          (resp <- sendToContentWithRetry tabId
                     (contentCommand id (JStr "switchTab") args) 2 ;;
           ret (Some resp))
          (fun e => wsSend (errEnvelope id (errText e)) ;;; ret None) ;;
   match r with
   | None => ret tt
   | Some JUndefined => ret tt
   | Some resp => wsSend resp
   end).
Proof. reflexivity. Qed.

(** The [switchTab] branch taken by itself: an index outside the tabs falls
    through to the title. *)
Lemma findTarget_falls_through (tabs : list Tab) (i : Z) (title urlMatch : JSValue) :
  js_index tabs i = None -> truthy title = true ->
  findTarget tabs (JNum i) title urlMatch =
  match find (fun t => includes (match tab_title t with Some s => s | None => "" end)
                                (ToString title)) tabs with
  | Some t => Some t
  | None => if truthy urlMatch
            then find (fun t => includes (match tab_url t with Some s => s | None => "" end)
                                         (ToString urlMatch)) tabs
            else None
  end.
Proof.
  intros Hi Ht. unfold findTarget. rewrite Hi, Ht.
  destruct (find _ tabs); reflexivity.
Qed.

(** C1 (on the code).  With two tabs open, the second titled Gmail, and the
    first tracked, the command [switchTab] with [title: "Gmail"] and an
    index out of range is passed to the content script of the tracked tab,
    which answers [unknown_command]: no tab is activated and the tracked
    tab stays the first.  The [switchTab] branch of the router, run on the
    same command, selects the Gmail tab, tracks it and replies with it. *)
Theorem switchTab_reaches_content_script :
  let args := [("index", JNum 9); ("title", JStr "Gmail")] in
  let w' := snd (handleControllerCommand (command "7" "switchTab" args) connected) in
  let branch := snd (switchTab (JStr "7") (obj args) connected) in
  is_actionType (JStr "switchTab") = true
  /\ wire w' = [(0%nat, errEnvelope (JStr "7") "unknown_command")]
  /\ activeTabId w' = Some 1
  /\ map active (tabs (env w')) = [true; false]
  /\ wire branch =
       [(0%nat, okEnvelope (JStr "7")
                  (obj [("tabId", JNum 2); ("title", JStr "Gmail");
                        ("url", JStr "https://mail.google.com/")]))]
  /\ activeTabId branch = Some 2
  /\ map active (tabs (env branch)) = [false; true].
Proof. vm_compute. repeat split. Qed.

(** The reply to [screenshot] is the same whichever tab is tracked. *)
Lemma screenshot_whatever_is_tracked (E : Type) (chrome : Chrome E) (w : Worker E)
    (id args : JSValue) (t t' : TabId) :
  let shot := obj [("id", id); ("cmd", JStr "screenshot"); ("args", args)] in
  activeTabId w = Some t ->
  wire (snd (handleControllerCommand shot (set_activeTabId (Some t') w)))
  = wire (snd (handleControllerCommand shot w)).
Proof.
  intros shot Ht.
  unfold handleControllerCommand, shot, route, currentTab, bind, get_state,
    try_catch, ret, lift, call, wsSend.
  cbn. rewrite Ht.
  destruct (getProp (js_or (with_default args (obj [])) (obj [])) "format") as [format|e];
    cbn.
  - match goal with
    | |- context [tabs_captureVisibleTab ?a ?b ?c] =>
        destruct (tabs_captureVisibleTab a b c) as [[dataUrl|e] e1]
    end;
      cbn; destruct (ws w) as [s|]; try reflexivity;
      destruct (is_OPEN (nth_error (sockets w) s)); reflexivity.
  - destruct (ws w) as [s|]; try reflexivity;
      destruct (is_OPEN (nth_error (sockets w) s)); reflexivity.
Qed.

(** C4 (on the code).  After [openTab] with [active: false] the tracked tab
    is the new one, which is not the active tab of its window; [screenshot]
    then replies with the image of the window's active tab, the first one,
    and not with that of the tracked tab. *)
Theorem screenshot_is_of_the_window :
  let opened :=
    snd (handleControllerCommand
           (command "8" "openTab" [("url", JStr "https://b.example/");
                                   ("active", JBool false)]) connected) in
  let shot := snd (handleControllerCommand (command "9" "screenshot" []) opened) in
  activeTabId opened = Some 3
  /\ activeTabId shot = Some 3
  /\ map (fun o => (tab_id (info o), active o)) (tabs (env shot))
     = [(1, true); (2, false); (3, false)]
  /\ wire shot =
       (wire opened
        ++ [(0%nat, okEnvelope (JStr "9")
                      (obj [("dataUrl", JStr "data:image/png;base64,INBOX")]))])%list
  /\ option_map (imageOf "png") (pageOf 1 (env shot)) = Some "data:image/png;base64,INBOX"
  /\ option_map (imageOf "png") (pageOf 3 (env shot)) = Some "data:image/png;base64,".
Proof. vm_compute. repeat split. Qed.

(** C3, as stated, fails: with [limit = -1], which is not a non-negative
    integer, [query] on a selector matching five elements returns four of
    the five values; and with [limit = 2] but without [all] it returns
    one. *)
Lemma query_negative_limit_cuts :
  let five := [JStr "one"; JStr "two"; JStr "three"; JStr "four"; JStr "five"] in
  query_extract fiveItems (JStr ".item") (JBool true) JNull [] = (Resolved five, [])
  /\ handleCommand fiveItems 0 [] (JStr "q") (JStr "query")
       (obj [("selector", JStr ".item"); ("all", JBool true); ("limit", JNum (-1))]) []
     = (Resolved (Some (okEnvelope (JStr "q")
          (obj [("results", JArr [JStr "one"; JStr "two"; JStr "three"; JStr "four"])]))), [])
  /\ handleCommand fiveItems 0 [] (JStr "q") (JStr "query")
       (obj [("selector", JStr ".item"); ("limit", JNum 2)]) []
     = (Resolved (Some (okEnvelope (JStr "q") (obj [("results", JArr [JStr "one"])]))), []).
Proof. vm_compute. repeat split. Qed.

End Together.

(* ================================================================== *)
(** * The theorems at sample inputs *)
(* ================================================================== *)

Section Instances.

Import ContentScript Background Browser Samples.

(** Three commands on the connected sample worker: [ping] is answered
    once; [navigate] with [args: null] throws in the handler and is answered
    with the message of the exception; [click] is answered with the reply
    of the content script. *)
Lemma handler_replies_on_samples :
  Connected connected 0
  /\ (exists w', handleControllerCommand (command "1" "ping" []) connected
                  = (Resolved tt, w')
                 /\ wire w' = [(0%nat, okEnvelope (JStr "1") (JStr "pong"))])
  /\ wire (snd (handleControllerCommand
                  (obj [("id", JStr "2"); ("cmd", JStr "navigate"); ("args", JNull)])
                  connected))
     = [(0%nat, errEnvelope (JStr "2") "Cannot read properties of null (reading 'url')")]
  /\ wire (snd (handleControllerCommand
                  (command "3" "click" [("selector", JStr ".item")]) connected))
     = [(0%nat, okEnvelope (JStr "3") (obj [("clicked", JStr ".item")]))].
Proof.
  assert (Hc : Connected connected 0) by (split; reflexivity).
  split; [exact Hc|]. split; [|split].
  - destruct (handler_replies_at_most_once (command "1" "ping" []) connected 0 Hc)
      as (w' & Hrun & _ & Hone & _).
    exists w'. split; [exact Hrun|].
    destruct (Hone eq_refl) as (env & Hwire & _).
    vm_compute in Hrun. inversion Hrun. reflexivity.
  - destruct (handler_replies_at_most_once
                (obj [("id", JStr "2"); ("cmd", JStr "navigate"); ("args", JNull)])
                connected 0 Hc)
      as (w' & Hrun & _ & _ & Hcatch & _).
    rewrite Hrun. cbn [snd].
    exact (Hcatch (TypeError "Cannot read properties of null (reading 'url')")
                  connected eq_refl).
  - destruct (handler_replies_at_most_once
                (command "3" "click" [("selector", JStr ".item")]) connected 0 Hc)
      as (w' & Hrun & _ & _ & _ & Hfwd & _).
    rewrite Hrun. cbn [snd].
    exact (Hfwd eq_refl eq_refl 1 connected eq_refl).
Defined.

(** [query] on the page of five items: without a selector, with
    [limit = 2] and [all], and with a negative limit. *)
Lemma query_on_five_items :
  handleCommand fiveItems 0 [] (JStr "q") (JStr "query") (JObj [("all", JBool true)]) []
    = (Resolved (Some (errEnvelope (JStr "q") "missing_selector")), [])
  /\ handleCommand fiveItems 0 [] (JStr "q") (JStr "query")
       (JObj [("selector", JStr ".item"); ("all", JBool true); ("limit", JNum 2)]) []
     = (Resolved (Some (okEnvelope (JStr "q")
          (obj [("results", JArr [textOf (item 1 " one "); textOf (item 2 "two")])]))), [])
  /\ exists results,
       handleCommand fiveItems 0 [] (JStr "q") (JStr "query")
         (JObj [("selector", JStr ".item"); ("all", JBool true); ("limit", JNum (-2))]) []
       = (Resolved (Some (okEnvelope (JStr "q") (obj [("results", JArr results)]))), [])
       /\ length results = 3%nat.
Proof.
  split; [|split].
  - apply (proj1 (query_truncates_by_slice fiveItems 0 [] (JStr "q")
                    [("all", JBool true)] [])).
    reflexivity.
  - apply (proj2 (proj2 (query_truncates_by_slice fiveItems 0 [] (JStr "q")
                    [("selector", JStr ".item"); ("all", JBool true); ("limit", JNum 2)] [])))
      with (e3 := item 3 "three") (e4 := item 4 "four") (e5 := item 5 "five");
      reflexivity.
  - destruct (proj1 (proj2 (query_truncates_by_slice fiveItems 0 [] (JStr "q")
                    [("selector", JStr ".item"); ("all", JBool true); ("limit", JNum (-2))] []))
                eq_refl
                (map textOf [item 1 " one "; item 2 "two"; item 3 "three";
                             item 4 "four"; item 5 "five"]) [] eq_refl)
      as (results & Hrun & _ & _ & Hneg).
    exists results. split; [exact Hrun|].
    rewrite (Hneg (-2) eq_refl ltac:(lia)). reflexivity.
Defined.

(** [click] on the page of five items: with nothing to click, with a
    selector that matches nothing, and with a point where nothing is. *)
Lemma click_on_five_items :
  handleCommand fiveItems 0 [] (JStr "c") (JStr "click") (JObj []) []
    = (Resolved (Some (errEnvelope (JStr "c") "missing_selector_or_xy")), [])
  /\ handleCommand fiveItems 0 [] (JStr "c") (JStr "click")
       (JObj [("selector", JStr "#none")]) []
     = (Resolved (Some (errEnvelope (JStr "c") "element_not_found")), [])
  /\ handleCommand fiveItems 0 [] (JStr "c") (JStr "click")
       (JObj [("xy", obj [("x", JNum 10); ("y", JNum 20)])]) []
     = (Resolved (Some (errEnvelope (JStr "c") "element_not_found")), []).
Proof.
  split; [|split].
  - apply (proj1 (click_fails_without_side_effect fiveItems 0 [] (JStr "c") [] []));
      reflexivity.
  - apply (proj1 (proj2 (click_fails_without_side_effect fiveItems 0 [] (JStr "c")
                           [("selector", JStr "#none")] [])));
      reflexivity.
  - apply (proj2 (proj2 (click_fails_without_side_effect fiveItems 0 [] (JStr "c")
                           [("xy", obj [("x", JNum 10); ("y", JNum 20)])] [])));
      reflexivity.
Defined.

(** [waitFor] with [timeoutMs: 0] on a page where the element never comes:
    the tick at 150 ms does not reject, the tick past 10000 ms does. *)
Lemma waitFor_zero_timeout :
  handleCommand blank 0 [PollTick blank 150; PollTick blank 10050] (JStr "w")
    (JStr "waitFor") (JObj [("selector", JStr "#late"); ("timeoutMs", JNum 0)]) []
    = (Resolved (Some (errEnvelope (JStr "w") "waitFor_timeout")), [])
  /\ promise (waitForSelector (JStr "#late") (JNum 10000) 0 blank [PollTick blank 150])
     = None.
Proof.
  destruct (waitFor_falsy_timeout_is_default blank 0
              [PollTick blank 150; PollTick blank 10050] (JStr "w")
              [("selector", JStr "#late"); ("timeoutMs", JNum 0)] [] eq_refl)
    as [Hrun Hquiet].
  split; [exact Hrun|].
  destruct (promise (waitForSelector (JStr "#late") (JNum 10000) 0 blank
                       [PollTick blank 150])) as [[b|e]|] eqn:Hp.
  - vm_compute in Hp. discriminate.
  - destruct (Hquiet [PollTick blank 150] e) as [_ Hq].
    + repeat constructor. cbn. lia.
    + exact Hp.
    + vm_compute in Hq. discriminate.
  - reflexivity.
Defined.

(** The sample worker loses its socket through an error, reconnects and
    announces itself on the new socket. *)
Lemma reconnect_of_sample_worker :
  let closed := run (fun _ => None) connected [SocketError 0; SocketClose 0] in
  let reopened := run (fun _ => None) closed [TimerFired 1; SocketOpen 1] in
  timers closed = [(1%nat, 1500)]
  /\ wire reopened = [(1%nat, hello); (1%nat, bootPing)].
Proof.
  assert (Hc : Connected connected 0) by (split; reflexivity).
  destruct (reconnect_after_fixed_delay (fun _ => None) connected 0 true Hc)
    as (_ & _ & _ & _ & _ & _ & _ & Hwire).
  split; [reflexivity|exact Hwire].
Defined.

(** Two frames the sample worker drops: one that does not parse and one
    that parses to the relay's greeting, which has no [cmd]. *)
Lemma dropped_frames :
  let parse := fun data : string =>
    if (data =? "greeting")%string then Some (obj [("type", JStr "welcome")]) else None in
  dispatch parse connected (SocketMessage 0 "{ not json") = connected
  /\ dispatch parse connected (SocketMessage 0 "greeting") = connected.
Proof.
  split.
  - apply malformed_frame_is_dropped. left. reflexivity.
  - apply malformed_frame_is_dropped. right.
    exists (obj [("type", JStr "welcome")]). split; reflexivity.
Defined.

End Instances.

(* ================================================================== *)
(** * More on the DOM command executor *)
(* ================================================================== *)

Section ExecutorMore.

Import ContentScript MoreSamples Samples.

Variables (doc : Document) (start : Z) (future : list PageEvent) (id : JSValue).

(** X1.  [type]: when the selector resolves to no element the reply is
    [element_not_found] and nothing is done to the page; otherwise the
    element is focused, its value set to the text (the empty string for a
    null or missing text), [input] and then [change] are dispatched, and
    only when [submit] is truthy the owning form is submitted, or, without
    a form, Enter is keyed; the reply carries the [length] of the text,
    its number of UTF-16 code units. *)
Theorem type_effects_in_order (fs : list (string * JSValue)) (log : list DomEffect) :
  let selector := assoc "selector" fs in
  let text := assoc "text" fs in
  let submit := assoc "submit" fs in
  let reply := handleCommand doc start future id (JStr "type") (JObj fs) log in
  (querySelector doc selector = Resolved None ->
     reply = (Resolved (Some (errEnvelope id "element_not_found")), log))
  /\ (forall el, querySelector doc selector = Resolved (Some el) ->
      reply =
        (Resolved (Some (okEnvelope id (obj [("typed", js_length (js_or text (JStr "")))]))),
         (log ++ [Focus (eid el); SetValue (eid el) (js_nullish text (JStr ""));
                  DispatchEvent (eid el) "input"; DispatchEvent (eid el) "change"]
              ++ (if truthy submit
                  then [match form el with
                        | Some f => FormSubmit f
                        | None => KeyDown (eid el) "Enter"
                        end]
                  else []))%list)).
Proof.
  intros selector text submit reply. subst reply.
  unfold handleCommand, try_catch, bind, lift, sel1.
  cbn [is_str String.eqb Ascii.eqb Bool.eqb getProp].
  fold selector. fold text. fold submit.
  split.
  - intros Hq. rewrite Hq. reflexivity.
  - intros el Hq. rewrite Hq. unfold typeText, bind, emit, modify, ret. cbn.
    destruct (truthy submit); [destruct (form el)|]; cbn;
      repeat rewrite <- app_assoc; cbn; try rewrite app_nil_r; reflexivity.
Qed.

(** X2.  [scroll]: a truthy selector decides alone: its element is scrolled
    into view, or, when there is none, the reply is [element_not_found] and
    nothing is scrolled.  Without a selector, [to: "top"] and
    [to: "bottom"] scroll the window; any other [to] scrolls nothing and
    the reply is still [{ scrolled: true }]. *)
Theorem scroll_targets (fs : list (string * JSValue)) (log : list DomEffect) :
  let selector := assoc "selector" fs in
  let to := assoc "to" fs in
  let reply := handleCommand doc start future id (JStr "scroll") (JObj fs) log in
  let done := Some (okEnvelope id (obj [("scrolled", JBool true)])) in
  (truthy selector = true -> querySelector doc selector = Resolved None ->
     reply = (Resolved (Some (errEnvelope id "element_not_found")), log))
  /\ (truthy selector = true ->
      forall el, querySelector doc selector = Resolved (Some el) ->
      reply = (Resolved done,
               (log ++ [ScrollIntoView (eid el)
                          (obj [("behavior", JStr "smooth"); ("block", JStr "center")])])%list))
  /\ (truthy selector = false -> to = JStr "top" ->
      reply = (Resolved done,
               (log ++ [WindowScrollTo (obj [("top", JNum 0); ("behavior", JStr "smooth")])])%list))
  /\ (truthy selector = false -> to = JStr "bottom" ->
      reply = (Resolved done,
               (log ++ [WindowScrollTo (obj [("top", JNum (scrollHeight doc));
                                             ("behavior", JStr "smooth")])])%list))
  /\ (truthy selector = false -> is_str to "top" = false -> is_str to "bottom" = false ->
      reply = (Resolved done, log)).
Proof.
  intros selector to reply done. subst reply done.
  unfold handleCommand, try_catch, bind, lift, sel1.
  cbn [is_str String.eqb Ascii.eqb Bool.eqb getProp].
  fold selector. fold to.
  repeat split.
  - intros Hs Hq. rewrite Hs, Hq. reflexivity.
  - intros Hs el Hq. rewrite Hs, Hq. reflexivity.
  - intros Hs Ht. rewrite Hs, Ht. reflexivity.
  - intros Hs Ht. rewrite Hs, Ht. reflexivity.
  - intros Hs Ht Hb. rewrite Hs. subst to.
    destruct (assoc "to" fs); cbn [is_str] in Ht, Hb |- *; try reflexivity.
    rewrite Ht, Hb. reflexivity.
Qed.

(** X3.  [click] on an element that is found: the element is scrolled into
    view, hovered and then clicked, in this order.  A truthy selector is
    used even when [xy] is given as well; [xy] is used only without one. *)
Theorem click_effects_in_order (fs : list (string * JSValue)) (log : list DomEffect)
    (el : Element) :
  let selector := assoc "selector" fs in
  let xy := assoc "xy" fs in
  let reply := handleCommand doc start future id (JStr "click") (JObj fs) log in
  let effects :=
    [ScrollIntoView (eid el) (obj [("block", JStr "center"); ("inline", JStr "center")]);
     DispatchEvent (eid el) "mouseover"; Click (eid el)] in
  (truthy selector = true -> querySelector doc selector = Resolved (Some el) ->
     reply = (Resolved (Some (okEnvelope id (obj [("clicked", selector)]))),
              (log ++ effects)%list))
  /\ (truthy selector = false -> truthy xy = true ->
      elementFromPoint doc (getPropOpt xy "x") (getPropOpt xy "y") = Resolved (Some el) ->
      reply = (Resolved (Some (okEnvelope id (obj [("clickedXY", xy)]))),
               (log ++ effects)%list)).
Proof.
  intros selector xy reply effects. subst reply effects.
  unfold handleCommand, try_catch, bind, lift, sel1.
  cbn [is_str String.eqb Ascii.eqb Bool.eqb getProp].
  fold selector. fold xy.
  split.
  - intros Hs Hq. rewrite Hs, Hq. cbn. repeat rewrite <- app_assoc. reflexivity.
  - intros Hs Hx Hp. rewrite Hs, Hx.
    rewrite !(getProp_truthy xy _ Hx). rewrite Hp. cbn.
    repeat rewrite <- app_assoc. reflexivity.
Qed.

Lemma slice0_shorter {A : Type} (xs : list A) (e : Z) :
  (length (slice0 xs e) <= length xs)%nat.
Proof. unfold slice0. rewrite length_firstn. apply Nat.le_min_r. Qed.

Lemma query_limit_shorter (limit : JSValue) (out : list JSValue) :
  (length (query_limit limit out) <= length out)%nat.
Proof. destruct limit; cbn; try apply Nat.le_refl. apply slice0_shorter. Qed.

(** X4.  [query] reads the page and never acts on it, whatever its
    arguments; it never lists more values than the selector has matches,
    and without [all] it lists at most one. *)
Theorem query_reads_only (args : JSValue) (log : list DomEffect) :
  let reply := handleCommand doc start future id (JStr "query") args log in
  snd reply = log
  /\ (forall results,
        fst reply = Resolved (Some (okEnvelope id (obj [("results", JArr results)]))) ->
        forall selector matches,
          getProp args "selector" = Resolved selector ->
          querySelectorAll doc selector = Resolved matches ->
          (length results <= length matches)%nat
          /\ (truthy (with_default (getPropOpt args "all") (JBool false)) = false ->
              (length results <= 1)%nat)).
Proof.
  intros reply. subst reply.
  unfold handleCommand, try_catch, bind.
  cbn [is_str String.eqb Ascii.eqb Bool.eqb].
  unfold query_results, bind, lift.
  destruct (getProp args "selector") as [selector|e] eqn:Hsel; [|split; [reflexivity|discriminate]].
  assert (Hobj : forall k, getProp args k = Resolved (getPropOpt args k)).
  { intros k. destruct args; try discriminate; reflexivity. }
  rewrite !Hobj.
  destruct (truthy selector); cbn [negb]; [|split; [reflexivity|discriminate]].
  unfold query_extract, bind, selAll, sel1, lift, querySelector.
  set (all := with_default (getPropOpt args "all") (JBool false)).
  set (attr := with_default (getPropOpt args "attr") JNull).
  set (limit := with_default (getPropOpt args "limit") JNull).
  destruct (truthy all) eqn:Hall.
  - destruct (querySelectorAll doc selector) as [nodes|e] eqn:Hq;
      [|split; [reflexivity|discriminate]].
    cbn. split; [reflexivity|].
    intros results Hr selector' matches Hs' Hm. inversion Hs'; subst selector'.
    rewrite Hq in Hm. inversion Hm; subst matches. inversion Hr; subst results.
    split; [|discriminate].
    eapply Nat.le_trans; [apply query_limit_shorter|].
    destruct (truthy attr); rewrite length_map; apply Nat.le_refl.
  - destruct (querySelectorAll doc selector) as [nodes|e] eqn:Hq;
      [|split; [reflexivity|discriminate]].
    cbn. split; [reflexivity|].
    intros results Hr selector' matches Hs' Hm. inversion Hs'; subst selector'.
    rewrite Hq in Hm. inversion Hm; subst matches. inversion Hr; subst results.
    assert (Hone : (length (query_limit limit
                      (if truthy attr
                       then map (attrOf attr) match hd_error nodes with Some n => [n] | None => [] end
                       else map textOf match hd_error nodes with Some n => [n] | None => [] end))
                    <= length (match hd_error nodes with Some n => [n] | None => [] end))%nat).
    { eapply Nat.le_trans; [apply query_limit_shorter|].
      destruct (truthy attr); rewrite length_map; apply Nat.le_refl. }
    split.
    + eapply Nat.le_trans; [exact Hone|]. destruct nodes; cbn; lia.
    + intros _. eapply Nat.le_trans; [exact Hone|]. destruct nodes; cbn; lia.
Qed.

End ExecutorMore.

Section WaiterMore.

Import ContentScript MoreSamples Samples.

Variables (selector : JSValue) (start : Z).

Lemma step_keeps_shape (t : JSValue) (w : Waiter) (ev : PageEvent) :
  (promise w = None /\ observing w = true /\ polling w = true)
  \/ (promise w <> None /\ observing w = false) ->
  let w' := step selector t start w ev in
  (promise w' = None /\ observing w' = true /\ polling w' = true)
  \/ (promise w' <> None /\ observing w' = false).
Proof.
  intros [(Hp & Ho & Hl)|(Hp & Ho)]; destruct ev as [d|d now]; cbn [step].
  - rewrite Ho. unfold onMutation.
    destruct (querySelector d selector) as [[el|]|e]; [right|left; auto|left; auto].
    unfold settle, disconnect; cbn. rewrite Hp. cbn. split; [discriminate|reflexivity].
  - rewrite Hl. unfold onPoll.
    destruct (querySelector d selector) as [[el|]|e]; [| |left; auto].
    + right. destruct (gt_ms (now - start) t);
        unfold settle, disconnect, clearInterval; cbn; rewrite Hp; cbn;
        split; try discriminate; reflexivity.
    + destruct (gt_ms (now - start) t); [right|left; auto].
      unfold settle, disconnect, clearInterval; cbn; rewrite Hp; cbn.
      split; [discriminate|reflexivity].
  - rewrite Ho. right. auto.
  - right. destruct (polling w); [|auto]. unfold onPoll.
    destruct (querySelector d selector) as [[el|]|e]; [| |auto].
    + destruct (gt_ms (now - start) t);
        unfold settle, disconnect, clearInterval; cbn;
        destruct (promise w); try congruence; cbn; split; try discriminate; reflexivity.
    + destruct (gt_ms (now - start) t); [|auto].
      unfold settle, disconnect, clearInterval; cbn.
      destruct (promise w); try congruence. cbn. split; [discriminate|reflexivity].
Qed.

(** X5.  At every moment of a [waitForSelector] the promise is pending with
    the observer and the interval both installed, or it is settled and the
    observer is disconnected: the observer never outlives the promise, and
    the interval is never cleared while the promise is pending. *)
Theorem waitFor_observer_never_outlives (timeoutMs : JSValue) (doc : Document)
    (future : list PageEvent) :
  let w := waitForSelector selector timeoutMs start doc future in
  (promise w = None /\ observing w = true /\ polling w = true)
  \/ (promise w <> None /\ observing w = false).
Proof.
  unfold waitForSelector.
  set (t := with_default timeoutMs (JNum 10000)).
  assert (H0 : (promise (waitForSelector_call selector doc) = None
                /\ observing (waitForSelector_call selector doc) = true
                /\ polling (waitForSelector_call selector doc) = true)
               \/ (promise (waitForSelector_call selector doc) <> None
                   /\ observing (waitForSelector_call selector doc) = false)).
  { unfold waitForSelector_call. destruct (truthy selector); [|left; auto].
    destruct (querySelector doc selector) as [[el|]|e]; cbn;
      [right|left; auto|right]; split; try discriminate; reflexivity. }
  revert H0. generalize (waitForSelector_call selector doc).
  induction future as [|ev evs IH]; intros w Hw; cbn; [exact Hw|].
  apply IH. apply step_keeps_shape. exact Hw.
Qed.

Lemma step_is_monotone (t : JSValue) (w : Waiter) (ev : PageEvent) :
  let w' := step selector t start w ev in
  (forall o, promise w = Some o -> promise w' = Some o)
  /\ (observing w = false -> observing w' = false)
  /\ (polling w = false -> polling w' = false).
Proof.
  assert (Hsettle : forall o w0,
             (forall o', promise w0 = Some o' -> promise (settle o w0) = Some o')
             /\ observing (settle o w0) = observing w0
             /\ polling (settle o w0) = polling w0).
  { intros o w0. unfold settle. destruct (promise w0) eqn:Hp0; cbn.
    - repeat split. intros o' H. congruence.
    - repeat split. intros o' H. discriminate. }
  destruct ev as [d|d now]; cbn [step].
  - destruct (observing w) eqn:Ho; [|repeat split; auto].
    unfold onMutation. destruct (querySelector d selector) as [[el|]|e];
      try (repeat split; auto; congruence).
    destruct (Hsettle (Resolved true) (disconnect w)) as (Hp1 & Ho1 & Hl1).
    repeat split.
    + intros o Hp. apply Hp1. exact Hp.
    + congruence.
    + intros Hl. rewrite Hl1. exact Hl.
  - destruct (polling w) eqn:Hl; [|repeat split; auto].
    unfold onPoll. destruct (querySelector d selector) as [found|e];
      [|repeat split; auto; congruence].
    set (w1 := match found with
               | Some _ => settle (Resolved true) (disconnect (clearInterval w))
               | None => w
               end).
    assert (H1 : (forall o, promise w = Some o -> promise w1 = Some o)
                 /\ (observing w = false -> observing w1 = false)).
    { subst w1. destruct found; [|auto].
      destruct (Hsettle (Resolved true) (disconnect (clearInterval w))) as (Hp1 & Ho1 & _).
      split; [intros o Hp; apply Hp1; exact Hp|]. intros _. rewrite Ho1. reflexivity. }
    destruct H1 as [Hp1 Ho1].
    destruct (gt_ms (now - start) t).
    + destruct (Hsettle (Rejected (Error "waitFor_timeout")) (disconnect (clearInterval w1)))
        as (Hp2 & Ho2 & _).
      repeat split.
      * intros o Hp. apply Hp2. cbn. apply Hp1. exact Hp.
      * intros _. rewrite Ho2. reflexivity.
      * congruence.
    + repeat split; auto. congruence.
Qed.

(** X6.  Once the promise of a [waitForSelector] is settled no later event
    changes the settlement (a match after the timeout does not turn the
    rejection into a success, nor a timeout after a match the success into
    a rejection), and an observer once disconnected or an interval once
    cleared is never installed again. *)
Theorem waitFor_settlement_is_final (t : JSValue) (w : Waiter) (evs : list PageEvent) :
  let w' := fold_left (step selector t start) evs w in
  (forall o, promise w = Some o -> promise w' = Some o)
  /\ (observing w = false -> observing w' = false)
  /\ (polling w = false -> polling w' = false).
Proof.
  revert w. induction evs as [|ev evs IH]; intros w; cbn.
  - repeat split; auto.
  - destruct (step_is_monotone t w ev) as (Hp & Ho & Hl).
    destruct (IH (step selector t start w ev)) as (Hp' & Ho' & Hl').
    repeat split; auto.
Qed.

(** X7.  With a numeric timeout [ms], an interval left running by a
    resolved [waitForSelector] is cleared by the first tick at which the
    selector can be evaluated and either matches or more than [ms]
    milliseconds have passed; a tick at which the element is absent and no
    more than [ms] have passed leaves it running. *)
Theorem waitFor_leftover_interval (ms : Z) (w : Waiter) (d : Document) (now : Z) :
  promise w <> None -> polling w = true ->
  let w' := step selector (JNum ms) start w (PollTick d now) in
  ((exists el, querySelector d selector = Resolved (Some el))
   \/ ((exists found, querySelector d selector = Resolved found)
       /\ ms < now - start) ->
   polling w' = false /\ promise w' = promise w)
  /\ (querySelector d selector = Resolved None -> now - start <= ms ->
      w' = w).
Proof.
  intros Hp Hl. cbn [step]. rewrite Hl. unfold onPoll. cbn [gt_ms]. split.
  - intros [[el Hq]|[[found Hq] Hgt]]; rewrite Hq.
    + destruct (ms <? now - start);
        unfold settle, disconnect, clearInterval; cbn;
        destruct (promise w); try congruence; cbn; split; reflexivity.
    + apply Z.ltb_lt in Hgt. rewrite Hgt. destruct found;
        unfold settle, disconnect, clearInterval; cbn;
        destruct (promise w); try congruence; cbn; split; reflexivity.
  - intros Hq Hle. apply Z.ltb_ge in Hle. rewrite Hq, Hle. reflexivity.
Qed.

(** X8.  A [waitFor] whose selector is falsy and is rejected by the page
    whenever it is evaluated (the empty string is) never settles: the first
    test is skipped, every callback throws before it can resolve or time
    out, so the observer and the interval stay installed and the command is
    never answered. *)
Theorem waitFor_rejected_selector_hangs (doc : Document) (future : list PageEvent)
    (id : JSValue) (fs : list (string * JSValue)) (log : list DomEffect) :
  assoc "selector" fs = selector ->
  truthy selector = false ->
  Forall (fun ev => match ev with
                    | Mutated d | PollTick d _ =>
                        exists e, querySelector d selector = Rejected e
                    end) future ->
  let w := waitForSelector selector (js_or (assoc "timeoutMs" fs) (JNum 10000))
             start doc future in
  promise w = None /\ observing w = true /\ polling w = true
  /\ handleCommand doc start future id (JStr "waitFor") (JObj fs) log
     = (Resolved None, log).
Proof.
  intros Hsel Hfalsy Hall.
  assert (Hrun : forall t w, fold_left (step selector t start) future w = w).
  { intros t. induction Hall as [|ev evs Hev _ IH]; intros w; cbn; [reflexivity|].
    assert (Hstep : step selector t start w ev = w).
    { destruct ev as [d|d now]; destruct Hev as [e He]; cbn [step].
      - destruct (observing w); [|reflexivity]. unfold onMutation. now rewrite He.
      - destruct (polling w); [|reflexivity]. unfold onPoll. now rewrite He. }
    rewrite Hstep. apply IH. }
  assert (Hw : waitForSelector selector (js_or (assoc "timeoutMs" fs) (JNum 10000))
                 start doc future = mkWaiter true true None).
  { unfold waitForSelector. rewrite Hrun. unfold waitForSelector_call.
    now rewrite Hfalsy. }
  cbv zeta. rewrite Hw. cbn. repeat split.
  unfold handleCommand, try_catch, bind, lift.
  cbn [is_str String.eqb Ascii.eqb Bool.eqb getProp].
  rewrite Hsel, Hw. reflexivity.
Qed.

End WaiterMore.

(* ================================================================== *)
(** * More on the tab session manager *)
(* ================================================================== *)

Section TabLoadMore.

Import Background TabLoad.

Variables (tabId : TabId) (start ms : Z).

Lemma released_is_final (w : TabWaiter) (evs : list TabEvent) :
  listening w = false -> ticking w = false ->
  fold_left (step tabId start ms) evs w = w.
Proof.
  intros Hl Ht. induction evs as [|ev evs IH]; cbn; [reflexivity|].
  destruct ev; cbn [step]; rewrite ?Hl, ?Ht; exact IH.
Qed.

Lemma idle_events_change_nothing (w : TabWaiter) (evs : list TabEvent) :
  Forall (fun ev => completes tabId ev = false /\ expires start ms ev = false) evs ->
  fold_left (step tabId start ms) evs w = w.
Proof.
  intros Hall. revert w. induction Hall as [|ev evs [Hc He] _ IH]; intros w; cbn;
    [reflexivity|].
  assert (Hstep : step tabId start ms w ev = w).
  { destruct ev as [i st|now]; cbn [step completes expires] in *.
    - destruct (listening w); [|reflexivity]. unfold listener. now rewrite Hc.
    - destruct (ticking w); [|reflexivity]. unfold onTick. now rewrite He. }
  rewrite Hstep. apply IH.
Qed.

(** X9.  [waitForTabComplete] keeps its listener and its interval exactly
    as long as its promise is pending: after any events it is pending with
    both installed, or resolved with [true], or rejected with
    [tab_load_timeout], and in the last two cases neither is left. *)
Theorem waitForTabComplete_releases_both (timeoutMs : option Z) (events : list TabEvent) :
  let w := waitForTabComplete tabId timeoutMs start events in
  (outcome w = None /\ listening w = true /\ ticking w = true)
  \/ ((outcome w = Some (Resolved true)
       \/ outcome w = Some (Rejected (Error "tab_load_timeout")))
      /\ listening w = false /\ ticking w = false).
Proof.
  unfold waitForTabComplete.
  set (t := match timeoutMs with Some x => x | None => 15000 end).
  assert (H0 : outcome (mkTabWaiter true true None) = None
               /\ listening (mkTabWaiter true true None) = true
               /\ ticking (mkTabWaiter true true None) = true) by (repeat split).
  revert H0. generalize (mkTabWaiter true true None).
  assert (Hgen : forall evs w,
             (outcome w = None /\ listening w = true /\ ticking w = true)
             \/ ((outcome w = Some (Resolved true)
                  \/ outcome w = Some (Rejected (Error "tab_load_timeout")))
                 /\ listening w = false /\ ticking w = false) ->
             let w' := fold_left (step tabId start t) evs w in
             (outcome w' = None /\ listening w' = true /\ ticking w' = true)
             \/ ((outcome w' = Some (Resolved true)
                  \/ outcome w' = Some (Rejected (Error "tab_load_timeout")))
                 /\ listening w' = false /\ ticking w' = false)).
  { induction evs as [|ev evs IH]; intros w Hw; cbn; [exact Hw|].
    apply IH. destruct Hw as [(Ho & Hl & Ht)|(Ho & Hl & Ht)].
    - destruct ev as [i st|now]; cbn [step]; rewrite ?Hl, ?Ht.
      + unfold listener. destruct ((i =? tabId) && is_str st "complete").
        * right. unfold finish. rewrite Ho. cbn. auto.
        * left. auto.
      + unfold onTick. destruct (t <? now - start).
        * right. unfold finish. rewrite Ho. cbn. auto.
        * left. auto.
    - right. destruct ev as [i st|now]; cbn [step]; rewrite ?Hl, ?Ht; auto. }
  intros w Hw. apply Hgen. left. exact Hw.
Qed.

(** X10.  What decides a [waitForTabComplete] is the first event that is
    either the update [status: "complete"] of the awaited tab or a tick
    more than the timeout after the start: the former resolves it, the
    latter rejects it with [tab_load_timeout], and nothing that comes later
    changes the outcome.  Updates of other tabs, other statuses and earlier
    ticks are ignored. *)
Theorem waitForTabComplete_first_decides (pre post : list TabEvent) (ev : TabEvent) :
  Forall (fun e => completes tabId e = false /\ expires start ms e = false) pre ->
  outcome (waitForTabComplete tabId (Some ms) start pre) = None
  /\ (completes tabId ev = true ->
      outcome (waitForTabComplete tabId (Some ms) start (pre ++ ev :: post))
      = Some (Resolved true))
  /\ (expires start ms ev = true ->
      outcome (waitForTabComplete tabId (Some ms) start (pre ++ ev :: post))
      = Some (Rejected (Error "tab_load_timeout"))).
Proof.
  intros Hpre. unfold waitForTabComplete.
  rewrite fold_left_app. rewrite !(idle_events_change_nothing _ pre Hpre). cbn [fold_left].
  split; [reflexivity|]. split.
  - intros Hc. destruct ev as [i st|now]; cbn [completes] in Hc; [|discriminate].
    cbn [step listening]. unfold listener. rewrite Hc.
    rewrite released_is_final; reflexivity.
  - intros He. destruct ev as [i st|now]; cbn [expires] in He; [discriminate|].
    cbn [step ticking]. unfold onTick. rewrite He.
    rewrite released_is_final; reflexivity.
Qed.

End TabLoadMore.

(* ================================================================== *)
(** * More on the router and the relay *)
(* ================================================================== *)

Section InertHandlers.

Import Background RelayState.

Context {E : Type} {chrome : Chrome E}.

Local Abbreviation W := (Worker E).

Lemma same_relay_refl (w : W) : same_relay w w.
Proof. repeat split. Qed.

Lemma same_relay_trans (w1 w2 w3 : W) :
  same_relay w1 w2 -> same_relay w2 w3 -> same_relay w1 w3.
Proof.
  unfold same_relay. intros (?&?&?&?&?) (?&?&?&?&?). repeat split; congruence.
Qed.

Lemma same_relay_offline (w w' : W) : same_relay w w' -> offline w -> offline w'.
Proof.
  unfold same_relay, offline, readyState. intros (Hws & Hs & _) H.
  rewrite Hws, Hs. exact H.
Qed.

Lemma inert_pure {A : Type} (c : M W A) :
  (forall w, snd (c w) = w) -> inert c.
Proof. intros H w. rewrite H. split; [apply same_relay_refl|reflexivity]. Qed.

Lemma inert_ret {A : Type} (a : A) : inert (ret (S := W) a).
Proof. apply inert_pure. reflexivity. Qed.

Lemma inert_throw {A : Type} (e : Exn) : inert (throw (S := W) (A := A) e).
Proof. apply inert_pure. reflexivity. Qed.

Lemma inert_lift {A : Type} (o : Outcome A) : inert (lift (S := W) o).
Proof. apply inert_pure. reflexivity. Qed.

Lemma inert_get_state : inert (get_state (S := W)).
Proof. apply inert_pure. reflexivity. Qed.

Lemma inert_call {A : Type} (c : M E A) : inert (call c).
Proof. intros w. unfold call. destruct (c (env w)). repeat split. Qed.

Lemma inert_delay (ms : Z) : inert (delay (E := E) ms).
Proof. intros w. repeat split. Qed.

Lemma inert_set_activeTabId (t : option TabId) :
  inert (modify (set_activeTabId (E := E) t)).
Proof. intros w. repeat split. Qed.

Lemma inert_wsSend (o : JSValue) : inert (wsSend (E := E) o).
Proof.
  intros w. unfold wsSend, offline, readyState.
  destruct (ws w) as [s|]; [destruct (is_OPEN (nth_error (sockets w) s)) eqn:Ho|];
    cbn; repeat split; congruence.
Qed.

Lemma inert_bind {A B : Type} (c : M W A) (k : A -> M W B) :
  inert c -> (forall a, inert (k a)) -> inert (bind c k).
Proof.
  intros Hc Hk w. unfold bind. destruct (Hc w) as [Hr Hw].
  destruct (c w) as [[a|e] w1]; cbn in *; [|split; assumption].
  destruct (Hk a w1) as [Hr1 Hw1]. split.
  - eapply same_relay_trans; eassumption.
  - intros Hoff. rewrite Hw1; [apply Hw; exact Hoff|].
    eapply same_relay_offline; eassumption.
Qed.

Lemma inert_try_catch {A : Type} (c : M W A) (h : Exn -> M W A) :
  inert c -> (forall e, inert (h e)) -> inert (try_catch c h).
Proof.
  intros Hc Hh w. unfold try_catch. destruct (Hc w) as [Hr Hw].
  destruct (c w) as [[a|e] w1]; cbn in *; [split; assumption|].
  destruct (Hh e w1) as [Hr1 Hw1]. split.
  - eapply same_relay_trans; eassumption.
  - intros Hoff. rewrite Hw1; [apply Hw; exact Hoff|].
    eapply same_relay_offline; eassumption.
Qed.

Lemma inert_if {A : Type} (b : bool) (c1 c2 : M W A) :
  inert c1 -> inert c2 -> inert (if b then c1 else c2).
Proof. destruct b; auto. Qed.

Create HintDb still.
#[local] Hint Resolve inert_ret inert_throw inert_lift inert_get_state inert_call
  inert_delay inert_set_activeTabId inert_wsSend inert_bind inert_try_catch inert_if : still.

Lemma inert_ensureContentScript (tabId : TabId) :
  inert (ensureContentScript (E := E) tabId).
Proof. unfold ensureContentScript. auto 10 with still. Qed.

Lemma inert_sendToContentWithRetry (tabId : TabId) (payload : JSValue) (n : nat) :
  inert (sendToContentWithRetry (E := E) tabId payload n).
Proof.
  induction n as [|n IH]; cbn [sendToContentWithRetry]; [auto with still|].
  apply inert_try_catch; [auto with still|].
  intros e. destruct (no_receiver e); [|auto with still].
  apply inert_bind; [apply inert_ensureContentScript|intros _].
  apply inert_bind; [apply inert_delay|intros _; exact IH].
Qed.

Lemma inert_getOrCreateActiveTab : inert (getOrCreateActiveTab (E := E)).
Proof.
  unfold getOrCreateActiveTab. apply inert_bind; [auto with still|].
  intros [|t rest]; auto 10 with still.
Qed.

Lemma inert_currentTab : inert (currentTab (E := E)).
Proof.
  unfold currentTab. apply inert_bind; [auto with still|].
  intros w. destruct (activeTabId w); [auto with still|apply inert_getOrCreateActiveTab].
Qed.

Lemma inert_waitForTabComplete (tabId : TabId) (ms : Z) :
  inert (waitForTabComplete (E := E) tabId ms).
Proof.
  intros w. unfold waitForTabComplete.
  destruct (tab_completes_within tabId ms (env w)) as [[|] e]; repeat split.
Qed.

#[local] Hint Resolve inert_ensureContentScript inert_sendToContentWithRetry
  inert_getOrCreateActiveTab inert_currentTab inert_waitForTabComplete : still.

Lemma inert_switchTab (id args : JSValue) : inert (switchTab (E := E) id args).
Proof.
  unfold switchTab.
  repeat (apply inert_bind; [auto with still|intros ?]).
  destruct (findTarget _ _ _ _); auto 10 with still.
Qed.

Lemma inert_route (id cmd args : JSValue) : inert (route (E := E) id cmd args).
Proof.
  unfold route.
  apply inert_if; [auto 20 with still|].
  apply inert_if.
  { apply inert_bind; [auto with still|intros tabId].
    apply inert_bind; [auto with still|intros _].
    apply inert_bind; [auto 10 with still|intros [[| | | | | | |]|]]; auto with still. }
  apply inert_if; [apply inert_switchTab|].
  apply inert_if; [auto 20 with still|].
  apply inert_if; [|auto with still].
  apply inert_bind; [auto with still|intros url].
  apply inert_bind; [auto with still|intros active].
  apply inert_if; auto 20 with still.
Qed.

Lemma inert_handleControllerCommand (msg : JSValue) :
  inert (handleControllerCommand (E := E) msg).
Proof.
  unfold handleControllerCommand. apply inert_try_catch; [apply inert_route|].
  intros e. apply inert_wsSend.
Qed.

(** X11.  Handling a command, whatever the command and whatever the
    browser does, never makes, closes or replaces a socket and never sets
    or clears a reconnect timer. *)
Theorem handler_leaves_relay_alone (msg : JSValue) (w : W) :
  let w' := snd (handleControllerCommand msg w) in
  ws w' = ws w /\ sockets w' = sockets w /\ reconnectTimer w' = reconnectTimer w
  /\ timers w' = timers w /\ nextTimer w' = nextTimer w.
Proof. exact (proj1 (inert_handleControllerCommand msg w)). Qed.

(** X12.  While the socket the worker holds is not open, handling a command
    puts nothing on the wire: whatever reply the handler makes is dropped,
    and the relay is still offline afterwards. *)
Theorem handler_offline_sends_nothing (msg : JSValue) (w : W) :
  offline w ->
  let w' := snd (handleControllerCommand msg w) in
  wire w' = wire w /\ offline w'.
Proof.
  intros Hoff. destruct (inert_handleControllerCommand msg w) as [Hr Hw].
  split; [apply Hw; exact Hoff|].
  eapply same_relay_offline; eassumption.
Qed.

End InertHandlers.

Section RelayInvariants.

Import Background RelayState.

Context {E : Type} {chrome : Chrome E}.

Variable JSON_parse : string -> option JSValue.

Local Abbreviation W := (Worker E).

Lemma nth_error_set_nth_other {A : Type} (s i : nat) (x : A) (xs : list A) :
  i <> s -> nth_error (set_nth s x xs) i = nth_error xs i.
Proof.
  revert s i. induction xs as [|y xs IH]; intros [|s] [|i] H; cbn; try reflexivity.
  - congruence.
  - apply IH. congruence.
Qed.

Lemma nth_error_set_nth_at {A : Type} (s : nat) (x r : A) (xs : list A) :
  nth_error (set_nth s x xs) s = Some r -> r = x.
Proof.
  revert s. induction xs as [|y xs IH]; intros [|s]; cbn; try discriminate.
  - congruence.
  - apply IH.
Qed.

Lemma nth_error_set_nth_exists {A : Type} (s i : nat) (x r : A) (xs : list A) :
  nth_error xs i = Some r -> exists r', nth_error (set_nth s x xs) i = Some r'.
Proof.
  intros H. destruct (nth_error (set_nth s x xs) i) eqn:Hn; [eauto|].
  apply nth_error_None in Hn. rewrite set_nth_length in Hn.
  assert (i < length xs)%nat by (apply nth_error_Some; congruence). lia.
Qed.

Lemma socket_is_spec (w : W) (s : nat) (r : ReadyState) :
  socket_is w s r = true -> nth_error (sockets w) s = Some r.
Proof.
  unfold socket_is. destruct (nth_error (sockets w) s) as [[]|]; destruct r;
    intros H; try discriminate; reflexivity.
Qed.

Lemma one_live_same_relay (w w' : W) : same_relay w w' -> one_live w -> one_live w'.
Proof.
  unfold same_relay, one_live. intros (Hws & Hs & _) H. rewrite Hws, Hs. exact H.
Qed.

Lemma one_timer_same_relay (w w' : W) : same_relay w w' -> one_timer w -> one_timer w'.
Proof.
  unfold same_relay, one_timer. intros (_ & _ & Hr & Ht & _) H. rewrite Hr, Ht. exact H.
Qed.

Lemma same_relay_onopen (w : W) : same_relay w (onopen w).
Proof.
  unfold onopen.
  apply (inert_bind (wsSend hello) (fun _ => wsSend bootPing));
    [apply inert_wsSend|intros _; apply inert_wsSend].
Qed.

Lemma same_relay_onmessage (data : string) (w : W) :
  same_relay w (onmessage JSON_parse data w).
Proof.
  unfold onmessage. destruct (JSON_parse data) as [msg|]; [|apply same_relay_refl].
  destruct (negb (truthy msg) || negb (truthy (getPropOpt msg "cmd")));
    [apply same_relay_refl|].
  apply inert_handleControllerCommand.
Qed.

Lemma same_relay_onRuntimeMessage (msg : JSValue) (w : W) :
  same_relay w (onRuntimeMessage msg w).
Proof.
  unfold onRuntimeMessage.
  destruct (truthy msg && _ && truthy (getPropOpt msg "id")); [|apply same_relay_refl].
  apply inert_wsSend.
Qed.

(** [connectWS] leaves at most the socket it holds alive. *)
Lemma one_live_connectWS (w : W) :
  (forall i r, nth_error (sockets w) i = Some r -> ws w <> Some i ->
               r = CLOSING \/ r = CLOSED) ->
  one_live (connectWS w).
Proof.
  intros H. unfold connectWS.
  destruct (is_OPEN (readyState w) || is_CONNECTING (readyState w)) eqn:Hlive.
  - split; [exact H|]. unfold readyState in Hlive.
    destruct (ws w) as [s|]; [|discriminate].
    destruct (nth_error (sockets w) s) as [r|] eqn:Hn; [|discriminate]. eauto.
  - split; cbn.
    + intros i r Hn Hne.
      assert (Hi : (i < length (sockets w))%nat).
      { assert (i < length (sockets w ++ [CONNECTING]))%nat
          by (apply nth_error_Some; congruence).
        rewrite length_app in H0. cbn in H0.
        assert (i <> length (sockets w)) by congruence. lia. }
      rewrite nth_error_app1 in Hn by exact Hi.
      destruct (ws w) as [h|] eqn:Hws; [|apply (H i r Hn); discriminate].
      destruct (Nat.eq_dec h i) as [->|Hhi]; [|apply (H i r Hn); congruence].
      unfold readyState in Hlive. rewrite Hws, Hn in Hlive.
      destruct r; cbn in Hlive; try discriminate; auto.
    + exists (length (sockets w)), CONNECTING. split; [reflexivity|apply nth_error_last].
Qed.

Lemma one_timer_connectWS (w : W) : one_timer w -> one_timer (connectWS w).
Proof.
  unfold connectWS. destruct (is_OPEN (readyState w) || is_CONNECTING (readyState w));
    intros H; exact H.
Qed.

Lemma dispatch_keeps_one_live (w : W) (ev : Event) :
  one_live w -> one_live (dispatch JSON_parse w ev).
Proof.
  intros Hinv. pose proof Hinv as [Hrest (h & rh & Hws & Hh)].
  destruct ev as [s|s data|s|s|t|tabId|msg|]; cbn [dispatch].
  - destruct (socket_is w s CONNECTING) eqn:Hs; [|exact Hinv].
    apply socket_is_spec in Hs.
    assert (Hsh : h = s).
    { destruct (Nat.eq_dec h s) as [|Hne]; [assumption|].
      destruct (Hrest s CONNECTING Hs) as [|]; [congruence|discriminate|discriminate]. }
    subst h.
    eapply one_live_same_relay; [apply same_relay_onopen|].
    split; cbn.
    + intros i r Hn Hne. rewrite nth_error_set_nth_other in Hn by congruence.
      apply (Hrest i r Hn Hne).
    + exists s, OPEN. split; [exact Hws|]. apply (nth_error_set_nth s OPEN rh _ Hh).
  - destruct (socket_is w s OPEN); [|exact Hinv].
    eapply one_live_same_relay; [apply same_relay_onmessage|exact Hinv].
  - destruct (socket_is w s CLOSED); [exact Hinv|].
    destruct (Nat.ltb s (length (sockets w))); [|exact Hinv].
    unfold onerror, ws_close. rewrite Hws, Hh.
    destruct rh; try exact Hinv.
    + split; cbn.
      * intros i r Hn Hne. rewrite nth_error_set_nth_other in Hn by congruence.
        apply (Hrest i r Hn Hne).
      * exists h, CLOSING. split; [exact Hws|]. apply (nth_error_set_nth h CLOSING _ _ Hh).
    + split; cbn.
      * intros i r Hn Hne. rewrite nth_error_set_nth_other in Hn by congruence.
        apply (Hrest i r Hn Hne).
      * exists h, CLOSING. split; [exact Hws|]. apply (nth_error_set_nth h CLOSING _ _ Hh).
  - destruct (socket_is w s CLOSED); [exact Hinv|].
    destruct (Nat.ltb s (length (sockets w))); [|exact Hinv].
    unfold onclose. split; cbn.
    + intros i r Hn Hne. destruct (Nat.eq_dec i s) as [->|Hi].
      * right. apply (nth_error_set_nth_at s CLOSED r _ Hn).
      * rewrite nth_error_set_nth_other in Hn by exact Hi. apply (Hrest i r Hn Hne).
    + destruct (nth_error_set_nth_exists s h CLOSED rh _ Hh) as [r' Hr'].
      exists h, r'. split; assumption.
  - destruct (existsb _ (timers w)); [|exact Hinv].
    apply one_live_connectWS. exact Hrest.
  - apply one_live_connectWS. exact Hrest.
  - eapply one_live_same_relay; [apply same_relay_onRuntimeMessage|exact Hinv].
  - apply one_live_connectWS. exact Hrest.
Qed.

Lemma dispatch_keeps_one_timer (w : W) (ev : Event) :
  one_timer w -> one_timer (dispatch JSON_parse w ev).
Proof.
  intros Hinv.
  destruct ev as [s|s data|s|s|t|tabId|msg|]; cbn [dispatch].
  - destruct (socket_is w s CONNECTING); [|exact Hinv].
    eapply one_timer_same_relay; [apply same_relay_onopen|]. exact Hinv.
  - destruct (socket_is w s OPEN); [|exact Hinv].
    eapply one_timer_same_relay; [apply same_relay_onmessage|exact Hinv].
  - destruct (socket_is w s CLOSED); [exact Hinv|].
    destruct (Nat.ltb s (length (sockets w))); [|exact Hinv].
    unfold onerror, ws_close. destruct (ws w) as [h|]; [|exact Hinv].
    destruct (nth_error (sockets w) h) as [[]|]; exact Hinv.
  - destruct (socket_is w s CLOSED); [exact Hinv|].
    destruct (Nat.ltb s (length (sockets w))); [|exact Hinv].
    unfold onclose. right. cbn. exists (nextTimer w). split; [|reflexivity].
    destruct Hinv as [Hnone|(h & Hone & Hheld)].
    + rewrite Hnone. destruct (reconnectTimer w); reflexivity.
    + rewrite Hone, Hheld. cbn. rewrite Nat.eqb_refl. reflexivity.
  - destruct (existsb (fun x => Nat.eqb (fst x) t) (timers w)) eqn:Hex; [|exact Hinv].
    apply one_timer_connectWS. left. cbn.
    destruct Hinv as [Hnone|(h & Hone & Hheld)].
    + rewrite Hnone. reflexivity.
    + rewrite Hone in *. cbn in *. rewrite orb_false_r in Hex. rewrite Hex. reflexivity.
  - apply one_timer_connectWS. exact Hinv.
  - eapply one_timer_same_relay; [apply same_relay_onRuntimeMessage|exact Hinv].
  - apply one_timer_connectWS. exact Hinv.
Qed.

(** X13.  From the moment the script has run, whatever events follow, at
    most one socket is open or connecting, and it is the one the worker
    holds: every other socket is closing or closed ([connectWS] makes a
    new one only when the held one is neither open nor connecting). *)
Theorem at_most_one_live_socket (e : E) (evs : list Event) :
  let w := run JSON_parse (start e) evs in
  one_live w
  /\ forall i j,
       (nth_error (sockets w) i = Some OPEN \/ nth_error (sockets w) i = Some CONNECTING) ->
       (nth_error (sockets w) j = Some OPEN \/ nth_error (sockets w) j = Some CONNECTING) ->
       i = j /\ ws w = Some i.
Proof.
  assert (Hinv : one_live (run JSON_parse (start e) evs)).
  { unfold run.
    assert (H0 : one_live (start e)).
    { unfold start. apply one_live_connectWS. cbn. intros [|i] r H; discriminate. }
    revert H0. generalize (start e).
    induction evs as [|ev evs IH]; intros w Hw; cbn; [exact Hw|].
    apply IH. apply dispatch_keeps_one_live. exact Hw. }
  cbv zeta. split; [exact Hinv|].
  destruct Hinv as [Hrest _].
  assert (Hheld : forall i, (nth_error (sockets (run JSON_parse (start e) evs)) i = Some OPEN
                             \/ nth_error (sockets (run JSON_parse (start e) evs)) i
                                = Some CONNECTING) ->
                            ws (run JSON_parse (start e) evs) = Some i).
  { intros i Hi.
    destruct (ws (run JSON_parse (start e) evs)) as [h|] eqn:Hws.
    - destruct (Nat.eq_dec h i) as [->|Hne]; [reflexivity|].
      destruct Hi as [Hi|Hi]; destruct (Hrest i _ Hi) as [|]; congruence.
    - destruct Hi as [Hi|Hi]; destruct (Hrest i _ Hi) as [|]; congruence. }
  intros i j Hi Hj. pose proof (Hheld i Hi) as H1. pose proof (Hheld j Hj) as H2.
  split; [congruence|exact H1].
Qed.

(** X14.  From the moment the script has run, whatever events follow, at
    most one reconnect is pending: it is due [RETRY_MS] after it was set
    and its handle is the one the worker holds, so that the next close
    replaces it instead of adding to it. *)
Theorem at_most_one_reconnect_pending (e : E) (evs : list Event) :
  let w := run JSON_parse (start e) evs in
  timers w = []
  \/ (exists h, timers w = [(h, 1500)] /\ reconnectTimer w = Some h).
Proof.
  change (one_timer (run JSON_parse (start e) evs)).
  unfold run.
  assert (H0 : one_timer (start e)) by (left; reflexivity).
  revert H0. generalize (start e).
  induction evs as [|ev evs IH]; intros w Hw; cbn; [exact Hw|].
  apply IH. apply dispatch_keeps_one_timer. exact Hw.
Qed.

End RelayInvariants.

Section SessionMore.

Import Background.

Context {E : Type} {chrome : Chrome E}.

Local Abbreviation W := (Worker E).

(** X15.  [getOrCreateActiveTab]: when it returns a tab id, that id is the
    tracked one afterwards; when it throws, the tracked id is as before.
    When the browser reports an active tab in the current window, the first
    one is taken and no tab is created; a blank tab is created only when it
    reports none. *)
Theorem getOrCreateActiveTab_tracks_result (w : W) :
  let q := obj [("active", JBool true); ("currentWindow", JBool true)] in
  match getOrCreateActiveTab w with
  | (Resolved t, w') => activeTabId w' = Some t
  | (Rejected _, w') => activeTabId w' = activeTabId w
  end
  /\ (forall t rest e1,
        tabs_query q (env w) = (Resolved (t :: rest), e1) ->
        getOrCreateActiveTab w
        = (Resolved (tab_id t), set_activeTabId (Some (tab_id t)) (set_env e1 w)))
  /\ (forall e1 created e2,
        tabs_query q (env w) = (Resolved [], e1) ->
        tabs_create (obj [("url", JStr "about:blank")]) e1 = (Resolved created, e2) ->
        getOrCreateActiveTab w
        = (Resolved (tab_id created),
           set_activeTabId (Some (tab_id created)) (set_env e2 w))).
Proof.
  intros q. unfold getOrCreateActiveTab, bind, call, modify, ret. fold q.
  split; [|split].
  - destruct (tabs_query q (env w)) as [[[|t rest]|e] e1]; cbn; try reflexivity.
    destruct (tabs_create _ e1) as [[created|e] e2]; reflexivity.
  - intros t rest e1 Hq. rewrite Hq. reflexivity.
  - intros e1 created e2 Hq Hc. rewrite Hq. cbn. rewrite Hc. reflexivity.
Qed.

(** X16.  [ensureContentScript] never throws and always returns [true],
    whatever the probe and the injection do, and it touches neither the
    tracked tab nor the wire.  When the probe is answered with a truthy
    [ok], nothing is injected and nothing is waited for; otherwise the
    script is injected and, whether the injection succeeded or threw, the
    150 ms delay follows. *)
Theorem ensureContentScript_never_fails (tabId : TabId) (w : W) :
  let r := ensureContentScript tabId w in
  fst r = Resolved true
  /\ activeTabId (snd r) = activeTabId w
  /\ wire (snd r) = wire w
  /\ warnings (snd r) = warnings w
  /\ (forall pong e1,
        tabs_sendMessage tabId probe (env w) = (Resolved pong, e1) ->
        truthy pong && truthy (getPropOpt pong "ok") = true ->
        snd r = set_env e1 w)
  /\ (forall o e1 injected e2,
        tabs_sendMessage tabId probe (env w) = (o, e1) ->
        match o with
        | Resolved pong => truthy pong && truthy (getPropOpt pong "ok") = false
        | Rejected _ => True
        end ->
        scripting_executeScript tabId ["contentScript.js"] e1 = (injected, e2) ->
        snd r = set_env (sleep 150 e2) w).
Proof.
  cbv zeta. unfold ensureContentScript, bind, try_catch, ret, call, delay.
  destruct (tabs_sendMessage tabId probe (env w)) as [[pong|e] e1] eqn:Hp; cbn.
  - destruct (truthy pong && truthy (getPropOpt pong "ok")) eqn:Hok; cbn.
    + repeat split; try reflexivity.
      * intros pong' e1' H _. inversion H. reflexivity.
      * intros o e1' injected e2 H Ho. inversion H; subst. congruence.
    + destruct (scripting_executeScript tabId ["contentScript.js"] e1)
        as [[[]|e'] e2] eqn:Hx; cbn; repeat split; try reflexivity;
        try (intros pong' e1' H Hok'; inversion H; subst; congruence);
        intros o e1' injected e2' H _ Hi; inversion H; subst;
        rewrite Hx in Hi; inversion Hi; reflexivity.
  - destruct (scripting_executeScript tabId ["contentScript.js"] e1)
      as [[[]|e'] e2] eqn:Hx; cbn; repeat split; try reflexivity;
      try (intros pong' e1' H Hok'; discriminate);
      intros o e1' injected e2' H _ Hi; inversion H; subst;
      rewrite Hx in Hi; inversion Hi; reflexivity.
Qed.

Lemma retry_exhausts (tabId : TabId) (payload : JSValue) :
  (forall e, exists err e',
      tabs_sendMessage tabId payload e = (Rejected err, e') /\ no_receiver err = true) ->
  forall n w,
    fst (sendToContentWithRetry tabId payload n w)
    = Rejected (Error "no_receiver_after_retry").
Proof.
  intros Hdeaf n. induction n as [|n IH]; intros w; [reflexivity|].
  cbn [sendToContentWithRetry]. unfold try_catch, call.
  destruct (Hdeaf (env w)) as (err & e' & Hs & Hno). rewrite Hs, Hno.
  rewrite retry_continues. apply IH.
Qed.

(** X17.  [sendToContentWithRetry] for any number of attempts: with none
    it sends nothing and throws [no_receiver_after_retry]; a first send
    that succeeds is the result whatever the number; and in a browser
    where every send of the payload fails for a missing receiver the result
    is [no_receiver_after_retry] after any number of attempts. *)
Theorem sendToContentWithRetry_any_attempts (tabId : TabId) (payload : JSValue) :
  (forall w, sendToContentWithRetry tabId payload 0 w
             = (Rejected (Error "no_receiver_after_retry"), w))
  /\ (forall n w reply e1,
        tabs_sendMessage tabId payload (env w) = (Resolved reply, e1) ->
        sendToContentWithRetry tabId payload (S n) w = (Resolved reply, set_env e1 w))
  /\ ((forall e, exists err e',
          tabs_sendMessage tabId payload e = (Rejected err, e') /\ no_receiver err = true) ->
      forall n w,
        fst (sendToContentWithRetry tabId payload n w)
        = Rejected (Error "no_receiver_after_retry")).
Proof.
  split; [reflexivity|]. split.
  - intros n w reply e1 Hs. cbn [sendToContentWithRetry]. unfold try_catch, call.
    rewrite Hs. reflexivity.
  - apply retry_exhausts.
Qed.

(** X23.  A DOM-class command for a tracked tab to which no message can be
    delivered (every send fails for a missing receiver, injection or not)
    is answered on a connected relay with exactly one envelope, the error
    [no_receiver_after_retry] under the id of the command. *)
Theorem unreachable_tab_is_reported (id cmd args : JSValue) (w : W) (s : nat) (t : TabId) :
  let msg := obj [("id", id); ("cmd", cmd); ("args", args)] in
  Connected w s ->
  is_actionType cmd = true ->
  activeTabId w = Some t ->
  (forall p e, exists err e',
      tabs_sendMessage t p e = (Rejected err, e') /\ no_receiver err = true) ->
  wire (snd (handleControllerCommand msg w))
  = (wire w ++ [(s, errEnvelope id "no_receiver_after_retry")])%list.
Proof.
  intros msg Hconn Hact Htab Hdeaf.
  assert (Hnav : is_str cmd "navigate" = false).
  { unfold is_actionType, actionTypes in Hact. cbn in Hact.
    destruct cmd; try discriminate. cbn in *.
    destruct (s0 =? "navigate")%string eqn:Hn; [|reflexivity].
    apply String.eqb_eq in Hn. subst s0. discriminate. }
  assert (Hcur : currentTab w = (Resolved t, w)).
  { unfold currentTab, bind, get_state. rewrite Htab. reflexivity. }
  rewrite (forward_exact s id cmd (with_default args (obj [])) w t w Hconn Hact Hnav Hcur
             msg eq_refl eq_refl eq_refl).
  pose proof (retry_exhausts t (contentCommand id cmd (with_default args (obj [])))
                (Hdeaf _) 2 (snd (ensureContentScript t w))) as Hex.
  pose proof (silent_ensureContentScript t w) as (Hw1 & _).
  pose proof (silent_sendToContentWithRetry t
                (contentCommand id cmd (with_default args (obj []))) 2
                (snd (ensureContentScript t w))) as (Hw2 & _).
  destruct (sendToContentWithRetry t (contentCommand id cmd (with_default args (obj []))) 2
              (snd (ensureContentScript t w))) as [[resp|e] w3]; cbn in Hex, Hw2;
    [discriminate|].
  inversion Hex; subst e. cbn. congruence.
Qed.

(** X18.  [openTab] on a connected relay: without a truthy [url] the reply
    is [missing_url] and the browser is not called; when the browser
    creates the tab, that tab becomes the tracked one, whatever [active]
    says, and the reply carries its id and url; when the browser refuses,
    the reply carries the message of the refusal and the tracked tab stays
    as it was. *)
Theorem openTab_tracks_created_tab (id : JSValue) (fs : list (string * JSValue))
    (w : W) (s : nat) :
  let msg := obj [("id", id); ("cmd", JStr "openTab"); ("args", JObj fs)] in
  let url := assoc "url" fs in
  let active := with_default (assoc "active" fs) (JBool true) in
  Connected w s ->
  (truthy url = false ->
     handleControllerCommand msg w
     = (Resolved tt, add_wire s (errEnvelope id "missing_url") w))
  /\ (truthy url = true ->
      forall tab e1,
        tabs_create (obj [("url", url); ("active", active)]) (env w) = (Resolved tab, e1) ->
        handleControllerCommand msg w
        = (Resolved tt,
           add_wire s (okEnvelope id (obj [("tabId", JNum (tab_id tab));
                                           ("url", opt_str (tab_url tab))]))
             (set_activeTabId (Some (tab_id tab)) (set_env e1 w))))
  /\ (truthy url = true ->
      forall err e1,
        tabs_create (obj [("url", url); ("active", active)]) (env w) = (Rejected err, e1) ->
        handleControllerCommand msg w
        = (Resolved tt, add_wire s (errEnvelope id (errText err)) (set_env e1 w))).
Proof.
  intros msg url active [Hws Hopen].
  unfold handleControllerCommand, msg, route.
  cbn [getPropOpt assoc String.eqb Ascii.eqb Bool.eqb with_default is_str
       is_actionType actionTypes existsb orb js_or truthy getProp obj].
  fold url. fold active.
  unfold try_catch, bind, lift, call, modify, wsSend.
  split; [|split].
  - intros Hu. rewrite Hu. cbn. rewrite Hws, Hopen. reflexivity.
  - intros Hu tab e1 Hc. rewrite Hu. cbn. subst url active. rewrite Hc. cbn.
    rewrite Hws, Hopen. reflexivity.
  - intros Hu err e1 Hc. rewrite Hu. cbn. subst url active. rewrite Hc. cbn.
    rewrite Hws, Hopen. reflexivity.
Qed.

End SessionMore.

Section RouterMore.

Import Background RelayState.

Context {E : Type} {chrome : Chrome E}.

Local Abbreviation W := (Worker E).




(** X20.  The listener for results sent by [chrome.runtime.sendMessage]:
    on a connected relay a Result Envelope whose [id] is truthy goes out on
    the wire unchanged; one whose [id] is falsy (0, the empty string, null,
    missing) is dropped without a trace, and so is the answer to the
    liveness probe. *)
Theorem runtime_results_need_truthy_id (id env : JSValue) (w : W) (s : nat) :
  Connected w s ->
  answers id env ->
  (truthy id = true -> onRuntimeMessage env w = add_wire s env w)
  /\ (truthy id = false -> onRuntimeMessage env w = w)
  /\ onRuntimeMessage ContentScript.pong w = w.
Proof.
  intros [Hws Hopen] Hans. unfold onRuntimeMessage.
  assert (Hshape : truthy env = true
                   /\ (exists b, getPropOpt env "ok" = JBool b)
                   /\ getPropOpt env "id" = id).
  { destruct Hans as [[data ->]|[error ->]]; cbn; eauto. }
  destruct Hshape as (Ht & [b Hok] & Hid). rewrite Ht, Hok, Hid. cbn.
  repeat split.
  - intros Hi. rewrite Hi. unfold wsSend. rewrite Hws, Hopen. reflexivity.
  - intros Hi. rewrite Hi. reflexivity.
Qed.

(** X21.  The tab search of the [switchTab] branch: the tab found is one of
    the open tabs; an integer index inside the list decides alone,
    whatever title and URL are given; and with no integer index, no truthy
    title and no truthy [urlMatch] nothing is found. *)
Theorem findTarget_priority (tabs : list Tab) (index title urlMatch : JSValue) :
  (forall t, findTarget tabs index title urlMatch = Some t -> In t tabs)
  /\ (forall i t, index = JNum i -> js_index tabs i = Some t ->
                  findTarget tabs index title urlMatch = Some t)
  /\ (Number_isInteger index = false -> truthy title = false ->
      truthy urlMatch = false ->
      findTarget tabs index title urlMatch = None).
Proof.
  split; [|split].
  - intros t. unfold findTarget.
    destruct (match index with JNum i => js_index tabs i | _ => None end) as [t0|] eqn:Hi.
    + intros H. inversion H; subst t0.
      destruct index; try discriminate. unfold js_index in Hi.
      destruct (z <? 0); [discriminate|]. eapply nth_error_In; eassumption.
    + destruct (truthy title).
      * destruct (find _ tabs) as [t1|] eqn:Hf.
        -- intros H. inversion H; subst t1. apply find_some in Hf. apply Hf.
        -- destruct (truthy urlMatch); [|discriminate].
           intros H. apply find_some in H. apply H.
      * destruct (truthy urlMatch); [|discriminate].
        intros H. apply find_some in H. apply H.
  - intros i t -> Hi. unfold findTarget. rewrite Hi. reflexivity.
  - intros Hn Ht Hu. unfold findTarget. rewrite Ht, Hu.
    destruct index; try reflexivity. discriminate.
Qed.

End RouterMore.

(* ================================================================== *)
(** * More on the worker and the content script together *)
(* ================================================================== *)

Section TogetherMore.

Import ContentScript Background Browser.

Lemma answers_defined (id reply : JSValue) : answers id reply -> reply <> JUndefined.
Proof. intros [[d ->]|[e ->]]; discriminate. Qed.

(** What the sample browser resolves a command with is what the listener of
    contentScript.js replied. *)
Lemma browser_reply_answers (t : TabId) (id cmd args reply : JSValue) (b b' : State) :
  sendMessage t (contentCommand id cmd args) b = (Resolved reply, b') ->
  answers id reply.
Proof.
  unfold sendMessage. destruct (find (has_id t) (tabs b)) as [o|]; [|discriminate].
  destruct (negb (listening (page o))); [discriminate|].
  pose proof (RepliesFor_handleCommand id (document (page o)) (clock (page o))
                (future (page o)) cmd (with_default args (obj [])) (effects (page o)))
    as Hfor.
  change (onMessage (document (page o)) (clock (page o)) (future (page o))
            (contentCommand id cmd args) (effects (page o)))
    with (handleCommand (document (page o)) (clock (page o)) (future (page o))
            id cmd (with_default args (obj [])) (effects (page o))).
  destruct (handleCommand _ _ _ id cmd _ _) as [[[r|]|e] eff]; cbn in Hfor |- *.
  - intros H. inversion H; subst. exact Hfor.
  - discriminate.
  - discriminate.
Qed.

Lemma browser_retry_answers (t : TabId) (id cmd args : JSValue) (n : nat) :
  forall (w1 w2 : Worker State) (resp : JSValue),
    sendToContentWithRetry t (contentCommand id cmd args) n w1 = (Resolved resp, w2) ->
    answers id resp.
Proof.
  induction n as [|n IH]; intros w1 w2 resp; [discriminate|].
  cbn [sendToContentWithRetry]. unfold try_catch, call. cbn [tabs_sendMessage chrome].
  destruct (sendMessage t (contentCommand id cmd args) (env w1)) as [[reply|e] b'] eqn:Hs.
  - intros H. inversion H; subst. eapply browser_reply_answers; eassumption.
  - destruct (no_receiver e); [|discriminate].
    rewrite retry_continues. apply IH.
Qed.

(** X22.  In a browser whose tabs answer with contentScript.js: when the
    send of a content-script-class command resolves, what it resolves with
    is a Result Envelope carrying the id of the command, never
    [undefined], and the handler puts exactly that envelope on the wire. *)
Theorem resolved_send_is_relayed_once (msg : JSValue) (w w1 w3 : Worker State) (s : nat)
    (t : TabId) (resp : JSValue) :
  let id := getPropOpt msg "id" in
  let cmd := getPropOpt msg "cmd" in
  let args := with_default (getPropOpt msg "args") (obj []) in
  Connected w s ->
  is_actionType cmd = true ->
  currentTab w = (Resolved t, w1) ->
  sendToContentWithRetry t (contentCommand id cmd args) 2 (snd (ensureContentScript t w1))
  = (Resolved resp, w3) ->
  answers id resp
  /\ handleControllerCommand msg w = (Resolved tt, add_wire s resp w3)
  /\ wire (snd (handleControllerCommand msg w)) = (wire w ++ [(s, resp)])%list.
Proof.
  intros id cmd args Hconn Hact Hcur Hsend.
  assert (Hnav : is_str cmd "navigate" = false).
  { unfold is_actionType, actionTypes in Hact. cbn in Hact.
    destruct cmd; try discriminate. cbn in *.
    destruct (s0 =? "navigate")%string eqn:Hn; [|reflexivity].
    apply String.eqb_eq in Hn. subst s0. discriminate. }
  pose proof (browser_retry_answers t id cmd args 2 _ _ resp Hsend) as Hans.
  assert (Hrun : handleControllerCommand msg w = (Resolved tt, add_wire s resp w3)).
  { rewrite (forward_exact s id cmd args w t w1 Hconn Hact Hnav Hcur
               msg eq_refl eq_refl eq_refl).
    rewrite Hsend. destruct Hans as [[d ->]|[e ->]]; reflexivity. }
  split; [exact Hans|]. split; [exact Hrun|].
  rewrite Hrun. cbn [snd].
  pose proof (silent_currentTab w) as Hs1. rewrite Hcur in Hs1.
  pose proof (silent_ensureContentScript t w1) as Hs2.
  pose proof (silent_sendToContentWithRetry t (contentCommand id cmd args) 2
                (snd (ensureContentScript t w1))) as Hs3.
  rewrite Hsend in Hs3.
  destruct Hs1 as (Hw1 & _), Hs2 as (Hw2 & _), Hs3 as (Hw3 & _).
  cbn [snd] in Hw1, Hw3. cbn. congruence.
Qed.

Lemma find_update_tab (t : TabId) (f : OpenTab -> OpenTab) (b : State) :
  (forall o, has_id t (f o) = has_id t o) ->
  find (has_id t) (tabs (update_tab t f b)) = option_map f (find (has_id t) (tabs b)).
Proof.
  intros Hf. unfold update_tab. cbn [tabs].
  induction (tabs b) as [|o rest IH]; cbn; [reflexivity|].
  destruct (has_id t o) eqn:Ho.
  - rewrite Hf, Ho. reflexivity.
  - rewrite Ho. exact IH.
Qed.

(** X24.  A DOM-class command for a tracked tab that has no content script
    but accepts one: the probe fails, the script is injected, and the first
    send then reaches the freshly injected listener, whose reply goes out
    on the wire; afterwards the tab has the content script and shows the
    effects of the command. *)
Theorem missing_script_is_injected (id cmd args reply : JSValue) (w : Worker State)
    (s : nat) (t : TabId) (o : OpenTab) (eff : list DomEffect) :
  let msg := obj [("id", id); ("cmd", cmd); ("args", args)] in
  let p := page o in
  Connected w s ->
  is_actionType cmd = true ->
  activeTabId w = Some t ->
  find (has_id t) (tabs (env w)) = Some o ->
  listening p = false -> injectable p = true ->
  onMessage (document p) (clock p) (future p)
    (contentCommand id cmd (with_default args (obj []))) (effects p)
  = (Resolved (Some reply), eff) ->
  let w' := snd (handleControllerCommand msg w) in
  wire w' = (wire w ++ [(s, reply)])%list
  /\ option_map listening (pageOf t (env w')) = Some true
  /\ option_map effects (pageOf t (env w')) = Some eff.
Proof.
  intros msg p Hconn Hact Htab Hfind Hl Hi Hreply.
  assert (Hnav : is_str cmd "navigate" = false).
  { unfold is_actionType, actionTypes in Hact. cbn in Hact.
    destruct cmd; try discriminate. cbn in *.
    destruct (s0 =? "navigate")%string eqn:Hn; [|reflexivity].
    apply String.eqb_eq in Hn. subst s0. discriminate. }
  assert (Hcur : currentTab w = (Resolved t, w)).
  { unfold currentTab, bind, get_state. rewrite Htab. reflexivity. }
  assert (Hsame : set_env (env w) w = w) by (destruct w; reflexivity).
  set (inject := fun o : OpenTab => mkOpenTab (info o) (window o) (active o)
                   (mkPage (document (page o)) (clock (page o)) (future (page o)) true
                           (injectable (page o)) (effects (page o)) (pixels (page o)))).
  set (b1 := update_tab t inject (env w)).
  assert (Hens : ensureContentScript t w = (Resolved true, set_env b1 w)).
  { unfold ensureContentScript, bind, try_catch, call, delay, ret.
    cbn [tabs_sendMessage scripting_executeScript sleep chrome].
    unfold sendMessage at 1. rewrite Hfind. fold p. rewrite Hl. cbn.
    rewrite Hsame. unfold executeScript. rewrite Hfind. fold p. rewrite Hi. cbn.
    destruct w; reflexivity. }
  assert (Hfind1 : find (has_id t) (tabs b1) = Some (inject o)).
  { subst b1. rewrite find_update_tab by reflexivity. rewrite Hfind. reflexivity. }
  set (p1 := page (inject o)).
  set (record := fun o : OpenTab => mkOpenTab (info o) (window o) (active o)
                   (mkPage (document p1) (clock p1) (future p1) (listening p1)
                           (injectable p1) eff (pixels p1))).
  set (b2 := update_tab t record b1).
  assert (Hsend : sendMessage t (contentCommand id cmd (with_default args (obj []))) b1
                  = (Resolved reply, b2)).
  { unfold sendMessage. rewrite Hfind1. fold p1.
    change (listening p1) with true. cbn [negb].
    change (document p1) with (document p). change (clock p1) with (clock p).
    change (future p1) with (future p). change (effects p1) with (effects p).
    rewrite Hreply. reflexivity. }
  assert (Hdef : reply <> JUndefined).
  { apply (answers_defined id).
    pose proof (RepliesFor_handleCommand id (document p) (clock p) (future p) cmd
                  (with_default (with_default args (obj [])) (obj [])) (effects p)) as Hfor.
    change (handleCommand (document p) (clock p) (future p) id cmd
              (with_default (with_default args (obj [])) (obj [])) (effects p))
      with (onMessage (document p) (clock p) (future p)
              (contentCommand id cmd (with_default args (obj []))) (effects p)) in Hfor.
    rewrite Hreply in Hfor. exact Hfor. }
  assert (Hrun : handleControllerCommand msg w
                 = (Resolved tt, add_wire s reply (set_env b2 (set_env b1 w)))).
  { rewrite (forward_exact s id cmd (with_default args (obj [])) w t w Hconn Hact Hnav Hcur
               msg eq_refl eq_refl eq_refl).
    rewrite Hens. cbn [snd sendToContentWithRetry]. unfold try_catch, call.
    cbn [tabs_sendMessage chrome env set_env]. rewrite Hsend.
    destruct reply; try reflexivity. congruence. }
  cbv zeta. rewrite Hrun. cbn [snd wire add_wire env set_env].
  split; [reflexivity|].
  unfold pageOf. subst b2. rewrite find_update_tab by reflexivity. rewrite Hfind1.
  split; reflexivity.
Qed.



End TogetherMore.

(* ================================================================== *)
(** * The further theorems at sample inputs *)
(* ================================================================== *)

Section MoreInstances.

Import ContentScript Background Browser Samples MoreSamples RelayState.

(** [type] on the page with a form: into a missing element, into the
    input of the form without [submit], and a text of seven characters, one
    of them outside the Basic Multilingual Plane, which counts eight. *)
Lemma type_on_form_page :
  handleCommand formPage 0 [] (JStr "t") (JStr "type")
    (JObj [("selector", JStr "#none"); ("text", JStr "hello")]) []
  = (Resolved (Some (errEnvelope (JStr "t") "element_not_found")), [])
  /\ handleCommand formPage 0 [] (JStr "t") (JStr "type")
       (JObj [("selector", JStr "#in"); ("text", JStr "hello")]) []
     = (Resolved (Some (okEnvelope (JStr "t") (obj [("typed", JNum 5)]))),
        [Focus 11; SetValue 11 (JStr "hello");
         DispatchEvent 11 "input"; DispatchEvent 11 "change"])
  /\ fst (handleCommand formPage 0 [] (JStr "t") (JStr "type")
            (JObj [("selector", JStr "#in"); ("text", JStr "héllo 😀")]) [])
     = Resolved (Some (okEnvelope (JStr "t") (obj [("typed", JNum 8)]))).
Proof.
  split; [|split].
  - apply (proj1 (type_effects_in_order formPage 0 [] (JStr "t")
                    [("selector", JStr "#none"); ("text", JStr "hello")] [])).
    reflexivity.
  - apply (proj2 (type_effects_in_order formPage 0 [] (JStr "t")
                    [("selector", JStr "#in"); ("text", JStr "hello")] []) inForm).
    reflexivity.
  - rewrite (proj2 (type_effects_in_order formPage 0 [] (JStr "t")
                      [("selector", JStr "#in"); ("text", JStr "héllo 😀")] []) inForm eq_refl).
    reflexivity.
Defined.

(** [scroll] on the page with a form: to a missing element, to an element,
    to the top, to the bottom, and to nowhere. *)
Lemma scroll_on_form_page :
  let run := fun fs => handleCommand formPage 0 [] (JStr "s") (JStr "scroll") (JObj fs) [] in
  fst (run [("selector", JStr "#none"); ("to", JStr "top")])
    = Resolved (Some (errEnvelope (JStr "s") "element_not_found"))
  /\ snd (run [("selector", JStr "#in"); ("to", JStr "top")])
     = [ScrollIntoView 11 (obj [("behavior", JStr "smooth"); ("block", JStr "center")])]
  /\ snd (run [("to", JStr "top")])
     = [WindowScrollTo (obj [("top", JNum 0); ("behavior", JStr "smooth")])]
  /\ snd (run [("to", JStr "bottom")])
     = [WindowScrollTo (obj [("top", JNum 900); ("behavior", JStr "smooth")])]
  /\ run [("to", JStr "middle")]
     = (Resolved (Some (okEnvelope (JStr "s") (obj [("scrolled", JBool true)]))), []).
Proof.
  cbv zeta. split; [|split; [|split; [|split]]].
  - rewrite (proj1 (scroll_targets formPage 0 [] (JStr "s")
                      [("selector", JStr "#none"); ("to", JStr "top")] []) eq_refl eq_refl).
    reflexivity.
  - rewrite (proj1 (proj2 (scroll_targets formPage 0 [] (JStr "s")
                      [("selector", JStr "#in"); ("to", JStr "top")] [])) eq_refl inForm eq_refl).
    reflexivity.
  - rewrite (proj1 (proj2 (proj2 (scroll_targets formPage 0 [] (JStr "s")
                      [("to", JStr "top")] []))) eq_refl eq_refl).
    reflexivity.
  - rewrite (proj1 (proj2 (proj2 (proj2 (scroll_targets formPage 0 [] (JStr "s")
                      [("to", JStr "bottom")] [])))) eq_refl eq_refl).
    reflexivity.
  - apply (proj2 (proj2 (proj2 (proj2 (scroll_targets formPage 0 [] (JStr "s")
                      [("to", JStr "middle")] [])))));
      reflexivity.
Defined.

(** [click] on the page with a form: by selector although [xy] is given,
    and by [xy] alone. *)
Lemma click_on_form_page :
  let effects := fun n =>
    [ScrollIntoView n (obj [("block", JStr "center"); ("inline", JStr "center")]);
     DispatchEvent n "mouseover"; Click n] in
  snd (handleCommand formPage 0 [] (JStr "c") (JStr "click")
         (JObj [("selector", JStr "#in"); ("xy", obj [("x", JNum 1); ("y", JNum 2)])]) [])
  = effects 11%nat
  /\ snd (handleCommand formPage 0 [] (JStr "c") (JStr "click")
            (JObj [("xy", obj [("x", JNum 1); ("y", JNum 2)])]) [])
     = effects 12%nat.
Proof.
  cbv zeta. split.
  - rewrite (proj1 (click_effects_in_order formPage 0 [] (JStr "c")
                      [("selector", JStr "#in"); ("xy", obj [("x", JNum 1); ("y", JNum 2)])]
                      [] inForm) eq_refl eq_refl).
    reflexivity.
  - rewrite (proj2 (click_effects_in_order formPage 0 [] (JStr "c")
                      [("xy", obj [("x", JNum 1); ("y", JNum 2)])]
                      [] loose) eq_refl eq_refl eq_refl).
    reflexivity.
Defined.

(** [query] without [all] on the page of five items lists one value. *)
Lemma query_one_of_five :
  exists results,
    fst (handleCommand fiveItems 0 [] (JStr "q") (JStr "query")
           (JObj [("selector", JStr ".item"); ("limit", JNum 3)]) [])
    = Resolved (Some (okEnvelope (JStr "q") (obj [("results", JArr results)])))
    /\ (length results <= 5)%nat /\ (length results <= 1)%nat.
Proof.
  exists [JStr "one"]. split; [reflexivity|].
  destruct (proj2 (query_reads_only fiveItems 0 [] (JStr "q")
                     (JObj [("selector", JStr ".item"); ("limit", JNum 3)]) [])
              [JStr "one"] eq_refl (JStr ".item")
              [item 1 " one "; item 2 "two"; item 3 "three"; item 4 "four"; item 5 "five"]
              eq_refl eq_refl) as [Hall Hone].
  split; [exact Hall|]. apply Hone. reflexivity.
Defined.

(** A success is not undone by the timeout that follows it. *)
Lemma success_survives_timeout :
  promise (fold_left (step (JStr "#late") (JNum 100) 0)
             [PollTick blank 5000]
             (mkWaiter false true (Some (Resolved true))))
  = Some (Resolved true).
Proof.
  apply (proj1 (waitFor_settlement_is_final (JStr "#late") 0 (JNum 100)
                  (mkWaiter false true (Some (Resolved true))) [PollTick blank 5000])).
  reflexivity.
Defined.

(** The interval left over from an observer match is cleared at the tick
    that still finds the element and at the tick after the timeout, and
    kept at an earlier tick that finds nothing. *)
Lemma leftover_interval_on_samples :
  let w := mkWaiter false true (Some (Resolved true)) in
  polling (step (JStr "#late") (JNum 10000) 0 w (PollTick withLate 150)) = false
  /\ polling (step (JStr "#late") (JNum 10000) 0 w (PollTick blank 10050)) = false
  /\ step (JStr "#late") (JNum 10000) 0 w (PollTick blank 150) = w.
Proof.
  cbv zeta. split; [|split].
  - apply (proj1 (waitFor_leftover_interval (JStr "#late") 0 10000
                    (mkWaiter false true (Some (Resolved true))) withLate 150
                    ltac:(discriminate) eq_refl)).
    left. eexists. reflexivity.
  - apply (proj1 (waitFor_leftover_interval (JStr "#late") 0 10000
                    (mkWaiter false true (Some (Resolved true))) blank 10050
                    ltac:(discriminate) eq_refl)).
    right. split; [eexists; reflexivity|lia].
  - apply (proj2 (waitFor_leftover_interval (JStr "#late") 0 10000
                    (mkWaiter false true (Some (Resolved true))) blank 150
                    ltac:(discriminate) eq_refl)); [reflexivity|lia].
Defined.

(** [waitFor] with the empty selector on a page that rejects it is not
    answered, even long after the timeout. *)
Lemma empty_selector_hangs :
  handleCommand strict 0 [PollTick strict 150; Mutated strict; PollTick strict 60000]
    (JStr "w") (JStr "waitFor") (JObj [("selector", JStr ""); ("timeoutMs", JNum 200)]) []
  = (Resolved None, []).
Proof.
  apply (waitFor_rejected_selector_hangs (JStr "") 0 strict
           [PollTick strict 150; Mutated strict; PollTick strict 60000] (JStr "w")
           [("selector", JStr ""); ("timeoutMs", JNum 200)] []);
    try reflexivity.
  repeat constructor; eexists; reflexivity.
Defined.

(** The load of tab 7: another tab completing and an early tick do not
    count; then the tab completes, or the time runs out. *)
Lemma tab_load_on_samples :
  let idle := [TabLoad.Updated 8 (JStr "complete"); TabLoad.Updated 7 (JStr "loading");
               TabLoad.Tick 250] in
  TabLoad.outcome (TabLoad.waitForTabComplete 7 (Some 20000) 0
                     (idle ++ TabLoad.Updated 7 (JStr "complete") :: [TabLoad.Tick 30000]))
  = Some (Resolved true)
  /\ TabLoad.outcome (TabLoad.waitForTabComplete 7 (Some 20000) 0
                        (idle ++ TabLoad.Tick 20250 :: [TabLoad.Updated 7 (JStr "complete")]))
     = Some (Rejected (Error "tab_load_timeout")).
Proof.
  cbv zeta. split.
  - apply (proj1 (proj2 (waitForTabComplete_first_decides 7 0 20000
             [TabLoad.Updated 8 (JStr "complete"); TabLoad.Updated 7 (JStr "loading");
              TabLoad.Tick 250]
             [TabLoad.Tick 30000] (TabLoad.Updated 7 (JStr "complete"))
             ltac:(repeat constructor)))).
    reflexivity.
  - apply (proj2 (proj2 (waitForTabComplete_first_decides 7 0 20000
             [TabLoad.Updated 8 (JStr "complete"); TabLoad.Updated 7 (JStr "loading");
              TabLoad.Tick 250]
             [TabLoad.Updated 7 (JStr "complete")] (TabLoad.Tick 20250)
             ltac:(repeat constructor)))).
    reflexivity.
Defined.

(** [ping] on the worker whose socket has closed. *)
Lemma ping_while_disconnected :
  offline disconnected
  /\ wire (snd (handleControllerCommand (command "1" "ping" []) disconnected)) = [].
Proof.
  assert (Hoff : offline disconnected) by reflexivity.
  split; [exact Hoff|].
  exact (proj1 (handler_offline_sends_nothing (command "1" "ping" []) disconnected Hoff)).
Defined.

(** After a reconnect the new socket is the only live one. *)
Lemma one_socket_after_reconnect :
  let w := run (fun _ => None) (start twoTabs)
             [SocketOpen 0; SocketClose 0; TimerFired 1; SocketOpen 1] in
  sockets w = [CLOSED; OPEN] /\ ws w = Some 1%nat.
Proof.
  cbv zeta. split; [reflexivity|].
  exact (proj2 (proj2 (at_most_one_live_socket (fun _ => None) twoTabs
                         [SocketOpen 0; SocketClose 0; TimerFired 1; SocketOpen 1])
                  1%nat 1%nat (or_introl eq_refl) (or_introl eq_refl))).
Defined.

(** In the sample browser the active tab of the window is found and none
    is created. *)
Lemma active_tab_is_found :
  getOrCreateActiveTab (set_activeTabId None connected)
  = (Resolved 1, connected).
Proof.
  exact (proj1 (proj2 (getOrCreateActiveTab_tracks_result (set_activeTabId None connected)))
           (info inbox) [] twoTabs eq_refl).
Defined.

(** The probe answered: nothing is injected.  No receiver and no
    injection possible: [true] all the same. *)
Lemma ensure_on_samples :
  snd (ensureContentScript 1 connected) = connected
  /\ fst (ensureContentScript 1 (connectedBare false)) = Resolved true
  /\ snd (ensureContentScript 1 (connectedBare false)) = connectedBare false.
Proof.
  split; [|split].
  - exact (proj1 (proj2 (proj2 (proj2 (proj2 (ensureContentScript_never_fails 1 connected)))))
             pong twoTabs eq_refl eq_refl).
  - exact (proj1 (ensureContentScript_never_fails 1 (connectedBare false))).
  - exact (proj2 (proj2 (proj2 (proj2 (proj2
             (ensureContentScript_never_fails 1 (connectedBare false))))))
             (Rejected (Error "Could not establish connection. Receiving end does not exist."))
             (bare false) (Rejected (Error "Cannot access contents of the page."))
             (bare false) eq_refl I eq_refl).
Defined.

(** In the browser without receivers five attempts end as two do. *)
Lemma five_attempts_on_deaf :
  fst (sendToContentWithRetry (chrome := deaf) 1 (JStr "payload") 5 connectedDeaf)
  = Rejected (Error "no_receiver_after_retry").
Proof.
  apply (proj2 (proj2 (sendToContentWithRetry_any_attempts (chrome := deaf) 1 (JStr "payload")))).
  intros []. eexists. exists tt. split; reflexivity.
Defined.

(** A DOM command in the browser without receivers. *)
Lemma click_on_deaf :
  wire (snd (handleControllerCommand (chrome := deaf)
               (obj [("id", JStr "9"); ("cmd", JStr "click");
                     ("args", obj [("selector", JStr "#go")])])
               (set_activeTabId (Some 1) connectedDeaf)))
  = [(0%nat, errEnvelope (JStr "9") "no_receiver_after_retry")].
Proof.
  apply (unreachable_tab_is_reported (chrome := deaf) (JStr "9") (JStr "click")
           (obj [("selector", JStr "#go")]) (set_activeTabId (Some 1) connectedDeaf) 0 1).
  - split; reflexivity.
  - reflexivity.
  - reflexivity.
  - intros p []. eexists. exists tt. split; reflexivity.
Defined.

(** [openTab] on the sample worker: without a url, and in the
    background. *)
Lemma openTab_on_samples :
  snd (handleControllerCommand
         (obj [("id", JStr "o"); ("cmd", JStr "openTab"); ("args", JObj [])]) connected)
  = add_wire 0 (errEnvelope (JStr "o") "missing_url") connected
  /\ activeTabId (snd (handleControllerCommand
         (obj [("id", JStr "o"); ("cmd", JStr "openTab");
               ("args", JObj [("url", JStr "https://b.example/"); ("active", JBool false)])])
         connected))
     = Some 3.
Proof.
  assert (Hc : Connected connected 0) by (split; reflexivity).
  split.
  - rewrite (proj1 (openTab_tracks_created_tab (JStr "o") [] connected 0 Hc) eq_refl).
    reflexivity.
  - destruct (create (obj [("url", JStr "https://b.example/"); ("active", JBool false)])
                twoTabs) as [r e1] eqn:Hcr.
    vm_compute in Hcr. inversion Hcr; subst r. clear Hcr.
    rewrite (proj1 (proj2 (openTab_tracks_created_tab (JStr "o")
               [("url", JStr "https://b.example/"); ("active", JBool false)] connected 0 Hc))
               eq_refl (mkTab 3 (Some "") (Some "https://b.example/")) e1).
    + reflexivity.
    + subst e1. reflexivity.
Defined.


(** A result for the command 7 is forwarded; one for the command 0 is
    not. *)
Lemma runtime_results_on_samples :
  onRuntimeMessage (okEnvelope (JStr "7") (JStr "done")) connected
  = add_wire 0 (okEnvelope (JStr "7") (JStr "done")) connected
  /\ onRuntimeMessage (okEnvelope (JNum 0) (JStr "done")) connected = connected.
Proof.
  assert (Hc : Connected connected 0) by (split; reflexivity).
  split.
  - apply (proj1 (runtime_results_need_truthy_id (JStr "7")
                    (okEnvelope (JStr "7") (JStr "done")) connected 0 Hc
                    (or_introl (ex_intro _ (JStr "done") eq_refl)))).
    reflexivity.
  - apply (proj1 (proj2 (runtime_results_need_truthy_id (JNum 0)
                    (okEnvelope (JNum 0) (JStr "done")) connected 0 Hc
                    (or_introl (ex_intro _ (JStr "done") eq_refl))))).
    reflexivity.
Defined.

(** The tab search on the two sample tabs: index 1 wins over a title that
    names the first tab. *)
Lemma findTarget_on_samples :
  findTarget [info inbox; info gmail] (JNum 1) (JStr "Inbox") JUndefined = Some (info gmail)
  /\ In (info gmail) [info inbox; info gmail]
  /\ findTarget [info inbox; info gmail] (JStr "1") JUndefined (JStr "") = None.
Proof.
  destruct (findTarget_priority [info inbox; info gmail] (JNum 1) (JStr "Inbox") JUndefined)
    as (Hin & Hidx & _).
  pose proof (Hidx 1 (info gmail) eq_refl eq_refl) as Hfound.
  split; [exact Hfound|]. split; [exact (Hin _ Hfound)|].
  exact (proj2 (proj2 (findTarget_priority [info inbox; info gmail]
                         (JStr "1") JUndefined (JStr ""))) eq_refl eq_refl eq_refl).
Defined.

(** A [query] passed through the sample browser: the reply of the content
    script is the one frame sent. *)
Lemma query_through_browser :
  let reply := okEnvelope (JStr "q") (obj [("results", JArr [JStr "one"])]) in
  answers (JStr "q") reply
  /\ wire (snd (handleControllerCommand
                  (command "q" "query" [("selector", JStr ".item")]) connected))
     = [(0%nat, reply)].
Proof.
  cbv zeta.
  destruct (resolved_send_is_relayed_once
              (command "q" "query" [("selector", JStr ".item")])
              connected connected connected 0 1
              (okEnvelope (JStr "q") (obj [("results", JArr [JStr "one"])]))
              (conj eq_refl eq_refl) eq_refl eq_refl eq_refl)
    as (Hans & _ & Hwire).
  split; [exact Hans|exact Hwire].
Defined.

(** A [click] for the tab without the content script, which accepts one. *)
Lemma click_after_injection :
  let w' := snd (handleControllerCommand
                   (obj [("id", JStr "c"); ("cmd", JStr "click");
                         ("args", obj [("selector", JStr ".item")])])
                   (connectedBare true)) in
  wire w' = [(0%nat, okEnvelope (JStr "c") (obj [("clicked", JStr ".item")]))]
  /\ option_map listening (pageOf 1 (env w')) = Some true.
Proof.
  destruct (missing_script_is_injected (JStr "c") (JStr "click")
              (obj [("selector", JStr ".item")])
              (okEnvelope (JStr "c") (obj [("clicked", JStr ".item")]))
              (connectedBare true) 0 1
              (mkOpenTab (mkTab 1 (Some "Inbox") (Some "https://mail.example/inbox")) 0 true
                 (mkPage fiveItems 0 [] false true [] "INBOX"))
              [ScrollIntoView 1 (obj [("block", JStr "center"); ("inline", JStr "center")]);
               DispatchEvent 1 "mouseover"; Click 1]
              (conj eq_refl eq_refl) eq_refl eq_refl eq_refl eq_refl eq_refl eq_refl)
    as (Hwire & Hlisten & _).
  split; [exact Hwire|exact Hlisten].
Defined.

End MoreInstances.
